(** * CASE session establishment: a shallow embedding of
      [src/protocols/secure_channel/CASESession.cpp]

    The session object of the CASE handshake is embedded as a record, its
    member functions as functions that pass the record along, and the
    collaborators whose code lives elsewhere in the tree (crypto primitives,
    fabric table, exchange layer, TLV encoding) as one record of operations
    that every function takes as a parameter.  The calls the session makes
    on its exchange and on its delegate are recorded, in order, in a trace
    kept with the session. *)

From Stdlib Require Import String.
From Stdlib Require Import ZArith List Bool Lia.
From Stdlib.Strings Require Import Byte.
Import ListNotations.
Open Scope Z_scope.

(** ** Error codes *)

(** [CHIP_ERROR] values named in the session code; any other code a
    collaborator may hand back is [CHIP_ERROR_OTHER]. *)
Inductive CHIP_ERROR : Type :=
| CHIP_NO_ERROR
| CHIP_ERROR_INVALID_ARGUMENT
| CHIP_ERROR_INCORRECT_STATE
| CHIP_ERROR_INVALID_MESSAGE_TYPE
| CHIP_ERROR_INVALID_CASE_PARAMETER
| CHIP_ERROR_UNEXPECTED_TLV_ELEMENT
| CHIP_ERROR_KEY_NOT_FOUND
| CHIP_ERROR_NO_MEMORY
| CHIP_ERROR_BUFFER_TOO_SMALL
| CHIP_ERROR_INTERNAL
| CHIP_ERROR_VERSION_MISMATCH
| CHIP_ERROR_TIMEOUT
| CHIP_ERROR_NO_SHARED_TRUSTED_ROOT
| CHIP_ERROR_INVALID_TLV_TAG
| CHIP_ERROR_INVALID_TLV_ELEMENT
| CHIP_ERROR_WRONG_TLV_TYPE
| CHIP_ERROR_MESSAGE_INCOMPLETE
| CHIP_ERROR_INVALID_INTEGER_VALUE
| CHIP_END_OF_TLV
| CHIP_ERROR_OTHER (code : Z).

(** [err == CHIP_NO_ERROR] *)
Definition isNoError (err : CHIP_ERROR) : bool :=
  match err with CHIP_NO_ERROR => true | _ => false end.

Definition isKeyNotFound (err : CHIP_ERROR) : bool :=
  match err with CHIP_ERROR_KEY_NOT_FOUND => true | _ => false end.

Definition isEndOfTLV (err : CHIP_ERROR) : bool :=
  match err with CHIP_END_OF_TLV => true | _ => false end.

(** ** Bytes and buffers *)

Definition ByteSpan := list byte.

(** Conversion of an integer to [unsigned char]: the low eight bits. *)
Definition uint8_of_Z (z : Z) : byte :=
  match Byte.of_N (Z.to_N (z mod 256)) with
  | Some b => b
  | None => x00
  end.

(** [static_cast<int>] of a wider unsigned value: reduction to 32 bits,
    read as two's complement. *)
Definition static_cast_int (z : Z) : Z :=
  (z + 2 ^ 31) mod 2 ^ 32 - 2 ^ 31.

(** [memset(buf, c, n)]: the first [n] bytes become [(unsigned char) c]. *)
Definition memset (buf : list byte) (c : Z) (n : nat) : list byte :=
  repeat (uint8_of_Z c) n ++ skipn n buf.

(** [memcpy(dst, src, n)]: the first [n] bytes of [dst] become those of
    [src]. *)
Definition memcpy (dst src : list byte) (n : nat) : list byte :=
  firstn n src ++ skipn n dst.

Fixpoint bytes_eqb (a b : list byte) : bool :=
  match a, b with
  | [], [] => true
  | x :: a', y :: b' => Byte.eqb x y && bytes_eqb a' b'
  | _, _ => false
  end.

(** [ByteSpan::data_equal] *)
Definition data_equal (a b : ByteSpan) : bool := bytes_eqb a b.

(** ** Sizes and constants *)

Definition kKDFSR2Info : list byte := [x53; x69; x67; x6d; x61; x32].
Definition kKDFSR3Info : list byte := [x53; x69; x67; x6d; x61; x33].
Definition kKDFInfoLength : nat := length kKDFSR2Info.
Definition kKDFSEInfo : list byte :=
  [x53; x65; x73; x73; x69; x6f; x6e; x4b; x65; x79; x73].
Definition kKDFSEInfoLength : nat := length kKDFSEInfo.

Definition kKDFS1RKeyInfo : list byte :=
  [x53; x69; x67; x6d; x61; x31; x5f; x52; x65; x73; x75; x6d; x65].
Definition kKDFS2RKeyInfo : list byte :=
  [x53; x69; x67; x6d; x61; x32; x5f; x52; x65; x73; x75; x6d; x65].

Definition kResume1MIC_Nonce : list byte :=
  [x4e; x43; x41; x53; x45; x5f; x53; x69; x67; x6d; x61; x53; x31].
Definition kResume2MIC_Nonce : list byte :=
  [x4e; x43; x41; x53; x45; x5f; x53; x69; x67; x6d; x61; x53; x32].
Definition kTBEData2_Nonce : list byte :=
  [x4e; x43; x41; x53; x45; x5f; x53; x69; x67; x6d; x61; x32; x4e].
Definition kTBEData3_Nonce : list byte :=
  [x4e; x43; x41; x53; x45; x5f; x53; x69; x67; x6d; x61; x33; x4e].
Definition kTBEDataNonceLength : nat := length kTBEData2_Nonce.

Definition kTAGSize : nat := 16.
Definition kCASESessionVersion : Z := 1.

Definition kTag_TBEData_SenderNOC : Z := 1.
Definition kTag_TBEData_SenderICAC : Z := 2.
Definition kTag_TBEData_Signature : Z := 3.
Definition kTag_TBEData_ResumptionID : Z := 4.

Definition kSigma_Response_Timeout : Z := 10000.

(** Modelled from the spec: the size constants of [CASESession.h] and
    [CHIPCryptoPAL.h] are not among the sources.  The data model gives a
    32-byte initiator random, a 32-byte SHA-256 output, a 65-byte P-256
    point, a 16-byte resumption id, a 16-byte IPK and 16-byte AEAD keys. *)
Definition kSigmaParamRandomNumberSize : nat := 32.
Definition kSHA256_Hash_Length : nat := 32.
Definition kP256_PublicKey_Length : nat := 65.
Definition kCASEResumptionIDSize : nat := 16.
Definition kIPKSize : nat := 16.
Definition kAEADKeySize : nat := 16.

(** ** Early exit *)

(** A function body either runs on with a value or leaves with an error
    code, as [ReturnErrorOnFailure], [VerifyOrReturnError], [SuccessOrExit]
    and [VerifyOrExit] do.  [Exit CHIP_NO_ERROR] is an early
    [return CHIP_NO_ERROR]. *)
Inductive Outcome (A : Type) : Type :=
| Done (a : A)
| Exit (err : CHIP_ERROR).
Arguments Done {A} a.
Arguments Exit {A} err.

Definition obind {A B} (o : Outcome A) (k : A -> Outcome B) : Outcome B :=
  match o with
  | Done a => k a
  | Exit err => Exit err
  end.

(** [ReturnErrorOnFailure(expr)] for a call that also fills an output. *)
Definition otry {A} (r : CHIP_ERROR * A) : Outcome A :=
  if isNoError (fst r) then Done (snd r) else Exit (fst r).

(** [VerifyOrReturnError(cond, err)] *)
Definition overify (cond : bool) (err : CHIP_ERROR) : Outcome unit :=
  if cond then Done tt else Exit err.

(** The error code a body leaves its function with. *)
Definition errOf {A} (o : Outcome A) : CHIP_ERROR :=
  match o with
  | Done _ => CHIP_NO_ERROR
  | Exit err => err
  end.

Declare Scope outcome_scope.
Delimit Scope outcome_scope with O.
Notation "x <- a ;; b" := (obind a (fun x => b))
  (at level 61, a at next level, right associativity) : outcome_scope.
Notation "' p <- a ;; b" := (obind a (fun p => b))
  (at level 61, p pattern, a at next level, right associativity) : outcome_scope.
Notation "a ;; b" := (obind a (fun _ => b))
  (at level 61, right associativity) : outcome_scope.

(** ** TLV elements and the TLV reader *)

Inductive Tag : Type :=
| AnonymousTag
| ContextTag (n : Z)
| ProfileTag (profile n : Z).

Definition Tag_eqb (a b : Tag) : bool :=
  match a, b with
  | AnonymousTag, AnonymousTag => true
  | ContextTag n, ContextTag m => Z.eqb n m
  | ProfileTag p n, ProfileTag q m => Z.eqb p q && Z.eqb n m
  | _, _ => false
  end.

Inductive TLVType : Type :=
| kTLVType_NotSpecified
| kTLVType_UnsignedInteger
| kTLVType_ByteString
| kTLVType_UTF8String
| kTLVType_Structure
| kTLVType_Other (code : Z).

Definition TLVType_eqb (a b : TLVType) : bool :=
  match a, b with
  | kTLVType_NotSpecified, kTLVType_NotSpecified => true
  | kTLVType_UnsignedInteger, kTLVType_UnsignedInteger => true
  | kTLVType_ByteString, kTLVType_ByteString => true
  | kTLVType_UTF8String, kTLVType_UTF8String => true
  | kTLVType_Structure, kTLVType_Structure => true
  | kTLVType_Other c, kTLVType_Other d => Z.eqb c d
  | _, _ => false
  end.

(** A decoded TLV element: its tag and its typed value. *)
#[warnings="-register-all"] Inductive TLVElement : Type :=
| TLVUnsigned (tag : Tag) (v : Z)
| TLVByteString (tag : Tag) (data : list byte)
| TLVUTF8String (tag : Tag) (data : list byte)
| TLVStructure (tag : Tag) (members : list TLVElement)
| TLVOther (tag : Tag) (code : Z).

Definition elemTag (e : TLVElement) : Tag :=
  match e with
  | TLVUnsigned t _ | TLVByteString t _ | TLVUTF8String t _
  | TLVStructure t _ | TLVOther t _ => t
  end.

Definition elemType (e : TLVElement) : TLVType :=
  match e with
  | TLVUnsigned _ _ => kTLVType_UnsignedInteger
  | TLVByteString _ _ => kTLVType_ByteString
  | TLVUTF8String _ _ => kTLVType_UTF8String
  | TLVStructure _ _ => kTLVType_Structure
  | TLVOther _ c => kTLVType_Other c
  end.

(** Modelled from the spec: the TLV reader ([lib/core/CHIPTLV]) is not
    among the sources.  The codec section describes every message as one
    tagged structure of context-numbered members and decoders as strict on
    element types, lengths and integer ranges; the reader is modelled on
    the decoded elements: the element it stands on, the siblings still
    ahead, and the siblings of each container it has entered. *)
Record TLVReader : Type := mkReader {
  rdElem : option TLVElement;
  rdAhead : list TLVElement;
  rdOuter : list (list TLVElement)
}.

Definition TLVReader_Init (elems : list TLVElement) : TLVReader :=
  mkReader None elems [].

(** [Next()] *)
Definition TLVReader_Next (r : TLVReader) : CHIP_ERROR * TLVReader :=
  match rdAhead r with
  | [] => (CHIP_END_OF_TLV, mkReader None [] (rdOuter r))
  | e :: rest => (CHIP_NO_ERROR, mkReader (Some e) rest (rdOuter r))
  end.

Definition TLVReader_GetTag (r : TLVReader) : Tag :=
  match rdElem r with
  | Some e => elemTag e
  | None => AnonymousTag
  end.

Definition TLVReader_GetType (r : TLVReader) : TLVType :=
  match rdElem r with
  | Some e => elemType e
  | None => kTLVType_NotSpecified
  end.

(** [Next(expectedTag)] *)
Definition TLVReader_NextTag (expectedTag : Tag) (r : TLVReader)
  : CHIP_ERROR * TLVReader :=
  let '(err, r') := TLVReader_Next r in
  if negb (isNoError err) then (err, r')
  else if negb (Tag_eqb (TLVReader_GetTag r') expectedTag)
       then (CHIP_ERROR_UNEXPECTED_TLV_ELEMENT, r')
       else (CHIP_NO_ERROR, r').

(** [Next(expectedType, expectedTag)] *)
Definition TLVReader_NextTypeTag (expectedType : TLVType) (expectedTag : Tag)
  (r : TLVReader) : CHIP_ERROR * TLVReader :=
  let '(err, r') := TLVReader_NextTag expectedTag r in
  if negb (isNoError err) then (err, r')
  else if negb (TLVType_eqb (TLVReader_GetType r') expectedType)
       then (CHIP_ERROR_WRONG_TLV_TYPE, r')
       else (CHIP_NO_ERROR, r').

(** [EnterContainer(outerContainerType)] *)
Definition TLVReader_EnterContainer (r : TLVReader) : CHIP_ERROR * TLVReader :=
  match rdElem r with
  | Some (TLVStructure _ members) =>
      (CHIP_NO_ERROR, mkReader None members (rdAhead r :: rdOuter r))
  | _ => (CHIP_ERROR_INCORRECT_STATE, r)
  end.

(** [ExitContainer(outerContainerType)]: the members not yet read are
    skipped. *)
Definition TLVReader_ExitContainer (r : TLVReader) : CHIP_ERROR * TLVReader :=
  match rdOuter r with
  | siblings :: outer => (CHIP_NO_ERROR, mkReader None siblings outer)
  | [] => (CHIP_ERROR_INCORRECT_STATE, r)
  end.

(** [TagNumFromTag(GetTag())] *)
Definition TagNumFromTag (t : Tag) : Z :=
  match t with
  | AnonymousTag => 0
  | ContextTag n => n
  | ProfileTag _ n => n
  end.

(** [GetLength()] *)
Definition TLVReader_GetLength (r : TLVReader) : nat :=
  match rdElem r with
  | Some (TLVByteString _ d) | Some (TLVUTF8String _ d) => length d
  | _ => 0%nat
  end.

(** [GetByteView(span)] and [Get(ByteSpan &)] *)
Definition TLVReader_GetByteView (r : TLVReader) : CHIP_ERROR * ByteSpan :=
  match rdElem r with
  | Some (TLVByteString _ d) | Some (TLVUTF8String _ d) => (CHIP_NO_ERROR, d)
  | _ => (CHIP_ERROR_WRONG_TLV_TYPE, [])
  end.

(** [GetBytes(buf, bufSize)]: the element's bytes land at the start of the
    buffer, whose further bytes keep their content. *)
Definition TLVReader_GetBytes (r : TLVReader) (buf : list byte) (bufSize : nat)
  : CHIP_ERROR * list byte :=
  match rdElem r with
  | Some (TLVByteString _ d) | Some (TLVUTF8String _ d) =>
      if Nat.ltb bufSize (length d) then (CHIP_ERROR_BUFFER_TOO_SMALL, buf)
      else (CHIP_NO_ERROR, memcpy buf d (length d))
  | _ => (CHIP_ERROR_WRONG_TLV_TYPE, buf)
  end.

(** [Get(uint16_t &)] *)
Definition TLVReader_Get_uint16 (r : TLVReader) : CHIP_ERROR * Z :=
  match rdElem r with
  | Some (TLVUnsigned _ v) =>
      if (0 <=? v) && (v <=? 65535) then (CHIP_NO_ERROR, v)
      else (CHIP_ERROR_INVALID_INTEGER_VALUE, 0)
  | _ => (CHIP_ERROR_WRONG_TLV_TYPE, 0)
  end.

(** ** Sigma1 decoding *)

(** The output parameters of [ParseSigma1]. *)
Record Sigma1Params : Type := mkSigma1Params {
  initiatorRandom : ByteSpan;
  initiatorSessionId : Z;
  destinationId : ByteSpan;
  initiatorEphPubKey : ByteSpan;
  resumptionRequested : bool;
  resumptionId : ByteSpan;
  initiatorResumeMIC : ByteSpan
}.

Section Sigma1.
Local Open Scope outcome_scope.

Definition kInitiatorRandomTag : Z := 1.
Definition kInitiatorSessionIdTag : Z := 2.
Definition kDestinationIdTag : Z := 3.
Definition kInitiatorPubKeyTag : Z := 4.
Definition kInitiatorMRPParamsTag : Z := 5.
Definition kResumptionIDTag : Z := 6.
Definition kResume1MICTag : Z := 7.

(** [CASESession::ParseSigma1].  The caller hands in empty spans for
    [resumptionId] and [initiatorResumeMIC]; they stay empty when their tag
    is not met. *)
Definition ParseSigma1 (tlvReader : TLVReader) : Outcome Sigma1Params :=
  let containerType := kTLVType_Structure in
  tlvReader <- otry (TLVReader_NextTypeTag containerType AnonymousTag tlvReader) ;;
  tlvReader <- otry (TLVReader_EnterContainer tlvReader) ;;

  tlvReader <- otry (TLVReader_NextTag (ContextTag kInitiatorRandomTag) tlvReader) ;;
  initiatorRandom <- otry (TLVReader_GetByteView tlvReader) ;;
  overify (Nat.eqb (length initiatorRandom) kSigmaParamRandomNumberSize)
          CHIP_ERROR_INVALID_CASE_PARAMETER ;;

  tlvReader <- otry (TLVReader_NextTag (ContextTag kInitiatorSessionIdTag) tlvReader) ;;
  initiatorSessionId <- otry (TLVReader_Get_uint16 tlvReader) ;;

  tlvReader <- otry (TLVReader_NextTag (ContextTag kDestinationIdTag) tlvReader) ;;
  destinationId <- otry (TLVReader_GetByteView tlvReader) ;;
  overify (Nat.eqb (length destinationId) kSHA256_Hash_Length)
          CHIP_ERROR_INVALID_CASE_PARAMETER ;;

  tlvReader <- otry (TLVReader_NextTag (ContextTag kInitiatorPubKeyTag) tlvReader) ;;
  initiatorEphPubKey <- otry (TLVReader_GetByteView tlvReader) ;;
  overify (Nat.eqb (length initiatorEphPubKey) kP256_PublicKey_Length)
          CHIP_ERROR_INVALID_CASE_PARAMETER ;;

  (* Optional members start here. *)
  let '(err, tlvReader) := TLVReader_Next tlvReader in
  let '(err, tlvReader) :=
    if isNoError err
       && Tag_eqb (TLVReader_GetTag tlvReader) (ContextTag kInitiatorMRPParamsTag)
    then TLVReader_Next tlvReader
    else (err, tlvReader) in

  let resumptionIDTagFound :=
    isNoError err
    && Tag_eqb (TLVReader_GetTag tlvReader) (ContextTag kResumptionIDTag) in
  '(err, tlvReader, resumptionId) <-
    (if resumptionIDTagFound
     then
       resumptionId <- otry (TLVReader_GetByteView tlvReader) ;;
       overify (Nat.eqb (length resumptionId) kCASEResumptionIDSize)
               CHIP_ERROR_INVALID_CASE_PARAMETER ;;
       let '(err, tlvReader) := TLVReader_Next tlvReader in
       Done (err, tlvReader, resumptionId)
     else Done (err, tlvReader, [])) ;;

  let resume1MICTagFound :=
    isNoError err
    && Tag_eqb (TLVReader_GetTag tlvReader) (ContextTag kResume1MICTag) in
  '(err, tlvReader, initiatorResumeMIC) <-
    (if resume1MICTagFound
     then
       initiatorResumeMIC <- otry (TLVReader_GetByteView tlvReader) ;;
       overify (Nat.eqb (length initiatorResumeMIC) kTAGSize)
               CHIP_ERROR_INVALID_CASE_PARAMETER ;;
       let '(err, tlvReader) := TLVReader_Next tlvReader in
       Done (err, tlvReader, initiatorResumeMIC)
     else Done (err, tlvReader, [])) ;;

  (* We ran out of struct members, but that's OK, because they were optional. *)
  let err := if isEndOfTLV err then CHIP_NO_ERROR else err in

  otry (err, tt) ;;
  tlvReader <- otry (TLVReader_ExitContainer tlvReader) ;;

  resumptionRequested <-
    (if resumptionIDTagFound && resume1MICTagFound then Done true
     else if negb resumptionIDTagFound && negb resume1MICTagFound then Done false
     else Exit CHIP_ERROR_UNEXPECTED_TLV_ELEMENT) ;;

  Done (mkSigma1Params initiatorRandom initiatorSessionId destinationId
          initiatorEphPubKey resumptionRequested resumptionId initiatorResumeMIC).

End Sigma1.

(** ** The IPK placeholder *)

(** [CASESession::RetrieveIPK]: [fabricId] is a [uint64_t], [ipk] a mutable
    span whose bytes are returned. *)
Definition RetrieveIPK (fabricId : Z) (ipk : list byte) : CHIP_ERROR * list byte :=
  (CHIP_NO_ERROR, memset ipk (static_cast_int fabricId) (length ipk)).

(** ** Protocol enumerations *)

(** Modelled from the spec: the [State] enumeration of [CASESession.h] is
    not among the sources.  Its members are those the session code assigns
    and switches on; the specification's [Established] and [Failed] are not
    states of the code, which records establishment in a flag and returns
    to [kInitialized] when it clears the session. *)
Inductive State : Type :=
| kInitialized
| kSentSigma1
| kSentSigma2
| kSentSigma3
| kSentSigma2Resume.

(** Message types of the secure channel protocol that the session names;
    every other type is [MsgType_Other]. *)
Inductive MsgType : Type :=
| CASE_Sigma1
| CASE_Sigma2
| CASE_Sigma3
| CASE_Sigma2Resume
| StatusReport
| MsgType_Other (code : Z).

(** Protocol codes of a Status Report. *)
Inductive ProtocolCode : Type :=
| kProtocolCodeSuccess
| kProtocolCodeNoSharedRoot
| kProtocolCodeInvalidParam
| kProtocolCode_Other (code : Z).

Inductive GeneralStatusCode : Type :=
| kSuccess
| kFailure
| GeneralStatusCode_Other (code : Z).

Inductive SessionRole : Type := kInitiator | kResponder.
(** The one info type the session asks for. *)
Inductive SessionInfoType : Type := kSessionEstablishment.

Inductive KeyUsageFlags : Type := kDigitalSignature.
Inductive KeyPurposeFlags : Type := kServerAuth.

(** ** Collaborator handles *)

(** Pointers to objects owned elsewhere are object identities; [None] is
    [nullptr]. *)
Definition ExchangeContext := Z.
Definition SessionEstablishmentDelegate := Z.
Definition FabricInfo := Z.
Definition FabricTable := Z.
Definition FabricIndex := Z.
Definition OperationalKey := Z.
Definition NodeId := Z.
Definition PeerAddress := Z.

Definition ExchangeContext_eqb (a b : option ExchangeContext) : bool :=
  match a, b with
  | None, None => true
  | Some x, Some y => Z.eqb x y
  | _, _ => false
  end.

(** [PacketBufferHandle]: a null handle or the on-wire bytes from [Start()]
    of length [DataLength()]. *)
Definition PacketBufferHandle := option (list byte).

(** What the session does to its collaborators, in program order. *)
Inductive Event : Type :=
| EvSetResponseTimeout (ec : ExchangeContext) (timeout : Z)
| EvSendMessage (ec : option ExchangeContext) (msgType : MsgType)
    (payload : list byte) (expectResponse : bool)
| EvSendStatusReport (ec : option ExchangeContext) (protocolCode : ProtocolCode)
| EvExchangeClose (ec : ExchangeContext)
| EvOnSessionEstablishmentStarted
| EvOnSessionEstablished
| EvOnSessionEstablishmentError (err : CHIP_ERROR).

(** ** Members of the session *)

(** Modelled from the spec: [CapacityBoundBuffer] and the secret type built
    on it ([CHIPCryptoPAL.h]) are not among the sources.  The data model
    gives a shared secret of up to 32 bytes: a backing array, whose size is
    [Capacity()], and the length in use, which [SetLength] refuses to set
    beyond the capacity. *)
Record P256ECDHDerivedSecret : Type := mkSecret {
  secretBytes : list byte;
  secretLength : nat
}.

Definition Capacity (b : P256ECDHDerivedSecret) : nat := length (secretBytes b).

(** [SetLength(len)] *)
Definition SetLength (b : P256ECDHDerivedSecret) (len : nat)
  : CHIP_ERROR * P256ECDHDerivedSecret :=
  if Nat.leb len (Capacity b) then (CHIP_NO_ERROR, mkSecret (secretBytes b) len)
  else (CHIP_ERROR_INVALID_ARGUMENT, b).

(** The bytes in use: [ByteSpan(mSharedSecret, mSharedSecret.Length())]. *)
Definition secretSpan (b : P256ECDHDerivedSecret) : ByteSpan :=
  firstn (secretLength b) (secretBytes b).

Record P256Keypair : Type := mkKeypair {
  keypairInitialized : bool;
  keypairPrivate : list byte;
  keypairPubkey : list byte
}.

Record ValidationContext : Type := mkValidationContext {
  mEffectiveTime : Z;
  mRequiredKeyUsages : list KeyUsageFlags;
  mRequiredKeyPurposes : list KeyPurposeFlags
}.

Definition ValidationContext_Reset : ValidationContext :=
  mkValidationContext 0 [] [].

Record ASN1UniversalTime : Type := mkASN1UniversalTime {
  Year : Z; Month : Z; Day : Z; Hour : Z; Minute : Z; Second : Z
}.

(** The members of the [PairingSession] base class that the session
    reads and writes through its accessors. *)
Record PairingSession : Type := mkPairingSession {
  mPeerNodeId : NodeId;
  mLocalSessionId : Z;
  mPeerSessionId : Z;
  mPeerAddress : PeerAddress
}.

Record StatusReportMsg : Type := mkStatusReport {
  generalCode : GeneralStatusCode;
  protocolId : Z;
  protocolCode : ProtocolCode
}.

(** [CASESessionSerializable] *)
Record CASESessionSerializable : Type := mkSerializable {
  ser_mVersion : Z;
  ser_mSharedSecretLen : Z;
  ser_mSharedSecret : list byte;
  ser_mMessageDigestLen : Z;
  ser_mMessageDigest : list byte;
  ser_mPeerNodeId : Z;
  ser_mLocalSessionId : Z;
  ser_mPeerSessionId : Z;
  ser_mResumptionId : list byte
}.

(** The session object.  [mCommissioningHash] is the running transcript
    hash, kept as the data handed to [AddData] since [Begin], in order.
    [trace] and [drbgCalls] do not belong to the object: the first records
    the calls made on the exchange and the delegate, the second counts the
    draws from the random generator. *)
Record CASESession : Type := mkSession {
  mCommissioningHash : list (list byte);
  mCASESessionEstablished : bool;
  mState : State;
  mExchangeCtxt : option ExchangeContext;
  mDelegate : option SessionEstablishmentDelegate;
  mFabricInfo : option FabricInfo;
  mFabricsTable : option FabricTable;
  mSharedSecret : P256ECDHDerivedSecret;
  mMessageDigest : list byte;
  mResumptionId : list byte;
  mIPK : list byte;
  mInitiatorRandom : list byte;
  mRemotePubKey : list byte;
  mEphemeralKey : P256Keypair;
  mTrustedRootId : list byte;
  mValidContext : ValidationContext;
  base : PairingSession;
  trace : list Event;
  drbgCalls : nat
}.

(** ** Collaborators *)

(** The calls of a TLV writer. *)
Inductive WriterOp : Type := wStartContainer | wPut | wEndContainer | wFinalize.

(** The operations the session calls on code that is not part of it.  Each
    returns what the C++ call returns: an error code, and the outputs it
    fills in. *)
Record Collaborators : Type := mkCollaborators {
  (* platform *)
  sizeof_size_t : nat;
  ScopedMemoryBuffer_Alloc : nat -> bool;
  PacketBufferHandle_New : nat -> bool;
  EstimateTLVStructOverhead : nat -> nat -> nat;
  (* PairingSession *)
  PairingSession_Clear : PairingSession -> PairingSession;
  GetIPKList : ByteSpan;
  GetIPKListEntries : nat;
  StatusReport_Parse : list byte -> CHIP_ERROR * StatusReportMsg;
  (* Hash_SHA256_stream *)
  Hash_Begin : CHIP_ERROR;
  Hash_AddData : list (list byte) -> list byte -> CHIP_ERROR;
  Hash_GetDigest : list (list byte) -> CHIP_ERROR * list byte;
  Hash_Finish : list (list byte) -> CHIP_ERROR * list byte;
  (* crypto *)
  DRBG_get_bytes : nat -> nat -> CHIP_ERROR * list byte;
  P256Keypair_Initialize : P256Keypair -> CHIP_ERROR * P256Keypair;
  ECDH_derive_secret :
    P256Keypair -> list byte -> P256ECDHDerivedSecret
    -> CHIP_ERROR * P256ECDHDerivedSecret;
  HKDF_SHA256 : list byte -> list byte -> list byte -> nat -> CHIP_ERROR * list byte;
  AES_CCM_encrypt :
    list byte -> list byte -> list byte -> list byte -> nat
    -> CHIP_ERROR * (list byte * list byte);
  AES_CCM_decrypt :
    list byte -> list byte -> list byte -> list byte -> list byte
    -> CHIP_ERROR * list byte;
  ECDSA_sign_msg : OperationalKey -> list byte -> CHIP_ERROR * list byte;
  ECDSA_validate_msg_signature : list byte -> list byte -> list byte -> CHIP_ERROR;
  P256ECDSASignature_Capacity : nat;
  ASN1ToChipEpochTime : ASN1UniversalTime -> CHIP_ERROR * Z;
  CryptoContext_keysLength : nat;
  (* fabric table *)
  kUndefinedFabricIndex : FabricIndex;
  FindDestinationIDCandidate :
    FabricTable -> ByteSpan -> ByteSpan -> ByteSpan -> nat -> FabricIndex;
  FindFabricWithIndex : FabricTable -> FabricIndex -> option FabricInfo;
  GetICACert : FabricInfo -> CHIP_ERROR * ByteSpan;
  GetNOCCert : FabricInfo -> CHIP_ERROR * ByteSpan;
  GetTrustedRootId : FabricInfo -> list byte;
  GetOperationalKey : FabricInfo -> option OperationalKey;
  GenerateDestinationID :
    FabricInfo -> ByteSpan -> ByteSpan -> NodeId -> CHIP_ERROR * list byte;
  VerifyCredentials :
    FabricInfo -> ByteSpan -> ByteSpan -> ValidationContext
    -> CHIP_ERROR * (NodeId * Z * list byte);
  (* TLV *)
  TLV_decode : list byte -> list TLVElement;
  TLV_encode : list TLVElement -> list byte;
  TLVWriter_error : WriterOp -> nat -> list TLVElement -> CHIP_ERROR;
  (* exchange *)
  ExchangeContext_SendMessage :
    option ExchangeContext -> MsgType -> list byte -> CHIP_ERROR
}.

(** ** Assignments to members *)

Definition set_mCommissioningHash v (s : CASESession) : CASESession :=
  mkSession v (mCASESessionEstablished s) (mState s) (mExchangeCtxt s)
    (mDelegate s) (mFabricInfo s) (mFabricsTable s) (mSharedSecret s)
    (mMessageDigest s) (mResumptionId s) (mIPK s) (mInitiatorRandom s)
    (mRemotePubKey s) (mEphemeralKey s) (mTrustedRootId s) (mValidContext s)
    (base s) (trace s) (drbgCalls s).

Definition set_mCASESessionEstablished v (s : CASESession) : CASESession :=
  mkSession (mCommissioningHash s) v (mState s) (mExchangeCtxt s) (mDelegate
    s) (mFabricInfo s) (mFabricsTable s) (mSharedSecret s) (mMessageDigest s)
    (mResumptionId s) (mIPK s) (mInitiatorRandom s) (mRemotePubKey s)
    (mEphemeralKey s) (mTrustedRootId s) (mValidContext s) (base s) (trace s)
    (drbgCalls s).

Definition set_mState v (s : CASESession) : CASESession :=
  mkSession (mCommissioningHash s) (mCASESessionEstablished s) v
    (mExchangeCtxt s) (mDelegate s) (mFabricInfo s) (mFabricsTable s)
    (mSharedSecret s) (mMessageDigest s) (mResumptionId s) (mIPK s)
    (mInitiatorRandom s) (mRemotePubKey s) (mEphemeralKey s) (mTrustedRootId
    s) (mValidContext s) (base s) (trace s) (drbgCalls s).

Definition set_mExchangeCtxt v (s : CASESession) : CASESession :=
  mkSession (mCommissioningHash s) (mCASESessionEstablished s) (mState s) v
    (mDelegate s) (mFabricInfo s) (mFabricsTable s) (mSharedSecret s)
    (mMessageDigest s) (mResumptionId s) (mIPK s) (mInitiatorRandom s)
    (mRemotePubKey s) (mEphemeralKey s) (mTrustedRootId s) (mValidContext s)
    (base s) (trace s) (drbgCalls s).

Definition set_mDelegate v (s : CASESession) : CASESession :=
  mkSession (mCommissioningHash s) (mCASESessionEstablished s) (mState s)
    (mExchangeCtxt s) v (mFabricInfo s) (mFabricsTable s) (mSharedSecret s)
    (mMessageDigest s) (mResumptionId s) (mIPK s) (mInitiatorRandom s)
    (mRemotePubKey s) (mEphemeralKey s) (mTrustedRootId s) (mValidContext s)
    (base s) (trace s) (drbgCalls s).

Definition set_mFabricInfo v (s : CASESession) : CASESession :=
  mkSession (mCommissioningHash s) (mCASESessionEstablished s) (mState s)
    (mExchangeCtxt s) (mDelegate s) v (mFabricsTable s) (mSharedSecret s)
    (mMessageDigest s) (mResumptionId s) (mIPK s) (mInitiatorRandom s)
    (mRemotePubKey s) (mEphemeralKey s) (mTrustedRootId s) (mValidContext s)
    (base s) (trace s) (drbgCalls s).

Definition set_mFabricsTable v (s : CASESession) : CASESession :=
  mkSession (mCommissioningHash s) (mCASESessionEstablished s) (mState s)
    (mExchangeCtxt s) (mDelegate s) (mFabricInfo s) v (mSharedSecret s)
    (mMessageDigest s) (mResumptionId s) (mIPK s) (mInitiatorRandom s)
    (mRemotePubKey s) (mEphemeralKey s) (mTrustedRootId s) (mValidContext s)
    (base s) (trace s) (drbgCalls s).

Definition set_mSharedSecret v (s : CASESession) : CASESession :=
  mkSession (mCommissioningHash s) (mCASESessionEstablished s) (mState s)
    (mExchangeCtxt s) (mDelegate s) (mFabricInfo s) (mFabricsTable s) v
    (mMessageDigest s) (mResumptionId s) (mIPK s) (mInitiatorRandom s)
    (mRemotePubKey s) (mEphemeralKey s) (mTrustedRootId s) (mValidContext s)
    (base s) (trace s) (drbgCalls s).

Definition set_mMessageDigest v (s : CASESession) : CASESession :=
  mkSession (mCommissioningHash s) (mCASESessionEstablished s) (mState s)
    (mExchangeCtxt s) (mDelegate s) (mFabricInfo s) (mFabricsTable s)
    (mSharedSecret s) v (mResumptionId s) (mIPK s) (mInitiatorRandom s)
    (mRemotePubKey s) (mEphemeralKey s) (mTrustedRootId s) (mValidContext s)
    (base s) (trace s) (drbgCalls s).

Definition set_mResumptionId v (s : CASESession) : CASESession :=
  mkSession (mCommissioningHash s) (mCASESessionEstablished s) (mState s)
    (mExchangeCtxt s) (mDelegate s) (mFabricInfo s) (mFabricsTable s)
    (mSharedSecret s) (mMessageDigest s) v (mIPK s) (mInitiatorRandom s)
    (mRemotePubKey s) (mEphemeralKey s) (mTrustedRootId s) (mValidContext s)
    (base s) (trace s) (drbgCalls s).

Definition set_mIPK v (s : CASESession) : CASESession :=
  mkSession (mCommissioningHash s) (mCASESessionEstablished s) (mState s)
    (mExchangeCtxt s) (mDelegate s) (mFabricInfo s) (mFabricsTable s)
    (mSharedSecret s) (mMessageDigest s) (mResumptionId s) v (mInitiatorRandom
    s) (mRemotePubKey s) (mEphemeralKey s) (mTrustedRootId s) (mValidContext
    s) (base s) (trace s) (drbgCalls s).

Definition set_mInitiatorRandom v (s : CASESession) : CASESession :=
  mkSession (mCommissioningHash s) (mCASESessionEstablished s) (mState s)
    (mExchangeCtxt s) (mDelegate s) (mFabricInfo s) (mFabricsTable s)
    (mSharedSecret s) (mMessageDigest s) (mResumptionId s) (mIPK s) v
    (mRemotePubKey s) (mEphemeralKey s) (mTrustedRootId s) (mValidContext s)
    (base s) (trace s) (drbgCalls s).

Definition set_mRemotePubKey v (s : CASESession) : CASESession :=
  mkSession (mCommissioningHash s) (mCASESessionEstablished s) (mState s)
    (mExchangeCtxt s) (mDelegate s) (mFabricInfo s) (mFabricsTable s)
    (mSharedSecret s) (mMessageDigest s) (mResumptionId s) (mIPK s)
    (mInitiatorRandom s) v (mEphemeralKey s) (mTrustedRootId s) (mValidContext
    s) (base s) (trace s) (drbgCalls s).

Definition set_mEphemeralKey v (s : CASESession) : CASESession :=
  mkSession (mCommissioningHash s) (mCASESessionEstablished s) (mState s)
    (mExchangeCtxt s) (mDelegate s) (mFabricInfo s) (mFabricsTable s)
    (mSharedSecret s) (mMessageDigest s) (mResumptionId s) (mIPK s)
    (mInitiatorRandom s) (mRemotePubKey s) v (mTrustedRootId s) (mValidContext
    s) (base s) (trace s) (drbgCalls s).

Definition set_mTrustedRootId v (s : CASESession) : CASESession :=
  mkSession (mCommissioningHash s) (mCASESessionEstablished s) (mState s)
    (mExchangeCtxt s) (mDelegate s) (mFabricInfo s) (mFabricsTable s)
    (mSharedSecret s) (mMessageDigest s) (mResumptionId s) (mIPK s)
    (mInitiatorRandom s) (mRemotePubKey s) (mEphemeralKey s) v (mValidContext
    s) (base s) (trace s) (drbgCalls s).

Definition set_mValidContext v (s : CASESession) : CASESession :=
  mkSession (mCommissioningHash s) (mCASESessionEstablished s) (mState s)
    (mExchangeCtxt s) (mDelegate s) (mFabricInfo s) (mFabricsTable s)
    (mSharedSecret s) (mMessageDigest s) (mResumptionId s) (mIPK s)
    (mInitiatorRandom s) (mRemotePubKey s) (mEphemeralKey s) (mTrustedRootId
    s) v (base s) (trace s) (drbgCalls s).

Definition set_base v (s : CASESession) : CASESession :=
  mkSession (mCommissioningHash s) (mCASESessionEstablished s) (mState s)
    (mExchangeCtxt s) (mDelegate s) (mFabricInfo s) (mFabricsTable s)
    (mSharedSecret s) (mMessageDigest s) (mResumptionId s) (mIPK s)
    (mInitiatorRandom s) (mRemotePubKey s) (mEphemeralKey s) (mTrustedRootId
    s) (mValidContext s) v (trace s) (drbgCalls s).

Definition set_trace v (s : CASESession) : CASESession :=
  mkSession (mCommissioningHash s) (mCASESessionEstablished s) (mState s)
    (mExchangeCtxt s) (mDelegate s) (mFabricInfo s) (mFabricsTable s)
    (mSharedSecret s) (mMessageDigest s) (mResumptionId s) (mIPK s)
    (mInitiatorRandom s) (mRemotePubKey s) (mEphemeralKey s) (mTrustedRootId
    s) (mValidContext s) (base s) v (drbgCalls s).

Definition set_drbgCalls v (s : CASESession) : CASESession :=
  mkSession (mCommissioningHash s) (mCASESessionEstablished s) (mState s)
    (mExchangeCtxt s) (mDelegate s) (mFabricInfo s) (mFabricsTable s)
    (mSharedSecret s) (mMessageDigest s) (mResumptionId s) (mIPK s)
    (mInitiatorRandom s) (mRemotePubKey s) (mEphemeralKey s) (mTrustedRootId
    s) (mValidContext s) (base s) (trace s) v.

(** The accessors of [PairingSession]. *)
Definition SetPeerNodeId v (s : CASESession) : CASESession :=
  set_base
    (mkPairingSession v (mLocalSessionId (base s)) (mPeerSessionId (base s))
       (mPeerAddress (base s))) s.

Definition SetLocalSessionId v (s : CASESession) : CASESession :=
  set_base
    (mkPairingSession (mPeerNodeId (base s)) v (mPeerSessionId (base s))
       (mPeerAddress (base s))) s.

Definition SetPeerSessionId v (s : CASESession) : CASESession :=
  set_base
    (mkPairingSession (mPeerNodeId (base s)) (mLocalSessionId (base s)) v
       (mPeerAddress (base s))) s.

Definition SetPeerAddress v (s : CASESession) : CASESession :=
  set_base
    (mkPairingSession (mPeerNodeId (base s)) (mLocalSessionId (base s))
       (mPeerSessionId (base s)) v) s.

Definition GetPeerNodeId (s : CASESession) : NodeId := mPeerNodeId (base s).
Definition GetLocalSessionId (s : CASESession) : Z := mLocalSessionId (base s).
Definition GetPeerSessionId (s : CASESession) : Z := mPeerSessionId (base s).

(** A call on the exchange or on the delegate. *)
Definition emit (ev : Event) (s : CASESession) : CASESession :=
  set_trace (trace s ++ [ev]) s.

(** ** Member functions with early exit *)

(** The body of a member function: it reads and writes the session and
    either runs on or leaves with an error code. *)
Definition M (A : Type) : Type := CASESession -> Outcome A * CASESession.

Definition mret {A} (a : A) : M A := fun s => (Done a, s).

Definition mbind {A B} (m : M A) (k : A -> M B) : M B :=
  fun s =>
    match m s with
    | (Done a, s') => k a s'
    | (Exit err, s') => (Exit err, s')
    end.

(** [SuccessOrExit(err = call(..., out))] and [ReturnErrorOnFailure]. *)
Definition mtry {A} (r : CHIP_ERROR * A) : M A := fun s => (otry r, s).

Definition mcheck (err : CHIP_ERROR) : M unit := mtry (err, tt).

(** [VerifyOrExit(cond, err = e)] and [VerifyOrReturnError]. *)
Definition mverify (cond : bool) (err : CHIP_ERROR) : M unit :=
  fun s => (overify cond err, s).

Definition mexit {A} (err : CHIP_ERROR) : M A := fun s => (Exit err, s).

Definition mget : M CASESession := fun s => (Done s, s).

Definition mdo (f : CASESession -> CASESession) : M unit :=
  fun s => (Done tt, f s).

(** A call of a member function that returns [CHIP_ERROR]. *)
Definition mcall (f : CASESession -> CHIP_ERROR * CASESession) : M unit :=
  fun s => let '(err, s') := f s in (otry (err, tt), s').

Definition mlift {A} (o : Outcome A) : M A := fun s => (o, s).

Definition runM (m : M unit) (s : CASESession) : CHIP_ERROR * CASESession :=
  let '(o, s') := m s in (errOf o, s').

Declare Scope session_scope.
Delimit Scope session_scope with S.
Notation "x <- a ;; b" := (mbind a (fun x => b))
  (at level 61, a at next level, right associativity) : session_scope.
Notation "' p <- a ;; b" := (mbind a (fun p => b))
  (at level 61, p pattern, a at next level, right associativity) : session_scope.
Notation "a ;; b" := (mbind a (fun _ => b))
  (at level 61, right associativity) : session_scope.

(** ** TLV writer and buffer writer *)

(** The writer on a buffer of [wrMaxLen] bytes: the members put into the
    open anonymous structure so far. *)
Record TLVWriter : Type := mkWriter {
  wrMaxLen : nat;
  wrMembers : list TLVElement
}.

Definition TLVWriter_Init (maxLen : nat) : TLVWriter := mkWriter maxLen [].

(** [BufferWriter]: [Put] copies what fits and counts what was asked. *)
Record BufferWriter : Type := mkBufferWriter {
  bwSize : nat;
  bwNeeded : nat;
  bwData : list byte
}.

Definition BufferWriter_Init (size : nat) : BufferWriter :=
  mkBufferWriter size 0 [].

Definition BufferWriter_Put (bbuf : BufferWriter) (buf : list byte) (len : nat)
  : BufferWriter :=
  let available := (bwSize bbuf - bwNeeded bbuf)%nat in
  mkBufferWriter (bwSize bbuf) (bwNeeded bbuf + len)
    (bwData bbuf ++ firstn (Nat.min available len) buf).

Definition BufferWriter_Fit (bbuf : BufferWriter) : bool :=
  Nat.leb (bwNeeded bbuf) (bwSize bbuf).

Section Writer.
Variable E : Collaborators.

Definition TLVWriter_written (w : TLVWriter) : list TLVElement :=
  [TLVStructure AnonymousTag (wrMembers w)].

(** Modelled from the spec: the TLV writer is not among the sources.  Each
    call either fails with the error the encoder reports for the buffer
    size and the content, or adds its element to the open structure. *)
Definition TLVWriter_StartContainer (w : TLVWriter) : CHIP_ERROR * TLVWriter :=
  (TLVWriter_error E wStartContainer (wrMaxLen w)
     (TLVWriter_written (mkWriter (wrMaxLen w) [])),
   mkWriter (wrMaxLen w) []).

Definition TLVWriter_Put (w : TLVWriter) (e : TLVElement) : CHIP_ERROR * TLVWriter :=
  let w' := mkWriter (wrMaxLen w) (wrMembers w ++ [e]) in
  let err := TLVWriter_error E wPut (wrMaxLen w) (TLVWriter_written w') in
  if isNoError err then (CHIP_NO_ERROR, w') else (err, w).

Definition TLVWriter_EndContainer (w : TLVWriter) : CHIP_ERROR * TLVWriter :=
  (TLVWriter_error E wEndContainer (wrMaxLen w) (TLVWriter_written w), w).

(** [Finalize]: the encoded bytes, [GetLengthWritten()] being their
    number. *)
Definition TLVWriter_Finalize (w : TLVWriter) : CHIP_ERROR * list byte :=
  (TLVWriter_error E wFinalize (wrMaxLen w) (TLVWriter_written w),
   TLV_encode E (TLVWriter_written w)).

End Writer.

(** ** The session's member functions *)

(** [CryptoContext]: the session keys handed to the secure channel. *)
Record CryptoContext : Type := mkCryptoContext {
  ccKeys : list byte;
  ccRole : option SessionRole
}.

Section Session.
Variable E : Collaborators.
Local Open Scope session_scope.

(** [CASESession::CloseExchange] *)
Definition CloseExchange (s : CASESession) : CASESession :=
  match mExchangeCtxt s with
  | Some ec => set_mExchangeCtxt None (emit (EvExchangeClose ec) s)
  | None => s
  end.

(** [CASESession::Clear] *)
Definition Clear (s : CASESession) : CASESession :=
  let s := set_mCommissioningHash [] s in
  let s := set_mCASESessionEstablished false s in
  let s := set_base (PairingSession_Clear E (base s)) s in
  let s := set_mState kInitialized s in
  CloseExchange s.

(** Modelled from the spec: [PairingSession::SendStatusReport] is not among
    the sources.  It transmits a Status Report with the given protocol code
    on the given exchange and returns nothing. *)
Definition SendStatusReport (exchangeCtxt : option ExchangeContext)
  (protocolCode : ProtocolCode) (s : CASESession) : CASESession :=
  emit (EvSendStatusReport exchangeCtxt protocolCode) s.

(** [mExchangeCtxt->SendMessage(msgType, msg, flags)] *)
Definition SendMessage (msgType : MsgType) (msg : list byte)
  (expectResponse : bool) (s : CASESession) : CHIP_ERROR * CASESession :=
  (ExchangeContext_SendMessage E (mExchangeCtxt s) msgType msg,
   emit (EvSendMessage (mExchangeCtxt s) msgType msg expectResponse) s).

(** [mCommissioningHash.AddData(data)] *)
Definition AddData (data : list byte) (s : CASESession)
  : CHIP_ERROR * CASESession :=
  let err := Hash_AddData E (mCommissioningHash s) data in
  if isNoError err
  then (CHIP_NO_ERROR, set_mCommissioningHash (mCommissioningHash s ++ [data]) s)
  else (err, s).

(** [DRBG_get_bytes(buf, len)] *)
Definition DRBG (len : nat) : M (list byte) :=
  s <- mget ;;
  mdo (set_drbgCalls (S (drbgCalls s))) ;;
  mtry (DRBG_get_bytes E (drbgCalls s) len).

(** [CASESession::FromSerializable] *)
Definition FromSerializable (serializable : CASESessionSerializable)
  : CASESession -> CHIP_ERROR * CASESession :=
  runM (
    mverify (ser_mVersion serializable =? kCASESessionVersion)
            CHIP_ERROR_VERSION_MISMATCH ;;

    let length := Z.to_nat (ser_mSharedSecretLen serializable) in
    s <- mget ;;
    secret <- mtry (SetLength (mSharedSecret s) length) ;;
    let secret :=
      mkSecret (memset (secretBytes secret) 0 (sizeof_size_t E))
               (secretLength secret) in
    let secret :=
      mkSecret (memcpy (secretBytes secret) (ser_mSharedSecret serializable) length)
               (secretLength secret) in
    mdo (set_mSharedSecret secret) ;;

    let length := Z.to_nat (ser_mMessageDigestLen serializable) in
    mverify (Nat.leb length kSHA256_Hash_Length) CHIP_ERROR_INVALID_ARGUMENT ;;
    mdo (fun s => set_mMessageDigest
                    (memcpy (mMessageDigest s) (ser_mMessageDigest serializable) length) s) ;;

    mdo (SetPeerNodeId (ser_mPeerNodeId serializable)) ;;
    mdo (SetLocalSessionId (ser_mLocalSessionId serializable)) ;;
    mdo (SetPeerSessionId (ser_mPeerSessionId serializable)) ;;

    mdo (fun s => set_mResumptionId
                    (memcpy (mResumptionId s) (ser_mResumptionId serializable)
                            kCASEResumptionIDSize) s) ;;

    let ipkListSpan := GetIPKList E in
    mverify (Nat.eqb (List.length ipkListSpan) kIPKSize) CHIP_ERROR_INVALID_ARGUMENT ;;
    mdo (fun s => set_mIPK (memcpy (mIPK s) ipkListSpan kIPKSize) s) ;;

    mdo (set_mCASESessionEstablished true) ;;

    mret tt).

(** [CASESession::Init] *)
Definition Init (localSessionId : Z)
  (delegate : option SessionEstablishmentDelegate)
  : CASESession -> CHIP_ERROR * CASESession :=
  runM (
    mverify (match delegate with Some _ => true | None => false end)
            CHIP_ERROR_INVALID_ARGUMENT ;;

    mdo Clear ;;

    mcheck (Hash_Begin E) ;;
    mdo (set_mCommissioningHash []) ;;

    mdo (set_mDelegate delegate) ;;
    mdo (SetLocalSessionId localSessionId) ;;

    mdo (set_mValidContext
           (mkValidationContext (mEffectiveTime ValidationContext_Reset)
                                [kDigitalSignature] [kServerAuth])) ;;

    mret tt).

(** [CASESession::ListenForSessionEstablishment] *)
Definition ListenForSessionEstablishment (localSessionId : Z)
  (fabrics : option FabricTable)
  (delegate : option SessionEstablishmentDelegate)
  : CASESession -> CHIP_ERROR * CASESession :=
  runM (
    mverify (match fabrics with Some _ => true | None => false end)
            CHIP_ERROR_INVALID_ARGUMENT ;;
    mcall (Init localSessionId delegate) ;;

    mdo (set_mFabricsTable fabrics) ;;

    mdo (set_mCASESessionEstablished false) ;;

    mret tt).

(** [CASESession::OnResponseTimeout] *)
Definition OnResponseTimeout (ec : option ExchangeContext) (s : CASESession)
  : CASESession :=
  match ec with
  | None => s
  | Some _ =>
      if negb (ExchangeContext_eqb (mExchangeCtxt s) ec) then s
      else
        let s := emit (EvOnSessionEstablishmentError CHIP_ERROR_TIMEOUT) s in
        (* Null out mExchangeCtxt so that Clear() doesn't try closing it. *)
        let s := set_mExchangeCtxt None s in
        Clear s
  end.

(** Modelled from the spec: [CryptoContext::InitFromSecret] is not among
    the sources.  For the session-establishment info type it applies HKDF
    with the info string "SessionKeys" to the secret and the salt and
    keeps the output as the keys of the given role. *)
Definition InitFromSecret (session : CryptoContext) (secret salt : ByteSpan)
  (infoType : SessionInfoType) (role : SessionRole)
  : CHIP_ERROR * CryptoContext :=
  let info := match infoType with
              | kSessionEstablishment => kKDFSEInfo
              end in
  let '(err, keys) :=
    HKDF_SHA256 E secret salt info (CryptoContext_keysLength E) in
  if isNoError err then (CHIP_NO_ERROR, mkCryptoContext keys (Some role))
  else (err, session).

(** [CASESession::DeriveSecureSession].  The session object is only
    read. *)
Definition DeriveSecureSession (s : CASESession) (session : CryptoContext)
  (role : SessionRole) : CHIP_ERROR * CryptoContext :=
  if negb (mCASESessionEstablished s) then (CHIP_ERROR_INCORRECT_STATE, session)
  else
    (* Generate Salt for Encryption keys *)
    let saltlen := (kIPKSize + kSHA256_Hash_Length)%nat in
    if negb (ScopedMemoryBuffer_Alloc E saltlen) then (CHIP_ERROR_NO_MEMORY, session)
    else
      let bbuf := BufferWriter_Init saltlen in
      let bbuf := BufferWriter_Put bbuf (mIPK s) kIPKSize in
      let bbuf := BufferWriter_Put bbuf (mMessageDigest s) kSHA256_Hash_Length in
      if negb (BufferWriter_Fit bbuf) then (CHIP_ERROR_BUFFER_TOO_SMALL, session)
      else
        let msg_salt := bwData bbuf in
        InitFromSecret session (secretSpan (mSharedSecret s)) msg_salt
                       kSessionEstablishment role.

(** The error code and the output of a body that fills an output
    parameter; the output keeps its initial value when the body leaves
    early. *)
Definition orun {A} (initial : A) (o : Outcome A) : CHIP_ERROR * A :=
  match o with
  | Done a => (CHIP_NO_ERROR, a)
  | Exit err => (err, initial)
  end.

(** [CASESession::ConstructSaltSigma2]; [saltSize] is the size of the span
    handed in, which the function zeroes and then fills from its start; the
    value is the part written. *)
Definition ConstructSaltSigma2 (s : CASESession) (rand pubkey ipk : ByteSpan)
  (saltSize : nat) : CHIP_ERROR * list byte :=
  orun [] (
    let bbuf := BufferWriter_Init saltSize in

    let bbuf := BufferWriter_Put bbuf ipk (List.length ipk) in
    let bbuf := BufferWriter_Put bbuf rand kSigmaParamRandomNumberSize in
    let bbuf := BufferWriter_Put bbuf pubkey (List.length pubkey) in
    messageDigestSpan <- otry (Hash_GetDigest E (mCommissioningHash s)) ;;
    let bbuf := BufferWriter_Put bbuf messageDigestSpan (List.length messageDigestSpan) in

    overify (BufferWriter_Fit bbuf) CHIP_ERROR_BUFFER_TOO_SMALL ;;
    Done (bwData bbuf))%O.

(** [CASESession::ConstructSaltSigma3] *)
Definition ConstructSaltSigma3 (s : CASESession) (ipk : ByteSpan)
  (saltSize : nat) : CHIP_ERROR * list byte :=
  orun [] (
    let bbuf := BufferWriter_Init saltSize in

    let bbuf := BufferWriter_Put bbuf ipk (List.length ipk) in
    messageDigestSpan <- otry (Hash_GetDigest E (mCommissioningHash s)) ;;
    let bbuf := BufferWriter_Put bbuf messageDigestSpan (List.length messageDigestSpan) in

    overify (BufferWriter_Fit bbuf) CHIP_ERROR_BUFFER_TOO_SMALL ;;
    Done (bwData bbuf))%O.

(** [CASESession::ConstructSigmaResumeKey]; [resumeKeySize] is the size of
    the span handed in. *)
Definition ConstructSigmaResumeKey (s : CASESession)
  (initiatorRandom resumptionID skInfo nonce : ByteSpan) (resumeKeySize : nat)
  : CHIP_ERROR * list byte :=
  orun [] (
    overify (Nat.leb kAEADKeySize resumeKeySize) CHIP_ERROR_BUFFER_TOO_SMALL ;;

    let saltSize := (kSigmaParamRandomNumberSize + kCASEResumptionIDSize)%nat in
    let bbuf := BufferWriter_Init saltSize in

    let bbuf := BufferWriter_Put bbuf initiatorRandom (List.length initiatorRandom) in
    let bbuf := BufferWriter_Put bbuf resumptionID (List.length resumptionID) in

    overify (BufferWriter_Fit bbuf) CHIP_ERROR_BUFFER_TOO_SMALL ;;
    let salt := bwData bbuf in

    otry (HKDF_SHA256 E (secretSpan (mSharedSecret s)) salt skInfo kAEADKeySize))%O.

(** [CASESession::GenerateSigmaResumeMIC] *)
Definition GenerateSigmaResumeMIC (s : CASESession)
  (initiatorRandom resumptionID skInfo nonce : ByteSpan) (resumeMICSize : nat)
  : CHIP_ERROR * list byte :=
  orun [] (
    overify (Nat.leb kTAGSize resumeMICSize) CHIP_ERROR_BUFFER_TOO_SMALL ;;

    resumeKey <- otry (ConstructSigmaResumeKey s initiatorRandom resumptionID
                         skInfo nonce kAEADKeySize) ;;

    '(_, resumeMIC) <- otry (AES_CCM_encrypt E [] [] resumeKey nonce kTAGSize) ;;

    Done resumeMIC)%O.

(** [CASESession::ValidateSigmaResumeMIC] *)
Definition ValidateSigmaResumeMIC (s : CASESession)
  (resumeMIC initiatorRandom resumptionID skInfo nonce : ByteSpan) : CHIP_ERROR :=
  errOf (
    overify (Nat.eqb (List.length resumeMIC) kTAGSize) CHIP_ERROR_BUFFER_TOO_SMALL ;;

    resumeKey <- otry (ConstructSigmaResumeKey s initiatorRandom resumptionID
                         skInfo nonce kAEADKeySize) ;;

    _ <- otry (AES_CCM_decrypt E [] [] resumeMIC resumeKey nonce) ;;

    Done tt)%O.

(** [CASESession::SetEffectiveTime] *)
Definition SetEffectiveTime (s : CASESession) : CHIP_ERROR * CASESession :=
  let effectiveTime := mkASN1UniversalTime 2021 2 12 10 10 10 in
  let '(err, t) := ASN1ToChipEpochTime E effectiveTime in
  if isNoError err
  then (CHIP_NO_ERROR,
        set_mValidContext
          (mkValidationContext t (mRequiredKeyUsages (mValidContext s))
                               (mRequiredKeyPurposes (mValidContext s))) s)
  else (err, s).

(** [CASESession::Validate_and_RetrieveResponderID]; the value is the
    public key the credentials carry. *)
Definition Validate_and_RetrieveResponderID (responderNOC responderICAC : ByteSpan)
  : M (list byte) :=
  s <- mget ;;
  match mFabricInfo s with
  | None => mexit CHIP_ERROR_INCORRECT_STATE
  | Some fabricInfo =>
      mcall SetEffectiveTime ;;

      s <- mget ;;
      '(peerNodeId, rawFabricId, responderID) <-
        mtry (VerifyCredentials E fabricInfo responderNOC responderICAC
                (mValidContext s)) ;;

      mdo (SetPeerNodeId peerNodeId) ;;

      mret responderID
  end.

Definition kTag_TBSData_SenderNOC : Z := 1.
Definition kTag_TBSData_SenderICAC : Z := 2.
Definition kTag_TBSData_SenderPubKey : Z := 3.
Definition kTag_TBSData_ReceiverPubKey : Z := 4.

(** [CASESession::ConstructTBSData]; the value is the to-be-signed blob,
    [tbsDataLen] being its length. *)
Definition ConstructTBSData (senderNOC senderICAC senderPubKey receiverPubKey : ByteSpan)
  (tbsDataLen : nat) : CHIP_ERROR * list byte :=
  orun [] (
    let tlvWriter := TLVWriter_Init tbsDataLen in
    tlvWriter <- otry (TLVWriter_StartContainer E tlvWriter) ;;
    tlvWriter <- otry (TLVWriter_Put E tlvWriter
                         (TLVByteString (ContextTag kTag_TBSData_SenderNOC) senderNOC)) ;;
    tlvWriter <-
      (if negb (Nat.eqb (List.length senderICAC) 0)
       then otry (TLVWriter_Put E tlvWriter
                    (TLVByteString (ContextTag kTag_TBSData_SenderICAC) senderICAC))
       else Done tlvWriter) ;;
    tlvWriter <- otry (TLVWriter_Put E tlvWriter
                         (TLVByteString (ContextTag kTag_TBSData_SenderPubKey) senderPubKey)) ;;
    tlvWriter <- otry (TLVWriter_Put E tlvWriter
                         (TLVByteString (ContextTag kTag_TBSData_ReceiverPubKey) receiverPubKey)) ;;
    tlvWriter <- otry (TLVWriter_EndContainer E tlvWriter) ;;
    otry (TLVWriter_Finalize E tlvWriter))%O.

(** [CASESession::SendSigma1] *)
Definition SendSigma1 : CASESession -> CHIP_ERROR * CASESession :=
  runM (
    let data_len :=
      EstimateTLVStructOverhead E
        (kSigmaParamRandomNumberSize + 2 + kSHA256_Hash_Length
         + kP256_PublicKey_Length + kCASEResumptionIDSize + kTAGSize)%nat 7 in

    (* Generate an ephemeral keypair *)
    s <- mget ;;
    ephemeralKey <- mtry (P256Keypair_Initialize E (mEphemeralKey s)) ;;
    mdo (set_mEphemeralKey ephemeralKey) ;;

    (* Fill in the random value *)
    random <- DRBG kSigmaParamRandomNumberSize ;;
    mdo (set_mInitiatorRandom random) ;;

    (* Construct Sigma1 Msg *)
    mverify (PacketBufferHandle_New E data_len) CHIP_ERROR_NO_MEMORY ;;

    let tlvWriter := TLVWriter_Init data_len in
    tlvWriter <- mtry (TLVWriter_StartContainer E tlvWriter) ;;
    s <- mget ;;
    tlvWriter <- mtry (TLVWriter_Put E tlvWriter
                         (TLVByteString (ContextTag 1) (mInitiatorRandom s))) ;;
    (* Retrieve Session Identifier *)
    tlvWriter <- mtry (TLVWriter_Put E tlvWriter
                         (TLVUnsigned (ContextTag 2) (GetLocalSessionId s))) ;;
    (* Generate a Destination Identifier *)
    destinationIdentifier <-
      match mFabricInfo s with
      | None => mexit CHIP_ERROR_INCORRECT_STATE
      | Some fabricInfo =>
          mdo (fun s => set_mIPK (memcpy (mIPK s) (GetIPKList E) kIPKSize) s) ;;
          s <- mget ;;
          mtry (GenerateDestinationID E fabricInfo (mIPK s) (mInitiatorRandom s)
                  (GetPeerNodeId s))
      end ;;
    tlvWriter <- mtry (TLVWriter_Put E tlvWriter
                         (TLVByteString (ContextTag 3) destinationIdentifier)) ;;

    s <- mget ;;
    tlvWriter <- mtry (TLVWriter_Put E tlvWriter
                         (TLVByteString (ContextTag 4) (keypairPubkey (mEphemeralKey s)))) ;;

    (* If CASE session was previously established using the current state
       information, fill in the session resumption information. *)
    tlvWriter <-
      (if mCASESessionEstablished s
       then
         tlvWriter <- mtry (TLVWriter_Put E tlvWriter
                              (TLVByteString (ContextTag 6)
                                 (firstn kCASEResumptionIDSize (mResumptionId s)))) ;;

         resumeMICSpan <- mtry (GenerateSigmaResumeMIC s (mInitiatorRandom s)
                                  (mResumptionId s) kKDFS1RKeyInfo
                                  kResume1MIC_Nonce kTAGSize) ;;

         mtry (TLVWriter_Put E tlvWriter (TLVByteString (ContextTag 7) resumeMICSpan))
       else mret tlvWriter) ;;

    tlvWriter <- mtry (TLVWriter_EndContainer E tlvWriter) ;;
    msg_R1 <- mtry (TLVWriter_Finalize E tlvWriter) ;;

    mcall (AddData msg_R1) ;;

    (* The state is being updated here before the message is successfully sent. *)
    mdo (set_mState kSentSigma1) ;;

    (* Call delegate to send the msg to peer *)
    mcall (SendMessage CASE_Sigma1 msg_R1 true) ;;

    mdo (emit EvOnSessionEstablishmentStarted) ;;

    mret tt).

Definition isNull {A} (p : option A) : bool :=
  match p with Some _ => false | None => true end.

(** [CASESession::EstablishSession] *)
Definition EstablishSession (peerAddress : PeerAddress) (fabric : option FabricInfo)
  (peerNodeId : NodeId) (localSessionId : Z)
  (exchangeCtxt : option ExchangeContext)
  (delegate : option SessionEstablishmentDelegate)
  (s : CASESession) : CHIP_ERROR * CASESession :=
  (* Return early on error here, as we have not initalized any state yet *)
  if isNull exchangeCtxt then (CHIP_ERROR_INVALID_ARGUMENT, s)
  else if isNull fabric then (CHIP_ERROR_INVALID_ARGUMENT, s)
  else
    let '(err, s) :=
      runM (
        err <- (fun s => let '(err, s) := Init localSessionId delegate s in
                         (Done err, s)) ;;

        (* We are setting the exchange context specifically before checking
           for error. *)
        mdo (set_mExchangeCtxt exchangeCtxt) ;;

        mcheck err ;;

        mdo (set_mFabricInfo fabric) ;;

        mdo (fun s => match mExchangeCtxt s with
                      | Some ec => emit (EvSetResponseTimeout ec kSigma_Response_Timeout) s
                      | None => s
                      end) ;;
        mdo (SetPeerAddress peerAddress) ;;
        mdo (SetPeerNodeId peerNodeId) ;;

        mcall SendSigma1 ;;

        mret tt) s in
    if negb (isNoError err) then (err, Clear s) else (err, s).

(** [CASESession::SendSigma2Resume] *)
Definition SendSigma2Resume (initiatorRandom : ByteSpan)
  : CASESession -> CHIP_ERROR * CASESession :=
  runM (
    let max_sigma2_resume_data_len :=
      EstimateTLVStructOverhead E (kCASEResumptionIDSize + kTAGSize + 2)%nat 4 in

    mverify (PacketBufferHandle_New E max_sigma2_resume_data_len) CHIP_ERROR_NO_MEMORY ;;

    let tlvWriter := TLVWriter_Init max_sigma2_resume_data_len in

    (* Generate a new resumption ID *)
    resumptionId <- DRBG kCASEResumptionIDSize ;;
    mdo (set_mResumptionId resumptionId) ;;

    tlvWriter <- mtry (TLVWriter_StartContainer E tlvWriter) ;;
    s <- mget ;;
    tlvWriter <- mtry (TLVWriter_Put E tlvWriter
                         (TLVByteString (ContextTag 1) (mResumptionId s))) ;;

    resumeMICSpan <- mtry (GenerateSigmaResumeMIC s initiatorRandom (mResumptionId s)
                             kKDFS2RKeyInfo kResume2MIC_Nonce kTAGSize) ;;

    tlvWriter <- mtry (TLVWriter_Put E tlvWriter
                         (TLVByteString (ContextTag 2) resumeMICSpan)) ;;

    tlvWriter <- mtry (TLVWriter_Put E tlvWriter
                         (TLVUnsigned (ContextTag 3) (GetLocalSessionId s))) ;;

    tlvWriter <- mtry (TLVWriter_EndContainer E tlvWriter) ;;
    msg_R2_resume <- mtry (TLVWriter_Finalize E tlvWriter) ;;

    (* The state is being updated here before the message is successfully sent. *)
    mdo (set_mState kSentSigma2Resume) ;;

    (* Call delegate to send the msg to peer *)
    mcall (SendMessage CASE_Sigma2Resume msg_R2_resume true) ;;

    mret tt).

(** [CASESession::SendSigma2] *)
Definition SendSigma2 : CASESession -> CHIP_ERROR * CASESession :=
  runM (
    s <- mget ;;
    match mFabricInfo s with
    | None => mexit CHIP_ERROR_INCORRECT_STATE
    | Some fabricInfo =>
    icaCert <- mtry (GetICACert E fabricInfo) ;;

    nocCert <- mtry (GetNOCCert E fabricInfo) ;;

    mdo (set_mTrustedRootId (GetTrustedRootId E fabricInfo)) ;;
    mverify (negb (Nat.eqb (List.length (GetTrustedRootId E fabricInfo)) 0))
            CHIP_ERROR_INTERNAL ;;

    (* Fill in the random value *)
    msg_rand <- DRBG kSigmaParamRandomNumberSize ;;

    (* Generate an ephemeral keypair *)
    s <- mget ;;
    ephemeralKey <- mtry (P256Keypair_Initialize E (mEphemeralKey s)) ;;
    mdo (set_mEphemeralKey ephemeralKey) ;;

    (* Generate a Shared Secret *)
    s <- mget ;;
    sharedSecret <- mtry (ECDH_derive_secret E (mEphemeralKey s) (mRemotePubKey s)
                            (mSharedSecret s)) ;;
    mdo (set_mSharedSecret sharedSecret) ;;

    s <- mget ;;
    saltSpan <- mtry (ConstructSaltSigma2 s msg_rand (keypairPubkey (mEphemeralKey s))
                        (mIPK s)
                        (kIPKSize + kSigmaParamRandomNumberSize
                         + kP256_PublicKey_Length + kSHA256_Hash_Length)%nat) ;;

    sr2k <- mtry (HKDF_SHA256 E (secretSpan (mSharedSecret s)) saltSpan
                    (firstn kKDFInfoLength kKDFSR2Info) kAEADKeySize) ;;

    (* Construct Sigma2 TBS Data *)
    let msg_r2_signed_len :=
      EstimateTLVStructOverhead E
        (List.length nocCert + List.length icaCert + kP256_PublicKey_Length * 2)%nat 4 in

    mverify (ScopedMemoryBuffer_Alloc E msg_r2_signed_len) CHIP_ERROR_NO_MEMORY ;;

    msg_R2_Signed <- mtry (ConstructTBSData nocCert icaCert
                             (keypairPubkey (mEphemeralKey s)) (mRemotePubKey s)
                             msg_r2_signed_len) ;;

    (* Generate a Signature *)
    match GetOperationalKey E fabricInfo with
    | None => mexit CHIP_ERROR_INCORRECT_STATE
    | Some operationalKey =>
    tbsData2Signature <- mtry (ECDSA_sign_msg E operationalKey msg_R2_Signed) ;;

    (* Construct Sigma2 TBE Data *)
    let msg_r2_signed_enc_len :=
      EstimateTLVStructOverhead E
        (List.length nocCert + List.length icaCert + List.length tbsData2Signature
         + kCASEResumptionIDSize)%nat 4 in

    mverify (ScopedMemoryBuffer_Alloc E (msg_r2_signed_enc_len + kTAGSize)%nat)
            CHIP_ERROR_NO_MEMORY ;;

    let tlvWriter := TLVWriter_Init msg_r2_signed_enc_len in
    tlvWriter <- mtry (TLVWriter_StartContainer E tlvWriter) ;;
    tlvWriter <- mtry (TLVWriter_Put E tlvWriter
                         (TLVByteString (ContextTag kTag_TBEData_SenderNOC) nocCert)) ;;
    tlvWriter <-
      (if negb (Nat.eqb (List.length icaCert) 0)
       then mtry (TLVWriter_Put E tlvWriter
                    (TLVByteString (ContextTag kTag_TBEData_SenderICAC) icaCert))
       else mret tlvWriter) ;;
    tlvWriter <- mtry (TLVWriter_Put E tlvWriter
                         (TLVByteString (ContextTag kTag_TBEData_Signature)
                            tbsData2Signature)) ;;

    (* Generate a new resumption ID *)
    resumptionId <- DRBG kCASEResumptionIDSize ;;
    mdo (set_mResumptionId resumptionId) ;;
    s <- mget ;;
    tlvWriter <- mtry (TLVWriter_Put E tlvWriter
                         (TLVByteString (ContextTag kTag_TBEData_ResumptionID)
                            (mResumptionId s))) ;;

    tlvWriter <- mtry (TLVWriter_EndContainer E tlvWriter) ;;
    msg_R2_Encrypted <- mtry (TLVWriter_Finalize E tlvWriter) ;;
    let msg_r2_signed_enc_len := List.length msg_R2_Encrypted in

    (* Generate the encrypted data blob *)
    '(ciphertext, tag) <- mtry (AES_CCM_encrypt E msg_R2_Encrypted [] sr2k
                                  (firstn kTBEDataNonceLength kTBEData2_Nonce)
                                  kTAGSize) ;;
    let msg_R2_Encrypted := (ciphertext ++ tag)%list in

    (* Construct Sigma2 Msg *)
    let data_len :=
      EstimateTLVStructOverhead E
        (kSigmaParamRandomNumberSize + 2 + kP256_PublicKey_Length
         + msg_r2_signed_enc_len + kTAGSize)%nat 4 in

    mverify (PacketBufferHandle_New E data_len) CHIP_ERROR_NO_MEMORY ;;

    let tlvWriterMsg2 := TLVWriter_Init data_len in
    tlvWriterMsg2 <- mtry (TLVWriter_StartContainer E tlvWriterMsg2) ;;
    tlvWriterMsg2 <- mtry (TLVWriter_Put E tlvWriterMsg2
                             (TLVByteString (ContextTag 1) msg_rand)) ;;
    tlvWriterMsg2 <- mtry (TLVWriter_Put E tlvWriterMsg2
                             (TLVUnsigned (ContextTag 2) (GetLocalSessionId s))) ;;
    tlvWriterMsg2 <- mtry (TLVWriter_Put E tlvWriterMsg2
                             (TLVByteString (ContextTag 3)
                                (keypairPubkey (mEphemeralKey s)))) ;;
    tlvWriterMsg2 <- mtry (TLVWriter_Put E tlvWriterMsg2
                             (TLVByteString (ContextTag 4) msg_R2_Encrypted)) ;;
    tlvWriterMsg2 <- mtry (TLVWriter_EndContainer E tlvWriterMsg2) ;;
    msg_R2 <- mtry (TLVWriter_Finalize E tlvWriterMsg2) ;;

    mcall (AddData msg_R2) ;;

    (* The state is being updated here before the message is successfully sent. *)
    mdo (set_mState kSentSigma2) ;;

    (* Call delegate to send the msg to peer *)
    mcall (SendMessage CASE_Sigma2 msg_R2 true) ;;

    mret tt
    end
    end).

(** The part of [CASESession::HandleSigma1] that follows the resumption
    check: the fabric lookup and the Sigma2 reply of the full handshake. *)
Definition HandleSigma1_fullHandshake
  (destinationIdentifier initiatorRandom initiatorPubKey : ByteSpan) : M unit :=
  let ipkListSpan := GetIPKList E in
  mdo (fun s => set_mIPK (memcpy (mIPK s) ipkListSpan kIPKSize) s) ;;

  s <- mget ;;
  match mFabricsTable s with
  | None => mexit CHIP_ERROR_INCORRECT_STATE
  | Some fabricsTable =>
  let fabricIndex :=
    FindDestinationIDCandidate E fabricsTable destinationIdentifier initiatorRandom
      ipkListSpan (GetIPKListEntries E) in
  mverify (negb (fabricIndex =? kUndefinedFabricIndex E)) CHIP_ERROR_KEY_NOT_FOUND ;;

  mdo (set_mFabricInfo (FindFabricWithIndex E fabricsTable fabricIndex)) ;;
  mverify (negb (isNull (FindFabricWithIndex E fabricsTable fabricIndex)))
          CHIP_ERROR_INCORRECT_STATE ;;

  (* ParseSigma1 ensures that:
     mRemotePubKey.Length() == initiatorPubKey.size() == kP256_PublicKey_Length. *)
  mdo (fun s => set_mRemotePubKey
                  (memcpy (mRemotePubKey s) initiatorPubKey kP256_PublicKey_Length) s) ;;

  mcall SendSigma2 ;;

  mdo (emit EvOnSessionEstablishmentStarted) ;;

  mret tt
  end.

(** The part of [CASESession::HandleSigma1] that follows [ParseSigma1]. *)
Definition HandleSigma1_parsed (p : Sigma1Params) : M unit :=
  mdo (SetPeerSessionId (initiatorSessionId p)) ;;

  s <- mget ;;
  (if resumptionRequested p && data_equal (resumptionId p) (mResumptionId s)
   then
     (* Cross check resume1MIC with the shared secret *)
     if isNoError (ValidateSigmaResumeMIC s (initiatorResumeMIC p) (initiatorRandom p)
                     (resumptionId p) kKDFS1RKeyInfo kResume1MIC_Nonce)
     then
       (* Send Sigma2Resume message to the initiator *)
       mcall (SendSigma2Resume (initiatorRandom p)) ;;

       mdo (emit EvOnSessionEstablishmentStarted) ;;

       (* Early returning here, since we have sent Sigma2Resume *)
       mexit CHIP_NO_ERROR
     else mret tt
   else mret tt) ;;

  HandleSigma1_fullHandshake (destinationId p) (initiatorRandom p)
    (initiatorEphPubKey p).

(** The [exit:] block of [CASESession::HandleSigma1]. *)
Definition HandleSigma1_exit (err : CHIP_ERROR) (s : CASESession)
  : CHIP_ERROR * CASESession :=
  if isKeyNotFound err
  then
    let s := SendStatusReport (mExchangeCtxt s) kProtocolCodeNoSharedRoot s in
    (err, set_mState kInitialized s)
  else if negb (isNoError err)
  then
    let s := SendStatusReport (mExchangeCtxt s) kProtocolCodeInvalidParam s in
    (err, set_mState kInitialized s)
  else (err, s).

(** [CASESession::HandleSigma1] *)
Definition HandleSigma1 (msg : list byte) (s : CASESession)
  : CHIP_ERROR * CASESession :=
  let '(err, s) :=
    runM (
      mcall (AddData msg) ;;

      let tlvReader := TLVReader_Init (TLV_decode E msg) in
      p <- mlift (ParseSigma1 tlvReader) ;;

      HandleSigma1_parsed p) s in
  (* exit: *)
  HandleSigma1_exit err s.

(** [CASESession::HandleSigma1_and_SendSigma2] *)
Definition HandleSigma1_and_SendSigma2 (msg : list byte)
  : CASESession -> CHIP_ERROR * CASESession :=
  runM (mcall (HandleSigma1 msg) ;; mret tt).

(** [VerifyOrExit(TagNumFromTag(tlvReader.GetTag()) == n, err = CHIP_ERROR_INVALID_TLV_TAG)] *)
Definition verifyTagNum (tlvReader : TLVReader) (n : Z) : M unit :=
  mverify (TagNumFromTag (TLVReader_GetTag tlvReader) =? n) CHIP_ERROR_INVALID_TLV_TAG.

(** [CASESession::HandleSigma2Resume] *)
Definition HandleSigma2Resume (msg : list byte) (s : CASESession)
  : CHIP_ERROR * CASESession :=
  let '(err, s) :=
    runM (
      let containerType := kTLVType_Structure in
      let decodeTagIdSeq := 0 in

      let tlvReader := TLVReader_Init (TLV_decode E msg) in
      tlvReader <- mtry (TLVReader_NextTypeTag containerType AnonymousTag tlvReader) ;;
      tlvReader <- mtry (TLVReader_EnterContainer tlvReader) ;;

      tlvReader <- mtry (TLVReader_Next tlvReader) ;;
      let decodeTagIdSeq := decodeTagIdSeq + 1 in
      verifyTagNum tlvReader decodeTagIdSeq ;;
      mverify (Nat.eqb (TLVReader_GetLength tlvReader) kCASEResumptionIDSize)
              CHIP_ERROR_INVALID_TLV_ELEMENT ;;
      s <- mget ;;
      resumptionId <- mtry (TLVReader_GetBytes tlvReader (mResumptionId s)
                              kCASEResumptionIDSize) ;;
      mdo (set_mResumptionId resumptionId) ;;

      tlvReader <- mtry (TLVReader_Next tlvReader) ;;
      let decodeTagIdSeq := decodeTagIdSeq + 1 in
      verifyTagNum tlvReader decodeTagIdSeq ;;
      mverify (Nat.eqb (TLVReader_GetLength tlvReader) kTAGSize)
              CHIP_ERROR_INVALID_TLV_ELEMENT ;;
      sigma2ResumeMIC <- mtry (TLVReader_GetBytes tlvReader (repeat x00 kTAGSize)
                                 kTAGSize) ;;

      s <- mget ;;
      mcheck (ValidateSigmaResumeMIC s sigma2ResumeMIC (mInitiatorRandom s)
                (mResumptionId s) kKDFS2RKeyInfo kResume2MIC_Nonce) ;;

      tlvReader <- mtry (TLVReader_Next tlvReader) ;;
      let decodeTagIdSeq := decodeTagIdSeq + 1 in
      verifyTagNum tlvReader decodeTagIdSeq ;;
      responderSessionId <- mtry (TLVReader_Get_uint16 tlvReader) ;;

      mdo (SetPeerSessionId responderSessionId) ;;

      mdo (fun s => SendStatusReport (mExchangeCtxt s) kProtocolCodeSuccess s) ;;

      mdo (set_mCASESessionEstablished true) ;;

      (* Forget our exchange, as no additional messages are expected from the peer *)
      mdo (set_mExchangeCtxt None) ;;

      (* Call delegate to indicate session establishment is successful *)
      mdo (emit EvOnSessionEstablished) ;;

      mret tt) s in
  (* exit: *)
  if negb (isNoError err)
  then (err, SendStatusReport (mExchangeCtxt s) kProtocolCodeInvalidParam s)
  else (err, s).

(** The sender's certificates at the head of a decrypted TBE structure, as
    [HandleSigma2] and [HandleSigma3] read them: the NOC, the ICAC when its
    tag follows, and the reader left on the next element. *)
Definition readTBECertificates (decryptedDataTlvReader : TLVReader)
  : M (TLVReader * ByteSpan * ByteSpan) :=
  let containerType := kTLVType_Structure in
  decryptedDataTlvReader <-
    mtry (TLVReader_NextTypeTag containerType AnonymousTag decryptedDataTlvReader) ;;
  decryptedDataTlvReader <- mtry (TLVReader_EnterContainer decryptedDataTlvReader) ;;

  decryptedDataTlvReader <-
    mtry (TLVReader_NextTypeTag kTLVType_ByteString (ContextTag kTag_TBEData_SenderNOC)
            decryptedDataTlvReader) ;;
  senderNOC <- mtry (TLVReader_GetByteView decryptedDataTlvReader) ;;

  decryptedDataTlvReader <- mtry (TLVReader_Next decryptedDataTlvReader) ;;
  if TagNumFromTag (TLVReader_GetTag decryptedDataTlvReader) =? kTag_TBEData_SenderICAC
  then
    mverify (TLVType_eqb (TLVReader_GetType decryptedDataTlvReader) kTLVType_ByteString)
            CHIP_ERROR_WRONG_TLV_TYPE ;;
    senderICAC <- mtry (TLVReader_GetByteView decryptedDataTlvReader) ;;
    decryptedDataTlvReader <-
      mtry (TLVReader_NextTypeTag kTLVType_ByteString (ContextTag kTag_TBEData_Signature)
              decryptedDataTlvReader) ;;
    mret (decryptedDataTlvReader, senderNOC, senderICAC)
  else mret (decryptedDataTlvReader, senderNOC, []).

(** The signature member of a decrypted TBE structure, as [HandleSigma2]
    and [HandleSigma3] read it. *)
Definition readTBESignature (decryptedDataTlvReader : TLVReader) : M (list byte) :=
  mverify (TagNumFromTag (TLVReader_GetTag decryptedDataTlvReader)
           =? kTag_TBEData_Signature) CHIP_ERROR_INVALID_TLV_TAG ;;
  mverify (Nat.leb (TLVReader_GetLength decryptedDataTlvReader)
                   (P256ECDSASignature_Capacity E)) CHIP_ERROR_INVALID_TLV_ELEMENT ;;
  let len := TLVReader_GetLength decryptedDataTlvReader in
  signature <- mtry (TLVReader_GetBytes decryptedDataTlvReader (repeat x00 len) len) ;;
  mret (firstn len signature).

(** [CASESession::HandleSigma2] *)
Definition HandleSigma2 (msg : list byte) (s : CASESession)
  : CHIP_ERROR * CASESession :=
  let '(err, s) :=
    runM (
      let containerType := kTLVType_Structure in
      let buf := msg in
      let decodeTagIdSeq := 0 in

      (* [Start()] of a non-null packet buffer is not null *)
      mverify true CHIP_ERROR_MESSAGE_INCOMPLETE ;;

      let tlvReader := TLVReader_Init (TLV_decode E msg) in
      tlvReader <- mtry (TLVReader_NextTypeTag containerType AnonymousTag tlvReader) ;;
      tlvReader <- mtry (TLVReader_EnterContainer tlvReader) ;;

      (* Retrieve Responder's Random value *)
      tlvReader <- mtry (TLVReader_Next tlvReader) ;;
      let decodeTagIdSeq := decodeTagIdSeq + 1 in
      verifyTagNum tlvReader decodeTagIdSeq ;;
      responderRandom <- mtry (TLVReader_GetBytes tlvReader
                                 (repeat x00 kSigmaParamRandomNumberSize)
                                 kSigmaParamRandomNumberSize) ;;

      (* Assign Session ID *)
      tlvReader <- mtry (TLVReader_Next tlvReader) ;;
      let decodeTagIdSeq := decodeTagIdSeq + 1 in
      verifyTagNum tlvReader decodeTagIdSeq ;;
      responderSessionId <- mtry (TLVReader_Get_uint16 tlvReader) ;;

      mdo (SetPeerSessionId responderSessionId) ;;

      (* Retrieve Responder's Ephemeral Pubkey *)
      tlvReader <- mtry (TLVReader_Next tlvReader) ;;
      let decodeTagIdSeq := decodeTagIdSeq + 1 in
      verifyTagNum tlvReader decodeTagIdSeq ;;
      s <- mget ;;
      remotePubKey <- mtry (TLVReader_GetBytes tlvReader (mRemotePubKey s)
                              kP256_PublicKey_Length) ;;
      mdo (set_mRemotePubKey remotePubKey) ;;

      (* Generate a Shared Secret *)
      s <- mget ;;
      sharedSecret <- mtry (ECDH_derive_secret E (mEphemeralKey s) (mRemotePubKey s)
                              (mSharedSecret s)) ;;
      mdo (set_mSharedSecret sharedSecret) ;;

      (* Generate the S2K key *)
      s <- mget ;;
      saltSpan <- mtry (ConstructSaltSigma2 s responderRandom (mRemotePubKey s) (mIPK s)
                          (kIPKSize + kSigmaParamRandomNumberSize
                           + kP256_PublicKey_Length + kSHA256_Hash_Length)%nat) ;;
      sr2k <- mtry (HKDF_SHA256 E (secretSpan (mSharedSecret s)) saltSpan
                      (firstn kKDFInfoLength kKDFSR2Info) kAEADKeySize) ;;

      mcall (AddData buf) ;;

      (* Generate decrypted data *)
      tlvReader <- mtry (TLVReader_Next tlvReader) ;;
      let decodeTagIdSeq := decodeTagIdSeq + 1 in
      verifyTagNum tlvReader decodeTagIdSeq ;;
      mverify (ScopedMemoryBuffer_Alloc E (TLVReader_GetLength tlvReader))
              CHIP_ERROR_NO_MEMORY ;;
      let msg_r2_encrypted_len_with_tag := TLVReader_GetLength tlvReader in
      mverify (Nat.ltb kTAGSize msg_r2_encrypted_len_with_tag)
              CHIP_ERROR_INVALID_TLV_ELEMENT ;;
      msg_R2_Encrypted <-
        mtry (TLVReader_GetBytes tlvReader (repeat x00 msg_r2_encrypted_len_with_tag)
                msg_r2_encrypted_len_with_tag) ;;
      let msg_r2_encrypted_len := (msg_r2_encrypted_len_with_tag - kTAGSize)%nat in

      decrypted <- mtry (AES_CCM_decrypt E (firstn msg_r2_encrypted_len msg_R2_Encrypted) []
                           (firstn kTAGSize (skipn msg_r2_encrypted_len msg_R2_Encrypted))
                           sr2k (firstn kTBEDataNonceLength kTBEData2_Nonce)) ;;

      let decryptedDataTlvReader := TLVReader_Init (TLV_decode E decrypted) in
      '(decryptedDataTlvReader, responderNOC, responderICAC) <-
        readTBECertificates decryptedDataTlvReader ;;

      (* Validate responder identity located in msg_r2_encrypted *)
      remoteCredential <- Validate_and_RetrieveResponderID responderNOC responderICAC ;;

      (* Construct msg_R2_Signed and validate the signature in msg_r2_encrypted *)
      let msg_r2_signed_len :=
        EstimateTLVStructOverhead E
          (2 + List.length responderNOC + List.length responderICAC
           + kP256_PublicKey_Length * 2)%nat 4 in

      mverify (ScopedMemoryBuffer_Alloc E msg_r2_signed_len) CHIP_ERROR_NO_MEMORY ;;

      s <- mget ;;
      msg_R2_Signed <- mtry (ConstructTBSData responderNOC responderICAC
                               (mRemotePubKey s) (keypairPubkey (mEphemeralKey s))
                               msg_r2_signed_len) ;;

      tbsData2Signature <- readTBESignature decryptedDataTlvReader ;;

      (* Validate signature *)
      mcheck (ECDSA_validate_msg_signature E remoteCredential msg_R2_Signed
                tbsData2Signature) ;;

      (* Retrieve session resumption ID *)
      decryptedDataTlvReader <-
        mtry (TLVReader_NextTypeTag kTLVType_ByteString
                (ContextTag kTag_TBEData_ResumptionID) decryptedDataTlvReader) ;;
      s <- mget ;;
      resumptionId <- mtry (TLVReader_GetBytes decryptedDataTlvReader (mResumptionId s)
                              kCASEResumptionIDSize) ;;
      mdo (set_mResumptionId resumptionId) ;;

      mret tt) s in
  (* exit: *)
  if negb (isNoError err)
  then (err, SendStatusReport (mExchangeCtxt s) kProtocolCodeInvalidParam s)
  else (err, s).

(** [CASESession::SendSigma3] *)
Definition SendSigma3 (s : CASESession) : CHIP_ERROR * CASESession :=
  let '(err, s) :=
    runM (
      s <- mget ;;
      match mFabricInfo s with
      | None => mexit CHIP_ERROR_INCORRECT_STATE
      | Some fabricInfo =>
      icaCert <- mtry (GetICACert E fabricInfo) ;;
      nocCert <- mtry (GetNOCCert E fabricInfo) ;;

      mdo (set_mTrustedRootId (GetTrustedRootId E fabricInfo)) ;;
      mverify (negb (Nat.eqb (List.length (GetTrustedRootId E fabricInfo)) 0))
              CHIP_ERROR_INTERNAL ;;

      (* Prepare Sigma3 TBS Data Blob *)
      let msg_r3_signed_len :=
        EstimateTLVStructOverhead E
          (List.length icaCert + List.length nocCert + kP256_PublicKey_Length * 2)%nat 4 in

      mverify (ScopedMemoryBuffer_Alloc E msg_r3_signed_len) CHIP_ERROR_NO_MEMORY ;;

      s <- mget ;;
      msg_R3_Signed <- mtry (ConstructTBSData nocCert icaCert
                               (keypairPubkey (mEphemeralKey s)) (mRemotePubKey s)
                               msg_r3_signed_len) ;;

      (* Generate a signature *)
      match GetOperationalKey E fabricInfo with
      | None => mexit CHIP_ERROR_INCORRECT_STATE
      | Some operationalKey =>
      tbsData3Signature <- mtry (ECDSA_sign_msg E operationalKey msg_R3_Signed) ;;

      (* Prepare Sigma3 TBE Data Blob *)
      let msg_r3_encrypted_len :=
        EstimateTLVStructOverhead E
          (List.length nocCert + List.length icaCert
           + List.length tbsData3Signature)%nat 3 in

      mverify (ScopedMemoryBuffer_Alloc E (msg_r3_encrypted_len + kTAGSize)%nat)
              CHIP_ERROR_NO_MEMORY ;;

      let tlvWriter := TLVWriter_Init msg_r3_encrypted_len in
      tlvWriter <- mtry (TLVWriter_StartContainer E tlvWriter) ;;
      tlvWriter <- mtry (TLVWriter_Put E tlvWriter
                           (TLVByteString (ContextTag kTag_TBEData_SenderNOC) nocCert)) ;;
      tlvWriter <-
        (if negb (Nat.eqb (List.length icaCert) 0)
         then mtry (TLVWriter_Put E tlvWriter
                      (TLVByteString (ContextTag kTag_TBEData_SenderICAC) icaCert))
         else mret tlvWriter) ;;
      tlvWriter <- mtry (TLVWriter_Put E tlvWriter
                           (TLVByteString (ContextTag kTag_TBEData_Signature)
                              tbsData3Signature)) ;;
      tlvWriter <- mtry (TLVWriter_EndContainer E tlvWriter) ;;
      msg_R3_Encrypted <- mtry (TLVWriter_Finalize E tlvWriter) ;;
      let msg_r3_encrypted_len := List.length msg_R3_Encrypted in

      (* Generate S3K key *)
      s <- mget ;;
      saltSpan <- mtry (ConstructSaltSigma3 s (mIPK s)
                          (kIPKSize + kSHA256_Hash_Length)%nat) ;;
      sr3k <- mtry (HKDF_SHA256 E (secretSpan (mSharedSecret s)) saltSpan
                      (firstn kKDFInfoLength kKDFSR3Info) kAEADKeySize) ;;

      (* Generated Encrypted data blob *)
      '(ciphertext, tag) <- mtry (AES_CCM_encrypt E msg_R3_Encrypted [] sr3k
                                    (firstn kTBEDataNonceLength kTBEData3_Nonce)
                                    kTAGSize) ;;
      let msg_R3_Encrypted := (ciphertext ++ tag)%list in

      (* Generate Sigma3 Msg *)
      let data_len :=
        EstimateTLVStructOverhead E (kTAGSize + msg_r3_encrypted_len)%nat 1 in

      mverify (PacketBufferHandle_New E data_len) CHIP_ERROR_NO_MEMORY ;;

      let tlvWriter := TLVWriter_Init data_len in
      tlvWriter <- mtry (TLVWriter_StartContainer E tlvWriter) ;;
      tlvWriter <- mtry (TLVWriter_Put E tlvWriter
                           (TLVByteString (ContextTag 1) msg_R3_Encrypted)) ;;
      tlvWriter <- mtry (TLVWriter_EndContainer E tlvWriter) ;;
      msg_R3 <- mtry (TLVWriter_Finalize E tlvWriter) ;;

      mcall (AddData msg_R3) ;;

      (* The state is being updated here before the message is successfully sent. *)
      mdo (set_mState kSentSigma3) ;;

      (* Call delegate to send the Msg3 to peer *)
      mcall (SendMessage CASE_Sigma3 msg_R3 true) ;;

      s <- mget ;;
      messageDigest <- mtry (Hash_Finish E (mCommissioningHash s)) ;;
      mdo (set_mMessageDigest messageDigest) ;;

      mret tt
      end
      end) s in
  (* exit: *)
  if negb (isNoError err)
  then
    let s := SendStatusReport (mExchangeCtxt s) kProtocolCodeInvalidParam s in
    (err, set_mState kInitialized s)
  else (err, s).

(** [CASESession::HandleSigma2_and_SendSigma3] *)
Definition HandleSigma2_and_SendSigma3 (msg : list byte)
  : CASESession -> CHIP_ERROR * CASESession :=
  runM (
    mcall (HandleSigma2 msg) ;;
    mcall SendSigma3 ;;

    mret tt).

(** [CASESession::HandleSigma3] *)
Definition HandleSigma3 (msg : list byte) (s : CASESession)
  : CHIP_ERROR * CASESession :=
  let '(err, s) :=
    runM (
      let containerType := kTLVType_Structure in
      let buf := msg in
      let decodeTagIdSeq := 0 in

      let tlvReader := TLVReader_Init (TLV_decode E msg) in
      tlvReader <- mtry (TLVReader_NextTypeTag containerType AnonymousTag tlvReader) ;;
      tlvReader <- mtry (TLVReader_EnterContainer tlvReader) ;;

      (* Fetch encrypted data *)
      tlvReader <- mtry (TLVReader_Next tlvReader) ;;
      let decodeTagIdSeq := decodeTagIdSeq + 1 in
      verifyTagNum tlvReader decodeTagIdSeq ;;
      mverify (ScopedMemoryBuffer_Alloc E (TLVReader_GetLength tlvReader))
              CHIP_ERROR_NO_MEMORY ;;
      let msg_r3_encrypted_len_with_tag := TLVReader_GetLength tlvReader in
      mverify (Nat.ltb kTAGSize msg_r3_encrypted_len_with_tag)
              CHIP_ERROR_INVALID_TLV_ELEMENT ;;
      msg_R3_Encrypted <-
        mtry (TLVReader_GetBytes tlvReader (repeat x00 msg_r3_encrypted_len_with_tag)
                msg_r3_encrypted_len_with_tag) ;;
      let msg_r3_encrypted_len := (msg_r3_encrypted_len_with_tag - kTAGSize)%nat in

      (* Step 1 *)
      s <- mget ;;
      saltSpan <- mtry (ConstructSaltSigma3 s (mIPK s)
                          (kIPKSize + kSHA256_Hash_Length)%nat) ;;
      sr3k <- mtry (HKDF_SHA256 E (secretSpan (mSharedSecret s)) saltSpan
                      (firstn kKDFInfoLength kKDFSR3Info) kAEADKeySize) ;;

      mcall (AddData buf) ;;

      (* Step 2 - Decrypt data blob *)
      decrypted <- mtry (AES_CCM_decrypt E (firstn msg_r3_encrypted_len msg_R3_Encrypted) []
                           (firstn kTAGSize (skipn msg_r3_encrypted_len msg_R3_Encrypted))
                           sr3k (firstn kTBEDataNonceLength kTBEData3_Nonce)) ;;

      let decryptedDataTlvReader := TLVReader_Init (TLV_decode E decrypted) in
      '(decryptedDataTlvReader, initiatorNOC, initiatorICAC) <-
        readTBECertificates decryptedDataTlvReader ;;

      (* Step 5/6 - Validate initiator identity *)
      remoteCredential <- Validate_and_RetrieveResponderID initiatorNOC initiatorICAC ;;

      (* Step 4 - Construct Sigma3 TBS Data *)
      let msg_r3_signed_len :=
        EstimateTLVStructOverhead E
          (2 + List.length initiatorNOC + List.length initiatorICAC
           + kP256_PublicKey_Length * 2)%nat 4 in

      mverify (ScopedMemoryBuffer_Alloc E msg_r3_signed_len) CHIP_ERROR_NO_MEMORY ;;

      s <- mget ;;
      msg_R3_Signed <- mtry (ConstructTBSData initiatorNOC initiatorICAC
                               (mRemotePubKey s) (keypairPubkey (mEphemeralKey s))
                               msg_r3_signed_len) ;;

      tbsData3Signature <- readTBESignature decryptedDataTlvReader ;;

      (* Step 7 - Validate Signature *)
      mcheck (ECDSA_validate_msg_signature E remoteCredential msg_R3_Signed
                tbsData3Signature) ;;

      s <- mget ;;
      messageDigest <- mtry (Hash_Finish E (mCommissioningHash s)) ;;
      mdo (set_mMessageDigest messageDigest) ;;

      mdo (fun s => SendStatusReport (mExchangeCtxt s) kProtocolCodeSuccess s) ;;

      mdo (set_mCASESessionEstablished true) ;;

      (* Forget our exchange, as no additional messages are expected from the peer *)
      mdo (set_mExchangeCtxt None) ;;

      (* Call delegate to indicate session establishment is successful *)
      mdo (emit EvOnSessionEstablished) ;;

      mret tt) s in
  (* exit: *)
  if negb (isNoError err)
  then (err, SendStatusReport (mExchangeCtxt s) kProtocolCodeInvalidParam s)
  else (err, s).

(** [CASESession::OnSuccessStatusReport] *)
Definition OnSuccessStatusReport (s : CASESession) : CASESession :=
  let s := set_mCASESessionEstablished true s in

  (* Forget our exchange, as no additional messages are expected from the peer *)
  let s := set_mExchangeCtxt None s in

  (* Call delegate to indicate pairing completion *)
  let s := emit EvOnSessionEstablished s in

  set_mState kInitialized s.

(** [CASESession::OnFailureStatusReport] *)
Definition OnFailureStatusReport (generalCode : GeneralStatusCode)
  (protocolCode : ProtocolCode) (s : CASESession) : CHIP_ERROR * CASESession :=
  let err :=
    match protocolCode with
    | kProtocolCodeInvalidParam => CHIP_ERROR_INVALID_CASE_PARAMETER
    | kProtocolCodeNoSharedRoot => CHIP_ERROR_NO_SHARED_TRUSTED_ROOT
    | _ => CHIP_ERROR_INTERNAL
    end in
  (err, set_mState kInitialized s).

(** Modelled from the spec: [PairingSession::HandleStatusReport] is not
    among the sources.  The transition table has a Status Report finalize
    the session when it reports success and success is expected, and has
    every other one handled as a failure report; success is general code
    Success with protocol code 0. *)
Definition HandleStatusReport (msg : list byte) (successExpected : bool)
  (s : CASESession) : CHIP_ERROR * CASESession :=
  let '(err, report) := StatusReport_Parse E msg in
  if negb (isNoError err) then (err, s)
  else
    match generalCode report, protocolCode report, successExpected with
    | kSuccess, kProtocolCodeSuccess, true =>
        (CHIP_NO_ERROR, OnSuccessStatusReport s)
    | _, _, _ => OnFailureStatusReport (generalCode report) (protocolCode report) s
    end.

(** [CASESession::ValidateReceivedMessage] *)
Definition ValidateReceivedMessage (ec : option ExchangeContext)
  (msgType : MsgType) (msg : PacketBufferHandle)
  : CASESession -> CHIP_ERROR * CASESession :=
  runM (
    mverify (negb (isNull ec)) CHIP_ERROR_INVALID_ARGUMENT ;;

    (* mExchangeCtxt can be nullptr if this is the first message (CASE_Sigma1)
       received by CASESession via UnsolicitedMessageHandler. *)
    s <- mget ;;
    (if negb (isNull (mExchangeCtxt s))
     then
       if negb (ExchangeContext_eqb (mExchangeCtxt s) ec)
       then mcheck CHIP_ERROR_INVALID_ARGUMENT
       else mret tt
     else
       mdo (set_mExchangeCtxt ec) ;;
       mdo (fun s => match mExchangeCtxt s with
                     | Some ec => emit (EvSetResponseTimeout ec kSigma_Response_Timeout) s
                     | None => s
                     end)) ;;

    mverify (negb (isNull msg)) CHIP_ERROR_INVALID_ARGUMENT ;;
    mret tt).

(** The bytes of a packet buffer that [ValidateReceivedMessage] has found not
    to be null. *)
Definition payloadOf (msg : PacketBufferHandle) : list byte :=
  match msg with Some bytes => bytes | None => [] end.

(** [CASESession::OnMessageReceived]; [msgType] is
    [payloadHeader.GetMessageType()]. *)
Definition OnMessageReceived (ec : option ExchangeContext) (msgType : MsgType)
  (msg : PacketBufferHandle) (s : CASESession) : CHIP_ERROR * CASESession :=
  let '(err, s) := ValidateReceivedMessage ec msgType msg s in
  let '(err, s) :=
    if negb (isNoError err) then (err, s)
    else
      (* By default, CHIP_ERROR_INVALID_MESSAGE_TYPE is returned if in the
         current state a message handler is not defined for the received
         message type. *)
      let err := CHIP_ERROR_INVALID_MESSAGE_TYPE in
      match mState s with
      | kInitialized =>
          match msgType with
          | CASE_Sigma1 => HandleSigma1_and_SendSigma2 (payloadOf msg) s
          | _ => (err, s)
          end
      | kSentSigma1 =>
          match msgType with
          | CASE_Sigma2 => HandleSigma2_and_SendSigma3 (payloadOf msg) s
          | CASE_Sigma2Resume => HandleSigma2Resume (payloadOf msg) s
          | StatusReport => HandleStatusReport (payloadOf msg) false s
          | _ => (err, s)
          end
      | kSentSigma2 =>
          match msgType with
          | CASE_Sigma3 => HandleSigma3 (payloadOf msg) s
          | StatusReport => HandleStatusReport (payloadOf msg) false s
          | _ => (err, s)
          end
      | kSentSigma3
      | kSentSigma2Resume =>
          match msgType with
          | StatusReport => HandleStatusReport (payloadOf msg) true s
          | _ => (err, s)
          end
      end in
  (* exit: call delegate to indicate session establishment failure. *)
  if negb (isNoError err)
  then
    (* Null out mExchangeCtxt so that Clear() doesn't try closing it. *)
    let s := set_mExchangeCtxt None s in
    let s := Clear s in
    (err, emit (EvOnSessionEstablishmentError err) s)
  else (err, s).

End Session.

(** ** Observations on the trace *)

(** The Status Reports sent, with the exchange each was sent on. *)
Fixpoint statusReportsOf (evs : list Event)
  : list (option ExchangeContext * ProtocolCode) :=
  match evs with
  | [] => []
  | EvSendStatusReport ec code :: rest => (ec, code) :: statusReportsOf rest
  | _ :: rest => statusReportsOf rest
  end.

(** The errors the delegate was notified of. *)
Fixpoint errorsOf (evs : list Event) : list CHIP_ERROR :=
  match evs with
  | [] => []
  | EvOnSessionEstablishmentError err :: rest => err :: errorsOf rest
  | _ :: rest => errorsOf rest
  end.

(** The messages handed to the exchange for sending, with their type. *)
Fixpoint messagesOf (evs : list Event) : list (MsgType * list byte) :=
  match evs with
  | [] => []
  | EvSendMessage _ msgType payload _ :: rest => (msgType, payload) :: messagesOf rest
  | _ :: rest => messagesOf rest
  end.

(** The pairs of current state and message type for which
    [OnMessageReceived] has a handler: the legal-transition table. *)
Definition hasHandler (state : State) (msgType : MsgType) : bool :=
  match state, msgType with
  | kInitialized, CASE_Sigma1 => true
  | kSentSigma1, CASE_Sigma2 => true
  | kSentSigma1, CASE_Sigma2Resume => true
  | kSentSigma1, StatusReport => true
  | kSentSigma2, CASE_Sigma3 => true
  | kSentSigma2, StatusReport => true
  | kSentSigma3, StatusReport => true
  | kSentSigma2Resume, StatusReport => true
  | _, _ => false
  end.

(** The pairs whose handler is one of the Sigma handlers of the session. *)
Definition hasSigmaHandler (state : State) (msgType : MsgType) : bool :=
  match state, msgType with
  | kInitialized, CASE_Sigma1 => true
  | kSentSigma1, CASE_Sigma2 => true
  | kSentSigma1, CASE_Sigma2Resume => true
  | kSentSigma2, CASE_Sigma3 => true
  | _, _ => false
  end.

(** The protocol code of the Status Report a failing Sigma handler sends:
    only the Sigma1 handler tells [CHIP_ERROR_KEY_NOT_FOUND] apart. *)
Definition reportedCode (state : State) (err : CHIP_ERROR) : ProtocolCode :=
  match state with
  | kInitialized =>
      if isKeyNotFound err then kProtocolCodeNoSharedRoot
      else kProtocolCodeInvalidParam
  | _ => kProtocolCodeInvalidParam
  end.

(** A Sigma1 message as [SendSigma1] lays it out: one anonymous structure
    with the four mandatory members, followed by the optional ones. *)
Definition Sigma1Message (random : list byte) (sessionId : Z)
  (destination pubKey : list byte) (optional : list TLVElement)
  : list TLVElement :=
  [TLVStructure AnonymousTag
     ([TLVByteString (ContextTag kInitiatorRandomTag) random;
       TLVUnsigned (ContextTag kInitiatorSessionIdTag) sessionId;
       TLVByteString (ContextTag kDestinationIdTag) destination;
       TLVByteString (ContextTag kInitiatorPubKeyTag) pubKey] ++ optional)].


(** The session after [ValidateReceivedMessage] has accepted a message on
    exchange [ec]: a session without an exchange adopts [ec] and sets its
    response timeout. *)
Definition validatedSession (ec : ExchangeContext) (s : CASESession)
  : CASESession :=
  match mExchangeCtxt s with
  | None =>
      emit (EvSetResponseTimeout ec kSigma_Response_Timeout)
        (set_mExchangeCtxt (Some ec) s)
  | Some _ => s
  end.

(** The handler [OnMessageReceived] calls for a state and a message type. *)
Definition handlerOf (E : Collaborators) (state : State) (msgType : MsgType)
  : option (list byte -> CASESession -> CHIP_ERROR * CASESession) :=
  match state, msgType with
  | kInitialized, CASE_Sigma1 => Some (HandleSigma1_and_SendSigma2 E)
  | kSentSigma1, CASE_Sigma2 => Some (HandleSigma2_and_SendSigma3 E)
  | kSentSigma1, CASE_Sigma2Resume => Some (HandleSigma2Resume E)
  | kSentSigma1, StatusReport => Some (fun msg => HandleStatusReport E msg false)
  | kSentSigma2, CASE_Sigma3 => Some (HandleSigma3 E)
  | kSentSigma2, StatusReport => Some (fun msg => HandleStatusReport E msg false)
  | kSentSigma3, StatusReport => Some (fun msg => HandleStatusReport E msg true)
  | kSentSigma2Resume, StatusReport => Some (fun msg => HandleStatusReport E msg true)
  | _, _ => None
  end.

(** The [exit:] block of [OnMessageReceived] on an error. *)
Definition abortSession (E : Collaborators) (err : CHIP_ERROR) (s : CASESession)
  : CASESession :=
  emit (EvOnSessionEstablishmentError err) (Clear E (set_mExchangeCtxt None s)).

(** ** A concrete set of collaborators and concrete messages

    Used to run the member functions on explicit inputs.  Every
    collaborator call succeeds; the decoder tells the messages apart by
    their first byte. *)

Definition demoSigma1 (optional : list TLVElement) : list TLVElement :=
  Sigma1Message (repeat x11 32) 7 (repeat x22 32) (repeat x33 65) optional.

Definition demoSigma2 : list TLVElement :=
  [TLVStructure AnonymousTag
     [TLVByteString (ContextTag 1) (repeat x44 32);
      TLVUnsigned (ContextTag 2) 9;
      TLVByteString (ContextTag 3) (repeat x55 65);
      TLVByteString (ContextTag 4) (x05 :: repeat x66 16)]].

Definition demoSigma3 : list TLVElement :=
  [TLVStructure AnonymousTag
     [TLVByteString (ContextTag 1) (x05 :: repeat x66 16)]].

Definition demoSigma2Resume : list TLVElement :=
  [TLVStructure AnonymousTag
     [TLVByteString (ContextTag 1) (repeat x77 16);
      TLVByteString (ContextTag 2) (repeat x88 16);
      TLVUnsigned (ContextTag 3) 9]].

Definition demoTBEData : list TLVElement :=
  [TLVStructure AnonymousTag
     [TLVByteString (ContextTag kTag_TBEData_SenderNOC) [xaa; xab];
      TLVByteString (ContextTag kTag_TBEData_Signature) (repeat xcc 64);
      TLVByteString (ContextTag kTag_TBEData_ResumptionID) (repeat x77 16)]].

Definition demoDecode (bytes : list byte) : list TLVElement :=
  match bytes with
  | x01 :: _ => demoSigma1 []
  | x02 :: _ => demoSigma2
  | x03 :: _ => demoSigma3
  | x04 :: _ => demoSigma2Resume
  | x05 :: _ => demoTBEData
  | x06 :: _ =>
      demoSigma1 [TLVByteString (ContextTag 6) (repeat x77 16);
                  TLVByteString (ContextTag 7) (repeat x88 16)]
  | _ => []
  end.

(** The first byte of an encoded message names its first member's size. *)
Definition demoEncode (elems : list TLVElement) : list byte :=
  match elems with
  | [TLVStructure _ (TLVByteString _ d :: _)] =>
      [uint8_of_Z (Z.of_nat (List.length d)); x00]
  | _ => [x00]
  end.

(** The collaborators; [candidate] is the fabric index the fabric table
    finds for every destination id. *)
Definition demoEnvironment (candidate : FabricIndex) : Collaborators := {|
  sizeof_size_t := 8;
  ScopedMemoryBuffer_Alloc := fun _ => true;
  PacketBufferHandle_New := fun _ => true;
  EstimateTLVStructOverhead := fun dataLen count => (dataLen + 4 * count + 2)%nat;
  PairingSession_Clear := fun _ => mkPairingSession 0 0 0 0;
  GetIPKList := repeat x00 16;
  GetIPKListEntries := 1;
  StatusReport_Parse := fun bytes =>
    match bytes with
    | x00 :: _ => (CHIP_NO_ERROR, mkStatusReport kSuccess 0 kProtocolCodeSuccess)
    | x02 :: _ => (CHIP_NO_ERROR, mkStatusReport kFailure 0 kProtocolCodeInvalidParam)
    | _ => (CHIP_ERROR_INVALID_ARGUMENT, mkStatusReport kFailure 0 kProtocolCodeInvalidParam)
    end;
  Hash_Begin := CHIP_NO_ERROR;
  Hash_AddData := fun _ _ => CHIP_NO_ERROR;
  Hash_GetDigest := fun chunks => (CHIP_NO_ERROR, firstn 32 (concat chunks ++ repeat x00 32));
  Hash_Finish := fun chunks => (CHIP_NO_ERROR, firstn 32 (concat chunks ++ repeat x00 32));
  DRBG_get_bytes := fun n len => (CHIP_NO_ERROR, repeat (uint8_of_Z (Z.of_nat n)) len);
  P256Keypair_Initialize := fun _ =>
    (CHIP_NO_ERROR, mkKeypair true (repeat x01 32) (repeat x02 65));
  ECDH_derive_secret := fun _ remote _ =>
    (CHIP_NO_ERROR, mkSecret (firstn 32 (remote ++ repeat x00 32)) 32);
  HKDF_SHA256 := fun secret salt info len =>
    (CHIP_NO_ERROR, firstn len (info ++ salt ++ secret ++ repeat x00 len));
  AES_CCM_encrypt := fun plaintext _ key _ tagLen =>
    (CHIP_NO_ERROR, (plaintext, firstn tagLen (key ++ repeat x00 tagLen)));
  AES_CCM_decrypt := fun ciphertext _ _ _ _ => (CHIP_NO_ERROR, ciphertext);
  ECDSA_sign_msg := fun _ _ => (CHIP_NO_ERROR, repeat xcc 64);
  ECDSA_validate_msg_signature := fun _ _ _ => CHIP_NO_ERROR;
  P256ECDSASignature_Capacity := 64;
  ASN1ToChipEpochTime := fun _ => (CHIP_NO_ERROR, 666353410);
  CryptoContext_keysLength := 48;
  kUndefinedFabricIndex := 0;
  FindDestinationIDCandidate := fun _ _ _ _ _ => candidate;
  FindFabricWithIndex := fun _ index => Some index;
  GetICACert := fun _ => (CHIP_NO_ERROR, []);
  GetNOCCert := fun _ => (CHIP_NO_ERROR, [xaa; xab]);
  GetTrustedRootId := fun _ => [xee];
  GetOperationalKey := fun fabric => Some fabric;
  GenerateDestinationID := fun _ _ _ _ => (CHIP_NO_ERROR, repeat x22 32);
  VerifyCredentials := fun _ _ _ _ => (CHIP_NO_ERROR, (42, 1, repeat x55 65));
  TLV_decode := demoDecode;
  TLV_encode := demoEncode;
  TLVWriter_error := fun _ _ _ => CHIP_NO_ERROR;
  ExchangeContext_SendMessage := fun _ _ _ => CHIP_NO_ERROR
|}.

(** Collaborators whose fabric table has a fabric for the destination id. *)
Definition demoCollaborators : Collaborators := demoEnvironment 1.

(** Collaborators whose fabric table has no fabric for the destination
    id. *)
Definition demoStrangers : Collaborators := demoEnvironment 0.

(** A session object before [Init], with all buffers zeroed. *)
Definition demoSession : CASESession := {|
  mCommissioningHash := [];
  mCASESessionEstablished := false;
  mState := kInitialized;
  mExchangeCtxt := None;
  mDelegate := None;
  mFabricInfo := None;
  mFabricsTable := None;
  mSharedSecret := mkSecret (repeat x00 32) 0;
  mMessageDigest := repeat x00 32;
  mResumptionId := repeat x00 16;
  mIPK := repeat x00 16;
  mInitiatorRandom := repeat x00 32;
  mRemotePubKey := repeat x00 65;
  mEphemeralKey := mkKeypair false [] [];
  mTrustedRootId := [];
  mValidContext := ValidationContext_Reset;
  base := mkPairingSession 0 0 0 0;
  trace := [];
  drbgCalls := 0
|}.

(** A responder that listens on fabric table 1 with delegate 1. *)
Definition demoResponder : CASESession :=
  snd (ListenForSessionEstablishment demoCollaborators 5 (Some 1) (Some 1) demoSession).

(** An initiator that has sent Sigma1 on exchange 1. *)
Definition demoInitiator : CASESession :=
  snd (EstablishSession demoCollaborators 0 (Some 1) 42 6 (Some 1) (Some 1) demoSession).

(** A responder that has answered a Sigma1 with Sigma2. *)
Definition demoResponderSentSigma2 : CASESession :=
  snd (OnMessageReceived demoCollaborators (Some 1) CASE_Sigma1 (Some [x01]) demoResponder).

(** An initiator that has answered a Sigma2 with Sigma3. *)
Definition demoInitiatorSentSigma3 : CASESession :=
  snd (OnMessageReceived demoCollaborators (Some 1) CASE_Sigma2 (Some [x02]) demoInitiator).

(** A responder that has received Sigma3: the session is established. *)
Definition demoResponderEstablished : CASESession :=
  snd (OnMessageReceived demoCollaborators (Some 1) CASE_Sigma3 (Some [x03])
         demoResponderSentSigma2).

(** An initiator whose session was resumed: it has received Sigma2Resume on
    its exchange. *)
Definition demoInitiatorResumed : CASESession :=
  snd (OnMessageReceived demoCollaborators (Some 1) CASE_Sigma2Resume (Some [x04])
         demoInitiator).

(** A session that carries a secret to be overwritten: its shared-secret
    buffer is full of [xff]. *)
Definition demoStaleSecret : CASESession :=
  set_mSharedSecret (mkSecret (repeat xff 32) 32) demoSession.

Definition demoSerializable : CASESessionSerializable := {|
  ser_mVersion := 1;
  ser_mSharedSecretLen := 4;
  ser_mSharedSecret := repeat x5a 4 ++ repeat x00 28;
  ser_mMessageDigestLen := 32;
  ser_mMessageDigest := repeat x01 32;
  ser_mPeerNodeId := 42;
  ser_mLocalSessionId := 5;
  ser_mPeerSessionId := 7;
  ser_mResumptionId := repeat x77 16
|}.

(** ** Serialization of a session *)

(** [CanCastTo<uint16_t>] of a [size_t] and [CanCastTo<uint64_t>] of a node
    id. *)
Definition CanCastTo_uint16 (n : nat) : bool := Z.of_nat n <=? 65535.
Definition CanCastTo_uint64 (z : Z) : bool := (0 <=? z) && (z <? 2 ^ 64).

(** [memset(&serializable, 0, sizeof(serializable))]: every member is zero,
    and the arrays keep their sizes. *)
Definition CASESessionSerializable_zero (serializable : CASESessionSerializable)
  : CASESessionSerializable :=
  mkSerializable 0 0
    (memset (ser_mSharedSecret serializable) 0
       (List.length (ser_mSharedSecret serializable)))
    0
    (memset (ser_mMessageDigest serializable) 0
       (List.length (ser_mMessageDigest serializable)))
    0 0 0
    (memset (ser_mResumptionId serializable) 0
       (List.length (ser_mResumptionId serializable))).

(** [CASESession::ToSerializable]; [serializable] is the structure the
    caller hands in, which stays as it is when a check fails.  The integers
    of the serialized form are kept as their values, as [FromSerializable]
    reads them: [HostSwap16] and [HostSwap64] are applied on both ways. *)
Definition ToSerializable (s : CASESession) (serializable : CASESessionSerializable)
  : CHIP_ERROR * CASESessionSerializable :=
  orun serializable (
    let peerNodeId := GetPeerNodeId s in
    overify (CanCastTo_uint16 (secretLength (mSharedSecret s))) CHIP_ERROR_INTERNAL ;;
    overify (CanCastTo_uint16 kSHA256_Hash_Length) CHIP_ERROR_INTERNAL ;;
    overify (CanCastTo_uint64 peerNodeId) CHIP_ERROR_INTERNAL ;;

    let serializable := CASESessionSerializable_zero serializable in
    Done (mkSerializable
            kCASESessionVersion
            (Z.of_nat (secretLength (mSharedSecret s)))
            (memcpy (ser_mSharedSecret serializable) (secretBytes (mSharedSecret s))
               (secretLength (mSharedSecret s)))
            (Z.of_nat kSHA256_Hash_Length)
            (memcpy (ser_mMessageDigest serializable) (mMessageDigest s)
               kSHA256_Hash_Length)
            peerNodeId
            (GetLocalSessionId s)
            (GetPeerSessionId s)
            (memcpy (ser_mResumptionId serializable) (mResumptionId s)
               kCASEResumptionIDSize)))%O.

(** The sizes the members of a session have by their types. *)
Definition membersSized (s : CASESession) : Prop :=
  (secretLength (mSharedSecret s) <= Capacity (mSharedSecret s))%nat /\
  List.length (mMessageDigest s) = kSHA256_Hash_Length /\
  List.length (mResumptionId s) = kCASEResumptionIDSize /\
  List.length (mIPK s) = kIPKSize.

(** ** Message layouts *)

(** The resumption members of a Sigma1 as [SendSigma1] lays them out. *)
Definition resumptionMembers (resume : option (list byte * list byte))
  : list TLVElement :=
  match resume with
  | Some (resumptionID, resumeMIC) =>
      [TLVByteString (ContextTag kResumptionIDTag) resumptionID;
       TLVByteString (ContextTag kResume1MICTag) resumeMIC]
  | None => []
  end.

(** The parameters [ParseSigma1] gives for a well-formed Sigma1. *)
Definition parsedSigma1 (random : list byte) (sessionId : Z)
  (destination pubKey : list byte) (resume : option (list byte * list byte))
  : Sigma1Params :=
  match resume with
  | Some (resumptionID, resumeMIC) =>
      mkSigma1Params random sessionId destination pubKey true resumptionID resumeMIC
  | None => mkSigma1Params random sessionId destination pubKey false [] []
  end.

(** The sizes [ParseSigma1] insists on for the resumption members. *)
Definition resumptionSizes (resume : option (list byte * list byte)) : Prop :=
  match resume with
  | Some (resumptionID, resumeMIC) =>
      List.length resumptionID = kCASEResumptionIDSize /\
      List.length resumeMIC = kTAGSize
  | None => True
  end.

(** The tags [ParseSigma1] looks for among the optional members. *)
Definition isOptionalTag (t : Tag) : bool :=
  Tag_eqb t (ContextTag kInitiatorMRPParamsTag)
  || Tag_eqb t (ContextTag kResumptionIDTag)
  || Tag_eqb t (ContextTag kResume1MICTag).

(** The Sigma2Resume message as [SendSigma2Resume] lays it out. *)
Definition Sigma2ResumeMessage (resumptionID resumeMIC : list byte) (sessionId : Z)
  : list TLVElement :=
  [TLVStructure AnonymousTag
     [TLVByteString (ContextTag 1) resumptionID;
      TLVByteString (ContextTag 2) resumeMIC;
      TLVUnsigned (ContextTag 3) sessionId]].

(** The to-be-signed structure as [ConstructTBSData] lays it out. *)
Definition TBSData (senderNOC senderICAC senderPubKey receiverPubKey : ByteSpan)
  : list TLVElement :=
  [TLVStructure AnonymousTag
     ([TLVByteString (ContextTag kTag_TBSData_SenderNOC) senderNOC]
      ++ (match senderICAC with
          | [] => []
          | _ => [TLVByteString (ContextTag kTag_TBSData_SenderICAC) senderICAC]
          end)
      ++ [TLVByteString (ContextTag kTag_TBSData_SenderPubKey) senderPubKey;
          TLVByteString (ContextTag kTag_TBSData_ReceiverPubKey) receiverPubKey])].

(** ** Observations on the life of a session *)

(** The exchanges the session called [Close()] on. *)
Fixpoint closedOf (evs : list Event) : list ExchangeContext :=
  match evs with
  | [] => []
  | EvExchangeClose ec :: rest => ec :: closedOf rest
  | _ :: rest => closedOf rest
  end.

(** The [Close()] that [CloseExchange] calls on the exchange it holds. *)
Definition closing (s : CASESession) : list Event :=
  match mExchangeCtxt s with
  | Some ec => [EvExchangeClose ec]
  | None => []
  end.

(** The session [Init] leaves when it succeeds. *)
Definition initialSession (E : Collaborators) (localSessionId : Z)
  (delegate : option SessionEstablishmentDelegate) (s : CASESession)
  : CASESession :=
  set_mValidContext
    (mkValidationContext (mEffectiveTime ValidationContext_Reset)
       [kDigitalSignature] [kServerAuth])
    (SetLocalSessionId localSessionId
       (set_mDelegate delegate (set_mCommissioningHash [] (Clear E s)))).

(** The session on which [EstablishSession] calls [SendSigma1]. *)
Definition initiatorStart (E : Collaborators) (peerAddress : PeerAddress)
  (fabric : option FabricInfo) (peerNodeId : NodeId) (localSessionId : Z)
  (ec : ExchangeContext) (delegate : option SessionEstablishmentDelegate)
  (s : CASESession) : CASESession :=
  SetPeerNodeId peerNodeId
    (SetPeerAddress peerAddress
       (emit (EvSetResponseTimeout ec kSigma_Response_Timeout)
          (set_mFabricInfo fabric
             (set_mExchangeCtxt (Some ec)
                (initialSession E localSessionId delegate s))))).

(** The secrets a session holds. *)
Definition keyMaterial (s : CASESession)
  : P256ECDHDerivedSecret * P256Keypair * list byte * list byte * list byte :=
  (mSharedSecret s, mEphemeralKey s, mIPK s, mResumptionId s, mMessageDigest s).

(** The states a Sigma handler that succeeds leaves the session in. *)
Definition statesAfter (state : State) (msgType : MsgType) : list State :=
  match state, msgType with
  | kInitialized, CASE_Sigma1 => [kSentSigma2; kSentSigma2Resume]
  | kSentSigma1, CASE_Sigma2 => [kSentSigma3]
  | kSentSigma1, CASE_Sigma2Resume => [kSentSigma1]
  | kSentSigma2, CASE_Sigma3 => [kSentSigma2]
  | _, _ => []
  end.

(** The pairs whose handler marks the session established. *)
Definition establishes (state : State) (msgType : MsgType) : bool :=
  match state, msgType with
  | kSentSigma1, CASE_Sigma2Resume => true
  | kSentSigma2, CASE_Sigma3 => true
  | _, _ => false
  end.






(** ** Further concrete collaborators and sessions *)

(** Collaborators that differ in how they decode a message, or in how they
    decrypt. *)
Definition with_TLV_decode (decode : list byte -> list TLVElement)
  (E : Collaborators) : Collaborators :=
  mkCollaborators (sizeof_size_t E) (ScopedMemoryBuffer_Alloc E)
    (PacketBufferHandle_New E) (EstimateTLVStructOverhead E)
    (PairingSession_Clear E) (GetIPKList E) (GetIPKListEntries E)
    (StatusReport_Parse E) (Hash_Begin E) (Hash_AddData E) (Hash_GetDigest E)
    (Hash_Finish E) (DRBG_get_bytes E) (P256Keypair_Initialize E)
    (ECDH_derive_secret E) (HKDF_SHA256 E) (AES_CCM_encrypt E) (AES_CCM_decrypt E)
    (ECDSA_sign_msg E) (ECDSA_validate_msg_signature E)
    (P256ECDSASignature_Capacity E) (ASN1ToChipEpochTime E)
    (CryptoContext_keysLength E) (kUndefinedFabricIndex E)
    (FindDestinationIDCandidate E) (FindFabricWithIndex E) (GetICACert E)
    (GetNOCCert E) (GetTrustedRootId E) (GetOperationalKey E)
    (GenerateDestinationID E) (VerifyCredentials E) decode (TLV_encode E)
    (TLVWriter_error E) (ExchangeContext_SendMessage E).

Definition with_AES_CCM_decrypt
  (decrypt : list byte -> list byte -> list byte -> list byte -> list byte
             -> CHIP_ERROR * list byte)
  (E : Collaborators) : Collaborators :=
  mkCollaborators (sizeof_size_t E) (ScopedMemoryBuffer_Alloc E)
    (PacketBufferHandle_New E) (EstimateTLVStructOverhead E)
    (PairingSession_Clear E) (GetIPKList E) (GetIPKListEntries E)
    (StatusReport_Parse E) (Hash_Begin E) (Hash_AddData E) (Hash_GetDigest E)
    (Hash_Finish E) (DRBG_get_bytes E) (P256Keypair_Initialize E)
    (ECDH_derive_secret E) (HKDF_SHA256 E) (AES_CCM_encrypt E) decrypt
    (ECDSA_sign_msg E) (ECDSA_validate_msg_signature E)
    (P256ECDSASignature_Capacity E) (ASN1ToChipEpochTime E)
    (CryptoContext_keysLength E) (kUndefinedFabricIndex E)
    (FindDestinationIDCandidate E) (FindFabricWithIndex E) (GetICACert E)
    (GetNOCCert E) (GetTrustedRootId E) (GetOperationalKey E)
    (GenerateDestinationID E) (VerifyCredentials E) (TLV_decode E) (TLV_encode E)
    (TLVWriter_error E) (ExchangeContext_SendMessage E).

(** Collaborators whose decryption refuses every tag. *)
Definition demoForgers : Collaborators :=
  with_AES_CCM_decrypt (fun _ _ _ _ _ => (CHIP_ERROR_INTERNAL, [])) demoCollaborators.

(** A Sigma3 whose encrypted member is too short to hold a tag. *)
Definition demoShortSigma3 : list TLVElement :=
  [TLVStructure AnonymousTag [TLVByteString (ContextTag 1) (repeat x66 16)]].

Definition demoTruncators : Collaborators :=
  with_TLV_decode (fun _ => demoShortSigma3) demoCollaborators.

(** A responder that holds the resumption id of an earlier session. *)
Definition demoResumable : CASESession :=
  set_mResumptionId (repeat x77 16) demoResponder.

(** The responder after it has answered the resuming Sigma1. *)
Definition demoResumed : CASESession :=
  snd (HandleSigma1 demoCollaborators [x06] demoResumable).

(** The Sigma2Resume message of that answer, as the peer decodes it. *)
Definition demoSentSigma2Resume : list TLVElement :=
  Sigma2ResumeMessage (mResumptionId demoResumed)
    (snd (GenerateSigmaResumeMIC demoCollaborators demoResumable (repeat x11 32)
            (mResumptionId demoResumed) kKDFS2RKeyInfo kResume2MIC_Nonce kTAGSize))
    (GetLocalSessionId demoResumable).

Definition demoResumers : Collaborators :=
  with_TLV_decode (fun _ => demoSentSigma2Resume) demoCollaborators.

(** An initiator that resumes: it holds the responder's shared secret and
    the random value of its Sigma1. *)
Definition demoResumingInitiator : CASESession :=
  set_mInitiatorRandom (repeat x11 32)
    (set_mSharedSecret (mSharedSecret demoResumable) demoInitiator).

(** A serialized session of another version. *)
Definition demoOtherVersion : CASESessionSerializable := {|
  ser_mVersion := 2;
  ser_mSharedSecretLen := 4;
  ser_mSharedSecret := repeat x5a 4 ++ repeat x00 28;
  ser_mMessageDigestLen := 32;
  ser_mMessageDigest := repeat x01 32;
  ser_mPeerNodeId := 42;
  ser_mLocalSessionId := 5;
  ser_mPeerSessionId := 7;
  ser_mResumptionId := repeat x77 16
|}.

(** * Properties *)

(** ** Reasoning about bodies with early exit *)

Lemma otry_Done {A} (r : CHIP_ERROR * A) a :
  otry r = Done a -> fst r = CHIP_NO_ERROR /\ a = snd r.
Proof.
  unfold otry. destruct r as [e x]; cbn [fst snd].
  destruct e; cbn; intros H; inversion H; auto.
Qed.

Lemma otry_Exit {A} (r : CHIP_ERROR * A) e :
  otry r = @Exit A e -> e = fst r /\ e <> CHIP_NO_ERROR.
Proof.
  unfold otry. destruct r as [e' x]; cbn [fst snd].
  destruct e'; cbn; intros H; inversion H; split; auto; discriminate.
Qed.

Lemma isNoError_true err : isNoError err = true -> err = CHIP_NO_ERROR.
Proof. destruct err; cbn; congruence. Qed.

Lemma isNoError_false err : isNoError err = false -> err <> CHIP_NO_ERROR.
Proof. destruct err; cbn; congruence. Qed.

Lemma mbind_inv {A B} (m : M A) (k : A -> M B) s o s' :
  mbind m k s = (o, s') ->
  (exists a s1, m s = (Done a, s1) /\ k a s1 = (o, s')) \/
  (exists e, m s = (Exit e, s') /\ o = Exit e).
Proof.
  unfold mbind. destruct (m s) as [[a|e] s1]; intros H.
  - left. eauto.
  - right. inversion H; subst. eauto.
Qed.

Lemma runM_inv (m : M unit) s err s' :
  runM m s = (err, s') -> exists o, m s = (o, s') /\ err = errOf o.
Proof.
  unfold runM. destruct (m s) as [o s1]. intros H; inversion H; subst. eauto.
Qed.

Lemma mtry_inv {A} (r : CHIP_ERROR * A) s o s' :
  mtry r s = (o, s') -> s' = s /\ otry r = o.
Proof. unfold mtry. intros H; inversion H; auto. Qed.

Lemma mverify_inv c e s o s' :
  mverify c e s = (o, s') -> s' = s /\ overify c e = o.
Proof. unfold mverify. intros H; inversion H; auto. Qed.

Lemma mcall_inv f s o s' :
  mcall f s = (o, s') -> exists err, f s = (err, s') /\ otry (err, tt) = o.
Proof.
  unfold mcall. destruct (f s) as [err s1]. intros H; inversion H; subst. eauto.
Qed.

(** Projections of the session reduce through assignments. *)
Ltac session_simpl :=
  cbn [mCommissioningHash mCASESessionEstablished mState mExchangeCtxt mDelegate
       mFabricInfo mFabricsTable mSharedSecret mMessageDigest mResumptionId mIPK
       mInitiatorRandom mRemotePubKey mEphemeralKey mTrustedRootId mValidContext
       base trace drbgCalls
       set_mCommissioningHash set_mCASESessionEstablished set_mState
       set_mExchangeCtxt set_mDelegate set_mFabricInfo set_mFabricsTable
       set_mSharedSecret set_mMessageDigest set_mResumptionId set_mIPK
       set_mInitiatorRandom set_mRemotePubKey set_mEphemeralKey set_mTrustedRootId
       set_mValidContext set_base set_trace set_drbgCalls
       SetPeerNodeId SetLocalSessionId SetPeerSessionId SetPeerAddress emit
       SendStatusReport fst snd errOf].

Ltac session_simpl_in H :=
  cbn [mCommissioningHash mCASESessionEstablished mState mExchangeCtxt mDelegate
       mFabricInfo mFabricsTable mSharedSecret mMessageDigest mResumptionId mIPK
       mInitiatorRandom mRemotePubKey mEphemeralKey mTrustedRootId mValidContext
       base trace drbgCalls
       set_mCommissioningHash set_mCASESessionEstablished set_mState
       set_mExchangeCtxt set_mDelegate set_mFabricInfo set_mFabricsTable
       set_mSharedSecret set_mMessageDigest set_mResumptionId set_mIPK
       set_mInitiatorRandom set_mRemotePubKey set_mEphemeralKey set_mTrustedRootId
       set_mValidContext set_base set_trace set_drbgCalls
       SetPeerNodeId SetLocalSessionId SetPeerSessionId SetPeerAddress emit
       SendStatusReport fst snd errOf] in H.

(** One step of a body: the outcome of [otry] on a success or a failure.
    The value a successful call hands back is left abstract. *)
Ltac otry_cases H :=
  match type of H with
  | otry ?r = Done ?a => clear H
  | otry ?r = Exit ?e =>
      apply otry_Exit in H; cbn [fst snd] in H;
      let Hne := fresh "Hne" in destruct H as [_ Hne]
  | otry ?r = ?o =>
      destruct o as [? | ?];
      [ clear H
      | apply otry_Exit in H; cbn [fst snd] in H;
        let Hne := fresh "Hne" in destruct H as [_ Hne] ]
  end.

(** Symbolic execution of a body from a hypothesis [m s = (o, s')]: every
    bind is split into the run that goes on and the run that leaves; calls
    of member functions stay as hypotheses. *)
Ltac run_body H :=
  lazymatch type of H with
  | mbind ?m ?k ?s = (?o, ?s') =>
      let a := fresh "a" in
      let s1 := fresh "s" in
      let e := fresh "e" in
      let H1 := fresh "H" in
      let H2 := fresh "H" in
      destruct (mbind_inv _ _ _ _ _ H) as [(a & s1 & H1 & H2) | (e & H1 & H2)];
      clear H;
      [ run_body H1; run_body H2
      | first [ discriminate H2 | subst o; run_body H1 | injection H2 as H2; subst; run_body H1 ] ]
  | mtry ?r ?s = (?o, ?s') =>
      apply mtry_inv in H; destruct H as [? H]; subst s'; otry_cases H
  | mcheck ?r ?s = _ => unfold mcheck in H; run_body H
  | mverify ?c ?e ?s = (?o, ?s') =>
      apply mverify_inv in H; destruct H as [? H]; subst s';
      unfold overify in H; destruct c eqn:?;
      (discriminate H || (injection H as H; try subst))
  | mdo ?f ?s = _ => unfold mdo in H; injection H as ? ?; subst
  | mget ?s = _ => unfold mget in H; injection H as ? ?; subst
  | mret ?a ?s = _ => unfold mret in H; injection H as ? ?; subst
  | mexit ?e ?s = _ => unfold mexit in H; (discriminate H || (injection H as ? ?; subst))
  | mlift ?x ?s = _ => unfold mlift in H; injection H as ? ?; subst
  | mcall ?f ?s = (?o, ?s') =>
      let err := fresh "err" in
      let H1 := fresh "Hcall" in
      apply mcall_inv in H; destruct H as (err & H1 & H);
      match type of H with
      | otry _ = Done _ =>
          apply otry_Done in H; cbn [fst snd] in H; destruct H as [H _]; subst err
      | otry _ = Exit _ =>
          apply otry_Exit in H; cbn [fst snd] in H;
          let Hne := fresh "Hne" in destruct H as [H Hne]; subst err
      | otry _ = ?o' =>
          destruct o' as [? | ?];
          [ apply otry_Done in H; cbn [fst snd] in H; destruct H as [H _]; subst err
          | apply otry_Exit in H; cbn [fst snd] in H;
            let Hne := fresh "Hne" in destruct H as [H Hne]; subst err ]
      end
  | DRBG _ _ _ = _ => unfold DRBG in H; run_body H
  | verifyTagNum _ _ _ = _ => unfold verifyTagNum in H; run_body H
  | Validate_and_RetrieveResponderID _ _ _ _ = _ =>
      unfold Validate_and_RetrieveResponderID in H; run_body H
  | readTBECertificates _ _ = _ => unfold readTBECertificates in H; run_body H
  | readTBESignature _ _ _ = _ => unfold readTBESignature in H; run_body H
  | HandleSigma1_parsed _ _ _ = _ => unfold HandleSigma1_parsed in H; run_body H
  | HandleSigma1_fullHandshake _ _ _ _ _ = _ =>
      unfold HandleSigma1_fullHandshake in H; run_body H
  | (match ?x with _ => _ end) ?s = _ => destruct x eqn:?; run_body H
  | _ => idtac
  end.

Lemma statusReportsOf_app a b :
  statusReportsOf (a ++ b) = statusReportsOf a ++ statusReportsOf b.
Proof.
  induction a as [|ev a IH]; cbn; [reflexivity|].
  destruct ev; cbn; rewrite IH; reflexivity.
Qed.

Lemma errorsOf_app a b : errorsOf (a ++ b) = errorsOf a ++ errorsOf b.
Proof.
  induction a as [|ev a IH]; cbn; [reflexivity|].
  destruct ev; cbn; rewrite IH; reflexivity.
Qed.

Lemma messagesOf_app a b : messagesOf (a ++ b) = messagesOf a ++ messagesOf b.
Proof.
  induction a as [|ev a IH]; cbn; [reflexivity|].
  destruct ev; cbn; rewrite IH; reflexivity.
Qed.

(** [x = x ++ ?l] and [(x ++ a) ++ b = x ++ ?l] *)
Ltac solve_app :=
  first [ reflexivity
        | symmetry; apply app_nil_r
        | repeat rewrite <- app_assoc; reflexivity ].

(** Observations of a state that a callee left are replaced by what the
    callee's effect lemma says of them. *)
Ltac obs_rewrite :=
  repeat match goal with
  | H : trace ?x = _ |- context [trace ?x] => is_var x; rewrite H
  | H : mCommissioningHash ?x = _ |- context [mCommissioningHash ?x] =>
      is_var x; rewrite H
  | H : mExchangeCtxt ?x = _ |- context [mExchangeCtxt ?x] => is_var x; rewrite H
  | H : mCASESessionEstablished ?x = _ |- context [mCASESessionEstablished ?x] =>
      is_var x; rewrite H
  | H : messagesOf ?x = _ |- context [messagesOf ?x] => is_var x; rewrite H
  | H : statusReportsOf ?x = _ |- context [statusReportsOf ?x] => is_var x; rewrite H
  | H : errorsOf ?x = _ |- context [errorsOf ?x] => is_var x; rewrite H
  | H : isKeyNotFound ?x = _ |- context [isKeyNotFound ?x] => rewrite H
  end.

Ltac obs_norm :=
  session_simpl; obs_rewrite; session_simpl; obs_rewrite; session_simpl;
  rewrite ?statusReportsOf_app, ?errorsOf_app, ?messagesOf_app;
  cbn [statusReportsOf errorsOf messagesOf];
  obs_rewrite.

(** The goals left by a symbolic execution: conjunctions of equations
    between observations, with the added chunks and events to be found. *)
Ltac close_effect :=
  lazymatch goal with
  | |- _ /\ _ => split; [ close_effect | close_effect ]
  | |- exists _, _ => eexists; close_effect
  | |- _ \/ _ => first [ left; solve [ close_effect ] | right; solve [ close_effect ] ]
  | |- (_ <= _)%nat => obs_norm; rewrite ?length_app; cbn [List.length]; lia
  | |- _ <> _ -> _ =>
      let H := fresh in
      intros H; first [ exfalso; apply H; reflexivity | close_effect ]
  | |- _ = _ -> _ =>
      let H := fresh in
      intros H; first [ exfalso; session_simpl_in H; congruence | close_effect ]
  | |- _ = _ => obs_norm; first [ solve_app | congruence ]
  | |- True => exact I
  end.

(** The exit block of a handler: the tests on the error code. *)
Ltac exit_block H :=
  cbn [errOf isNoError isKeyNotFound negb] in H;
  repeat match type of H with
  | (if isKeyNotFound ?e then _ else _) = _ =>
      let Hk := fresh "Hk" in
      destruct (isKeyNotFound e) eqn:Hk;
      cbn [errOf isNoError isKeyNotFound negb] in H
  | (if negb (isNoError ?e) then _ else _) = _ =>
      let Hn := fresh "Hn" in
      destruct (isNoError e) eqn:Hn; cbn [negb] in H;
      [ try (apply isNoError_true in Hn; congruence) | ]
  end;
  injection H as <- <-.

(** The failure clause of a callee's effect. *)
Ltac use_fail H :=
  first [ match goal with
          | Hne : ?e <> CHIP_NO_ERROR |- _ => specialize (H Hne)
          end
        | clear H ].

(** ** What each member function does to the transcript and the trace *)

Section Effects.
Variable E : Collaborators.

Lemma AddData_ok data s s' :
  AddData E data s = (CHIP_NO_ERROR, s') ->
  s' = set_mCommissioningHash (mCommissioningHash s ++ [data]) s.
Proof.
  unfold AddData. destruct (isNoError _) eqn:Hok; intros H.
  - injection H as <-. reflexivity.
  - injection H as H _. rewrite H in Hok. discriminate.
Qed.

Lemma AddData_fail data s err s' :
  AddData E data s = (err, s') -> err <> CHIP_NO_ERROR -> s' = s.
Proof.
  unfold AddData. destruct (isNoError _) eqn:Hok; intros H Hne.
  - injection H as <- _. contradiction.
  - injection H as _ <-. reflexivity.
Qed.

Lemma SendMessage_inv msgType msg flag s err s' :
  SendMessage E msgType msg flag s = (err, s') ->
  s' = emit (EvSendMessage (mExchangeCtxt s) msgType msg flag) s.
Proof. unfold SendMessage. intros H. injection H as _ <-. reflexivity. Qed.

Lemma SetEffectiveTime_inv s err s' :
  SetEffectiveTime E s = (err, s') ->
  s' = s \/ exists v, s' = set_mValidContext v s.
Proof.
  unfold SetEffectiveTime. destruct (ASN1ToChipEpochTime _ _) as [e t].
  destruct (isNoError e); intros H; injection H as _ <-; eauto.
Qed.

(** The calls of the leaf functions left by a symbolic execution. *)
Ltac leaves :=
  repeat match goal with
  | H : AddData _ _ _ = (CHIP_NO_ERROR, _) |- _ => apply AddData_ok in H; subst
  | H : AddData _ _ _ = (?e, _), Hne : ?e <> CHIP_NO_ERROR |- _ =>
      apply AddData_fail in H; [ subst | assumption ]
  | H : SendMessage _ _ _ _ _ = (_, _) |- _ => apply SendMessage_inv in H; subst
  | H : SetEffectiveTime _ _ = (_, _) |- _ =>
      apply SetEffectiveTime_inv in H; destruct H as [H | [? H]]; subst
  end.


Lemma SendSigma2_effect s err s' :
  SendSigma2 E s = (err, s') ->
  mExchangeCtxt s' = mExchangeCtxt s /\
  mCASESessionEstablished s' = mCASESessionEstablished s /\
  exists added evs,
    mCommissioningHash s' = mCommissioningHash s ++ added /\
    trace s' = trace s ++ evs /\
    statusReportsOf evs = [] /\ errorsOf evs = [] /\
    (List.length added <= 1)%nat /\
    (err = CHIP_NO_ERROR ->
     exists m, added = [m] /\ messagesOf evs = [(CASE_Sigma2, m)]).
Proof.
  unfold SendSigma2. intros H. apply runM_inv in H. destruct H as (o & H & ->).
  run_body H; leaves; close_effect.
Qed.

Lemma SendSigma2Resume_effect initiatorRandom s err s' :
  SendSigma2Resume E initiatorRandom s = (err, s') ->
  mExchangeCtxt s' = mExchangeCtxt s /\
  mCASESessionEstablished s' = mCASESessionEstablished s /\
  mCommissioningHash s' = mCommissioningHash s /\
  exists evs,
    trace s' = trace s ++ evs /\
    statusReportsOf evs = [] /\ errorsOf evs = [] /\
    (err = CHIP_NO_ERROR -> exists m, messagesOf evs = [(CASE_Sigma2Resume, m)]).
Proof.
  unfold SendSigma2Resume. intros H. apply runM_inv in H. destruct H as (o & H & ->).
  run_body H; leaves; close_effect.
Qed.

Lemma SendSigma3_effect s err s' :
  SendSigma3 E s = (err, s') ->
  mExchangeCtxt s' = mExchangeCtxt s /\
  mCASESessionEstablished s' = mCASESessionEstablished s /\
  exists added evs,
    mCommissioningHash s' = mCommissioningHash s ++ added /\
    trace s' = trace s ++ evs /\
    errorsOf evs = [] /\
    (List.length added <= 1)%nat /\
    (err = CHIP_NO_ERROR ->
     statusReportsOf evs = [] /\
     exists m, added = [m] /\ messagesOf evs = [(CASE_Sigma3, m)]) /\
    (err <> CHIP_NO_ERROR ->
     statusReportsOf evs = [(mExchangeCtxt s, kProtocolCodeInvalidParam)]).
Proof.
  unfold SendSigma3. destruct (runM _ s) as [err1 s1] eqn:Hb. intros H.
  apply runM_inv in Hb. destruct Hb as (o & Hb & ->).
  run_body Hb; leaves; exit_block H; close_effect.
Qed.

(** The calls of member functions left by a symbolic execution are
    replaced by their effects. *)
Ltac callees :=
  repeat match goal with
  | H : SendSigma2 _ _ = (_, _) |- _ =>
      let Hok := fresh "Hok" in
      apply SendSigma2_effect in H;
      destruct H as (? & ? & ? & ? & ? & ? & ? & ? & ? & Hok);
      first [ specialize (Hok eq_refl); destruct Hok as (? & -> & ?) | clear Hok ]
  | H : SendSigma2Resume _ _ _ = (_, _) |- _ =>
      let Hok := fresh "Hok" in
      apply SendSigma2Resume_effect in H;
      destruct H as (? & ? & ? & ? & ? & ? & ? & Hok);
      first [ specialize (Hok eq_refl); destruct Hok as (? & ?) | clear Hok ]
  | H : SendSigma3 _ _ = (_, _) |- _ =>
      let Hok := fresh "Hok" in
      let Hfail := fresh "Hfail" in
      apply SendSigma3_effect in H;
      destruct H as (? & ? & ? & ? & ? & ? & ? & ? & Hok & Hfail);
      first [ specialize (Hok eq_refl); destruct Hok as (? & ? & -> & ?) | clear Hok ];
      use_fail Hfail
  end.

(** [ParseSigma1] never leaves early with [CHIP_NO_ERROR]. *)
Ltac run_outcome H :=
  lazymatch type of H with
  | obind ?o ?k = Exit ?e =>
      let Ho := fresh "Ho" in
      destruct o as [? | ?] eqn:Ho; cbn [obind] in H;
      [ clear Ho; run_outcome H | injection H as ->; run_outcome Ho ]
  | otry ?r = Exit ?e => apply otry_Exit in H; destruct H as [_ H]; exact H
  | overify ?c ?e' = Exit ?e =>
      unfold overify in H; destruct c;
      [ discriminate H | injection H as <-; discriminate ]
  | Done _ = Exit _ => discriminate H
  | Exit _ = Exit _ => injection H as <-; discriminate
  | (let '(_, _) := ?x in _) = Exit _ => destruct x; run_outcome H
  | (if ?c then _ else _) = Exit _ => destruct c; run_outcome H
  end.

Lemma ParseSigma1_Exit tlvReader e :
  ParseSigma1 tlvReader = Exit e -> e <> CHIP_NO_ERROR.
Proof.
  unfold ParseSigma1. intros H. run_outcome H.
Qed.

Lemma HandleSigma1_effect msg s err s' :
  HandleSigma1 E msg s = (err, s') ->
  mExchangeCtxt s' = mExchangeCtxt s /\
  mCASESessionEstablished s' = mCASESessionEstablished s /\
  exists added evs,
    mCommissioningHash s' = mCommissioningHash s ++ added /\
    trace s' = trace s ++ evs /\
    errorsOf evs = [] /\
    (List.length added <= 2)%nat /\
    (err = CHIP_NO_ERROR ->
     statusReportsOf evs = [] /\
     ((added = [msg] /\ exists m, messagesOf evs = [(CASE_Sigma2Resume, m)]) \/
      (exists m, added = [msg; m] /\ messagesOf evs = [(CASE_Sigma2, m)]))) /\
    (err <> CHIP_NO_ERROR ->
     statusReportsOf evs =
       [(mExchangeCtxt s,
         if isKeyNotFound err then kProtocolCodeNoSharedRoot
         else kProtocolCodeInvalidParam)]).
Proof.
  unfold HandleSigma1, HandleSigma1_exit.
  destruct (runM _ s) as [err1 s1] eqn:Hb. intros H.
  apply runM_inv in Hb. destruct Hb as (o & Hb & ->).
  run_body Hb; leaves; callees;
    try match goal with
        | Hp : ParseSigma1 _ = Exit _ |- _ => apply ParseSigma1_Exit in Hp
        end;
    exit_block H; close_effect.
Qed.

Lemma HandleSigma2_effect msg s err s' :
  HandleSigma2 E msg s = (err, s') ->
  mExchangeCtxt s' = mExchangeCtxt s /\
  mCASESessionEstablished s' = mCASESessionEstablished s /\
  exists added evs,
    mCommissioningHash s' = mCommissioningHash s ++ added /\
    trace s' = trace s ++ evs /\
    errorsOf evs = [] /\ messagesOf evs = [] /\
    (List.length added <= 1)%nat /\
    (err = CHIP_NO_ERROR -> added = [msg] /\ statusReportsOf evs = []) /\
    (err <> CHIP_NO_ERROR ->
     statusReportsOf evs = [(mExchangeCtxt s, kProtocolCodeInvalidParam)]).
Proof.
  unfold HandleSigma2. destruct (runM _ s) as [err1 s1] eqn:Hb. intros H.
  apply runM_inv in Hb. destruct Hb as (o & Hb & ->).
  run_body Hb; leaves; exit_block H; close_effect.
Qed.

Lemma HandleSigma2_and_SendSigma3_effect msg s err s' :
  HandleSigma2_and_SendSigma3 E msg s = (err, s') ->
  mExchangeCtxt s' = mExchangeCtxt s /\
  mCASESessionEstablished s' = mCASESessionEstablished s /\
  exists added evs,
    mCommissioningHash s' = mCommissioningHash s ++ added /\
    trace s' = trace s ++ evs /\
    errorsOf evs = [] /\
    (List.length added <= 2)%nat /\
    (err = CHIP_NO_ERROR ->
     statusReportsOf evs = [] /\
     exists m, added = [msg; m] /\ messagesOf evs = [(CASE_Sigma3, m)]) /\
    (err <> CHIP_NO_ERROR ->
     statusReportsOf evs = [(mExchangeCtxt s, kProtocolCodeInvalidParam)]).
Proof.
  unfold HandleSigma2_and_SendSigma3. intros H.
  apply runM_inv in H. destruct H as (o & H & ->).
  run_body H;
    repeat match goal with
    | H : HandleSigma2 _ _ _ = (_, _) |- _ =>
        let Hok := fresh "Hok" in
        let Hfail := fresh "Hfail" in
        apply HandleSigma2_effect in H;
        destruct H as (? & ? & ? & ? & ? & ? & ? & ? & ? & Hok & Hfail);
        first [ specialize (Hok eq_refl); destruct Hok as (-> & ?) | clear Hok ];
        use_fail Hfail
    end;
    callees; close_effect.
Qed.

Lemma HandleSigma3_effect msg s err s' :
  HandleSigma3 E msg s = (err, s') ->
  exists added evs,
    mCommissioningHash s' = mCommissioningHash s ++ added /\
    trace s' = trace s ++ evs /\
    errorsOf evs = [] /\ messagesOf evs = [] /\
    (List.length added <= 1)%nat /\
    (err = CHIP_NO_ERROR ->
     added = [msg] /\
     mCASESessionEstablished s' = true /\ mExchangeCtxt s' = None /\
     statusReportsOf evs = [(mExchangeCtxt s, kProtocolCodeSuccess)]) /\
    (err <> CHIP_NO_ERROR ->
     mCASESessionEstablished s' = mCASESessionEstablished s /\
     mExchangeCtxt s' = mExchangeCtxt s /\
     statusReportsOf evs = [(mExchangeCtxt s, kProtocolCodeInvalidParam)]).
Proof.
  unfold HandleSigma3. destruct (runM _ s) as [err1 s1] eqn:Hb. intros H.
  apply runM_inv in Hb. destruct Hb as (o & Hb & ->).
  run_body Hb; leaves; exit_block H; close_effect.
Qed.

Lemma HandleSigma2Resume_effect msg s err s' :
  HandleSigma2Resume E msg s = (err, s') ->
  mCommissioningHash s' = mCommissioningHash s /\
  exists evs,
    trace s' = trace s ++ evs /\
    errorsOf evs = [] /\ messagesOf evs = [] /\
    (err = CHIP_NO_ERROR ->
     mCASESessionEstablished s' = true /\ mExchangeCtxt s' = None /\
     statusReportsOf evs = [(mExchangeCtxt s, kProtocolCodeSuccess)]) /\
    (err <> CHIP_NO_ERROR ->
     mCASESessionEstablished s' = mCASESessionEstablished s /\
     mExchangeCtxt s' = mExchangeCtxt s /\
     statusReportsOf evs = [(mExchangeCtxt s, kProtocolCodeInvalidParam)]).
Proof.
  unfold HandleSigma2Resume. destruct (runM _ s) as [err1 s1] eqn:Hb. intros H.
  apply runM_inv in Hb. destruct Hb as (o & Hb & ->).
  run_body Hb; leaves; exit_block H; close_effect.
Qed.

Lemma OnFailureStatusReport_inv generalCode protocolCode s err s' :
  OnFailureStatusReport generalCode protocolCode s = (err, s') ->
  err <> CHIP_NO_ERROR /\ s' = set_mState kInitialized s.
Proof.
  unfold OnFailureStatusReport. intros H. injection H as <- <-.
  split; [ destruct protocolCode; discriminate | reflexivity ].
Qed.

Lemma HandleStatusReport_effect msg successExpected s err s' :
  HandleStatusReport E msg successExpected s = (err, s') ->
  mCommissioningHash s' = mCommissioningHash s /\
  exists evs,
    trace s' = trace s ++ evs /\
    errorsOf evs = [] /\ messagesOf evs = [] /\ statusReportsOf evs = [] /\
    (err = CHIP_NO_ERROR ->
     successExpected = true /\
     mCASESessionEstablished s' = true /\ mExchangeCtxt s' = None) /\
    (err <> CHIP_NO_ERROR ->
     mCASESessionEstablished s' = mCASESessionEstablished s /\
     mExchangeCtxt s' = mExchangeCtxt s).
Proof.
  unfold HandleStatusReport.
  destruct (StatusReport_Parse E msg) as [e report].
  destruct (isNoError e) eqn:Hn; cbn [negb].
  - destruct (generalCode report), (protocolCode report), successExpected;
      intros H;
      first [ apply OnFailureStatusReport_inv in H; destruct H as [Hne ->]
            | injection H as <- <-; unfold OnSuccessStatusReport ];
      close_effect.
  - intros H. injection H as <- <-. apply isNoError_false in Hn. close_effect.
Qed.

End Effects.

(** ** The IPK placeholder (C10) *)

Lemma uint8_of_Z_mod z : uint8_of_Z (z mod 256) = uint8_of_Z z.
Proof. unfold uint8_of_Z. rewrite Z.mod_mod by lia. reflexivity. Qed.

Lemma static_cast_int_mod z : static_cast_int z mod 256 = z mod 256.
Proof.
  unfold static_cast_int.
  pose proof (Z.div_mod (z + 2 ^ 31) (2 ^ 32) ltac:(lia)) as Hdm.
  replace ((z + 2 ^ 31) mod 2 ^ 32 - 2 ^ 31)
    with (z + - (2 ^ 24 * ((z + 2 ^ 31) / 2 ^ 32)) * 256) by lia.
  apply Z.mod_add. lia.
Qed.

Lemma uint8_of_static_cast_int z : uint8_of_Z (static_cast_int z) = uint8_of_Z z.
Proof. unfold uint8_of_Z. rewrite static_cast_int_mod. reflexivity. Qed.

Lemma uint8_of_Z_value z : Z.of_N (Byte.to_N (uint8_of_Z z)) = z mod 256.
Proof.
  unfold uint8_of_Z.
  pose proof (Z.mod_pos_bound z 256 ltac:(lia)) as Hb.
  destruct (Byte.of_N (Z.to_N (z mod 256))) as [b|] eqn:Hof.
  - apply Byte.to_of_N in Hof. rewrite Hof. lia.
  - apply Byte.of_N_None_iff in Hof. lia.
Qed.

(** C10. For every fabric id and every output buffer, [RetrieveIPK] returns
    [CHIP_NO_ERROR] and a buffer of the same length whose every byte is the
    low eight bits of the fabric id: the key is a function of the fabric id
    alone and the call cannot fail. *)
Theorem RetrieveIPK_low_byte_of_fabric_id (fabricId : Z) (ipk : list byte) :
  RetrieveIPK fabricId ipk
  = (CHIP_NO_ERROR, repeat (uint8_of_Z (Z.land fabricId 255)) (List.length ipk))
  /\ Z.of_N (Byte.to_N (uint8_of_Z (Z.land fabricId 255))) = fabricId mod 256.
Proof.
  assert (Hland : Z.land fabricId 255 = fabricId mod 256).
  { change 255 with (Z.ones 8). rewrite Z.land_ones by lia. reflexivity. }
  split.
  - unfold RetrieveIPK, memset.
    rewrite skipn_all, app_nil_r.
    rewrite uint8_of_static_cast_int, Hland, uint8_of_Z_mod. reflexivity.
  - rewrite uint8_of_Z_value, Hland. apply Z.mod_mod. lia.
Qed.

(** ** Decoding of Sigma1 (C3) *)

Lemma Tag_eqb_neq a b : a <> b -> Tag_eqb a b = false.
Proof.
  destruct a, b; cbn; intros H; try reflexivity; try congruence.
  - destruct (Z.eqb_spec n n0); [ subst; congruence | reflexivity ].
  - destruct (Z.eqb_spec profile profile0), (Z.eqb_spec n n0);
      subst; cbn; congruence.
Qed.

Ltac sigma1_sizes :=
  repeat match goal with
  | H : List.length ?l = _ |- context [List.length ?l] => rewrite H
  end.

(** C3, as the code has it.  A Sigma1 whose optional members, after an
    optional MRP member, start with a well-formed resumption id that no
    Resume1MIC follows, or start with a well-formed Resume1MIC, is refused
    with [CHIP_ERROR_UNEXPECTED_TLV_ELEMENT]. *)
Theorem ParseSigma1_unpaired_resumption_member
  (random destination pubKey value : list byte) (sessionId : Z)
  (mrp rest : list TLVElement) :
  List.length random = kSigmaParamRandomNumberSize ->
  0 <= sessionId <= 65535 ->
  List.length destination = kSHA256_Hash_Length ->
  List.length pubKey = kP256_PublicKey_Length ->
  List.length value = kCASEResumptionIDSize ->
  (mrp = [] \/ exists e, mrp = [e] /\ elemTag e = ContextTag kInitiatorMRPParamsTag) ->
  (ParseSigma1
     (TLVReader_Init
        (Sigma1Message random sessionId destination pubKey
           (mrp ++ TLVByteString (ContextTag kResume1MICTag) value :: rest)))
   = Exit CHIP_ERROR_UNEXPECTED_TLV_ELEMENT)
  /\
  (match rest with
   | e :: _ => elemTag e <> ContextTag kResume1MICTag
   | [] => True
   end ->
   ParseSigma1
     (TLVReader_Init
        (Sigma1Message random sessionId destination pubKey
           (mrp ++ TLVByteString (ContextTag kResumptionIDTag) value :: rest)))
   = Exit CHIP_ERROR_UNEXPECTED_TLV_ELEMENT).
Proof.
  intros Hr Hs Hd Hp Hv Hmrp.
  assert (Hsid : (0 <=? sessionId) && (sessionId <=? 65535) = true).
  { apply andb_true_intro. split; apply Z.leb_le; lia. }
  split; [ | intros Hrest ].
  - destruct Hmrp as [-> | (e & -> & He)]; destruct rest as [|e' rest];
      unfold ParseSigma1, Sigma1Message;
      repeat (progress (cbn -[Nat.eqb Z.leb]; sigma1_sizes;
                        rewrite ?Hsid, ?He, ?Nat.eqb_refl));
      reflexivity.
  - destruct Hmrp as [-> | (e & -> & He)]; destruct rest as [|e' rest];
      try pose proof (Tag_eqb_neq _ _ Hrest) as Hneq;
      unfold ParseSigma1, Sigma1Message;
      repeat (progress (cbn -[Nat.eqb Z.leb]; sigma1_sizes;
                        rewrite ?Hsid, ?He, ?Hneq, ?Nat.eqb_refl));
      reflexivity.
Qed.

(** The theorem at a Sigma1 that carries a resumption id and no MIC. *)
Lemma ParseSigma1_unpaired_resumption_member_witness :
  ParseSigma1
    (TLVReader_Init
       (Sigma1Message (repeat x11 32) 7 (repeat x22 32) (repeat x33 65)
          ([] ++ TLVByteString (ContextTag kResumptionIDTag) (repeat x77 16) :: [])))
  = Exit CHIP_ERROR_UNEXPECTED_TLV_ELEMENT.
Proof.
  refine (proj2 (ParseSigma1_unpaired_resumption_member
                   (repeat x11 32) (repeat x22 32) (repeat x33 65) (repeat x77 16)
                   7 [] [] _ _ _ _ _ _) _).
  - reflexivity.
  - lia.
  - reflexivity.
  - reflexivity.
  - reflexivity.
  - left. reflexivity.
  - exact I.
Defined.

(** C3, as the claim states it, fails: a Sigma1 with tag 6 and without
    tag 7 is refused, but with [CHIP_ERROR_UNEXPECTED_TLV_ELEMENT] and not
    with [CHIP_ERROR_INVALID_CASE_PARAMETER]. *)
Lemma ParseSigma1_unpaired_not_InvalidCaseParameter :
  ParseSigma1
    (TLVReader_Init
       (Sigma1Message (repeat x11 32) 7 (repeat x22 32) (repeat x33 65)
          [TLVByteString (ContextTag 6) (repeat x77 16)]))
  = Exit CHIP_ERROR_UNEXPECTED_TLV_ELEMENT
  /\ ParseSigma1
       (TLVReader_Init
          (Sigma1Message (repeat x11 32) 7 (repeat x22 32) (repeat x33 65)
             [TLVByteString (ContextTag 6) (repeat x77 16)]))
     <> Exit CHIP_ERROR_INVALID_CASE_PARAMETER.
Proof.
  split; [ reflexivity | vm_compute; discriminate ].
Qed.

(** Members that follow a member the parser does not know are skipped: a
    resumption id behind such a member is not looked at, and the message
    parses as one that asks for no resumption. *)
Example ParseSigma1_skips_after_unknown_member :
  ParseSigma1
    (TLVReader_Init
       (Sigma1Message (repeat x11 32) 7 (repeat x22 32) (repeat x33 65)
          [TLVUnsigned (ContextTag 9) 0;
           TLVByteString (ContextTag 6) (repeat x77 16)]))
  = Done (mkSigma1Params (repeat x11 32) 7 (repeat x22 32) (repeat x33 65)
            false [] []).
Proof. reflexivity. Qed.

(** A resumption id of a wrong length is refused for its length. *)
Example ParseSigma1_short_resumption_id :
  ParseSigma1
    (TLVReader_Init
       (Sigma1Message (repeat x11 32) 7 (repeat x22 32) (repeat x33 65)
          [TLVByteString (ContextTag 6) (repeat x77 15)]))
  = Exit CHIP_ERROR_INVALID_CASE_PARAMETER.
Proof. reflexivity. Qed.

(** ** Establishing a session (C7) *)

(** C7. [EstablishSession] returns [CHIP_ERROR_INVALID_ARGUMENT] when the
    exchange context or the fabric is null, and leaves the session as it
    was: nothing is initialized and nothing is sent. *)
Theorem EstablishSession_null_argument (E : Collaborators)
  (peerAddress : PeerAddress) (fabric : option FabricInfo) (peerNodeId : NodeId)
  (localSessionId : Z) (exchangeCtxt : option ExchangeContext)
  (delegate : option SessionEstablishmentDelegate) (s : CASESession) :
  exchangeCtxt = None \/ fabric = None ->
  EstablishSession E peerAddress fabric peerNodeId localSessionId exchangeCtxt
    delegate s
  = (CHIP_ERROR_INVALID_ARGUMENT, s).
Proof.
  intros [-> | ->]; unfold EstablishSession; cbn [isNull].
  - reflexivity.
  - destruct exchangeCtxt; reflexivity.
Qed.

(** The theorem at a null exchange context and at a null fabric. *)
Lemma EstablishSession_null_argument_witness :
  EstablishSession demoCollaborators 0 (Some 1) 42 6 None (Some 1) demoSession
  = (CHIP_ERROR_INVALID_ARGUMENT, demoSession)
  /\ EstablishSession demoCollaborators 0 None 42 6 (Some 1) (Some 1) demoSession
     = (CHIP_ERROR_INVALID_ARGUMENT, demoSession).
Proof.
  split.
  - apply (EstablishSession_null_argument demoCollaborators 0 (Some 1) 42 6 None
             (Some 1) demoSession).
    left. reflexivity.
  - apply (EstablishSession_null_argument demoCollaborators 0 None 42 6 (Some 1)
             (Some 1) demoSession).
    right. reflexivity.
Defined.

(** ** Session keys (C8) *)

Lemma kKDFSEInfo_SessionKeys :
  kKDFSEInfo = String.list_byte_of_string "SessionKeys"%string.
Proof. reflexivity. Qed.

(** C8. [DeriveSecureSession] fails with [CHIP_ERROR_INCORRECT_STATE] when
    the session is not established.  When it is, and the salt buffer can be
    allocated, the keys are the HKDF output for the shared secret as input
    key material, the 16-byte IPK followed by the 32-byte message digest as
    salt, and the info string "SessionKeys". *)
Theorem DeriveSecureSession_keys (E : Collaborators) (s : CASESession)
  (session : CryptoContext) (role : SessionRole) :
  (mCASESessionEstablished s = false ->
   DeriveSecureSession E s session role = (CHIP_ERROR_INCORRECT_STATE, session))
  /\
  (mCASESessionEstablished s = true ->
   List.length (mIPK s) = 16%nat ->
   List.length (mMessageDigest s) = 32%nat ->
   DeriveSecureSession E s session role =
     if ScopedMemoryBuffer_Alloc E 48
     then
       let '(err, keys) :=
         HKDF_SHA256 E (secretSpan (mSharedSecret s))
           (mIPK s ++ mMessageDigest s)
           (String.list_byte_of_string "SessionKeys"%string)
           (CryptoContext_keysLength E) in
       if isNoError err then (CHIP_NO_ERROR, mkCryptoContext keys (Some role))
       else (err, session)
     else (CHIP_ERROR_NO_MEMORY, session)).
Proof.
  split; intros Hest; unfold DeriveSecureSession; rewrite Hest; cbn [negb].
  - reflexivity.
  - intros Hipk Hmd.
    change (kIPKSize + kSHA256_Hash_Length)%nat with 48%nat.
    destruct (ScopedMemoryBuffer_Alloc E 48); cbn [negb]; [ | reflexivity ].
    unfold BufferWriter_Fit, BufferWriter_Put, BufferWriter_Init.
    cbn [bwSize bwNeeded bwData].
    change (Nat.leb (0 + kIPKSize + kSHA256_Hash_Length) 48) with true.
    cbn [negb app].
    change (Nat.min (48 - 0) kIPKSize) with 16%nat.
    change (Nat.min (48 - (0 + kIPKSize)) kSHA256_Hash_Length) with 32%nat.
    rewrite (firstn_all2 (mIPK s)) by lia.
    rewrite (firstn_all2 (mMessageDigest s)) by lia.
    unfold InitFromSecret. rewrite <- kKDFSEInfo_SessionKeys. reflexivity.
Qed.

(** The theorem at a session that is not established and at the responder
    of the concrete handshake, which is. *)
Lemma DeriveSecureSession_keys_witness :
  DeriveSecureSession demoCollaborators demoSession (mkCryptoContext [] None)
    kResponder
  = (CHIP_ERROR_INCORRECT_STATE, mkCryptoContext [] None)
  /\ fst (DeriveSecureSession demoCollaborators demoResponderEstablished
            (mkCryptoContext [] None) kResponder)
     = CHIP_NO_ERROR.
Proof.
  split.
  - apply (proj1 (DeriveSecureSession_keys demoCollaborators demoSession
                    (mkCryptoContext [] None) kResponder)).
    reflexivity.
  - rewrite (proj2 (DeriveSecureSession_keys demoCollaborators
                      demoResponderEstablished (mkCryptoContext [] None)
                      kResponder));
      reflexivity.
Defined.

(** ** Deserialization (C9) *)

Lemma nth_memset_beyond buf c n i :
  (n <= i)%nat -> (n <= List.length buf)%nat ->
  nth i (memset buf c n) x00 = nth i buf x00.
Proof.
  intros Hi Hn. unfold memset.
  rewrite app_nth2 by (rewrite repeat_length; lia).
  rewrite repeat_length, nth_skipn. f_equal. lia.
Qed.

Lemma nth_memset_within buf c n i :
  (i < n)%nat -> nth i (memset buf c n) x00 = uint8_of_Z c.
Proof.
  intros Hi. unfold memset.
  rewrite app_nth1 by (rewrite repeat_length; lia).
  apply nth_repeat_lt. exact Hi.
Qed.

Lemma nth_memcpy_beyond dst src n i :
  (n <= i)%nat -> (n <= List.length src)%nat ->
  nth i (memcpy dst src n) x00 = nth i dst x00.
Proof.
  intros Hi Hn. unfold memcpy.
  assert (Hlen : List.length (firstn n src) = n) by (rewrite length_firstn; lia).
  rewrite app_nth2 by lia.
  rewrite Hlen, nth_skipn. f_equal. lia.
Qed.

Lemma FromSerializable_secret (E : Collaborators)
  (serializable : CASESessionSerializable) (s s' : CASESession) :
  FromSerializable E serializable s = (CHIP_NO_ERROR, s') ->
  secretBytes (mSharedSecret s')
  = memcpy (memset (secretBytes (mSharedSecret s)) 0 (sizeof_size_t E))
           (ser_mSharedSecret serializable)
           (Z.to_nat (ser_mSharedSecretLen serializable)).
Proof.
  unfold FromSerializable, runM, mbind, mverify, overify, mget, mtry, otry, mdo,
    mret, SetLength.
  destruct (ser_mVersion serializable =? kCASESessionVersion);
    [ | cbn; discriminate ].
  destruct (Nat.leb (Z.to_nat (ser_mSharedSecretLen serializable))
              (Capacity (mSharedSecret s)));
    cbn [fst snd isNoError]; [ | cbn; discriminate ].
  destruct (Nat.leb (Z.to_nat (ser_mMessageDigestLen serializable))
              kSHA256_Hash_Length); [ | cbn; discriminate ].
  destruct (Nat.eqb (List.length (GetIPKList E)) kIPKSize); [ | cbn; discriminate ].
  cbn [errOf]. intros H. injection H as <-. reflexivity.
Qed.

(** C9. When [FromSerializable] succeeds, the shared-secret buffer is the
    stored bytes copied over a buffer of which only the first
    [sizeof(size_t)] bytes were set to zero: where the capacity exceeds
    [sizeof(size_t)], every byte past that count keeps its old content
    through the zeroization, and past the copied length it is still there
    afterwards. *)
Theorem FromSerializable_zeroizes_sizeof_capacity (E : Collaborators)
  (serializable : CASESessionSerializable) (s s' : CASESession) :
  FromSerializable E serializable s = (CHIP_NO_ERROR, s') ->
  (sizeof_size_t E < Capacity (mSharedSecret s))%nat ->
  (Z.to_nat (ser_mSharedSecretLen serializable)
   <= List.length (ser_mSharedSecret serializable))%nat ->
  let length := Z.to_nat (ser_mSharedSecretLen serializable) in
  let zeroized := memset (secretBytes (mSharedSecret s)) 0 (sizeof_size_t E) in
  secretBytes (mSharedSecret s')
  = memcpy zeroized (ser_mSharedSecret serializable) length
  /\ (forall i, (i < sizeof_size_t E)%nat -> nth i zeroized x00 = x00)
  /\ (forall i, (sizeof_size_t E <= i < Capacity (mSharedSecret s))%nat ->
                nth i zeroized x00 = nth i (secretBytes (mSharedSecret s)) x00)
  /\ (forall i, (sizeof_size_t E <= i < Capacity (mSharedSecret s))%nat ->
                (length <= i)%nat ->
                nth i (secretBytes (mSharedSecret s')) x00
                = nth i (secretBytes (mSharedSecret s)) x00).
Proof.
  intros H Hcap Hsrc length zeroized.
  pose proof (FromSerializable_secret E serializable s s' H) as Hsec.
  unfold Capacity in *.
  split; [ exact Hsec | ].
  split; [ | split ].
  - intros i Hi. unfold zeroized. rewrite nth_memset_within by exact Hi.
    reflexivity.
  - intros i Hi. unfold zeroized. apply nth_memset_beyond; lia.
  - intros i Hi Hlen. rewrite Hsec.
    rewrite nth_memcpy_beyond by (fold length; lia).
    apply nth_memset_beyond; lia.
Qed.

(** The theorem at a session whose 32-byte secret buffer is full of [xff]
    and a serialized session with a 4-byte secret, on a platform with an
    8-byte [size_t]: byte 8 of the buffer is still [xff]. *)
Lemma FromSerializable_zeroizes_sizeof_capacity_witness :
  nth 8 (secretBytes
           (mSharedSecret
              (snd (FromSerializable demoCollaborators demoSerializable
                      demoStaleSecret)))) x00
  = xff.
Proof.
  refine (eq_trans
            (proj2 (proj2 (proj2
               (FromSerializable_zeroizes_sizeof_capacity demoCollaborators
                  demoSerializable demoStaleSecret
                  (snd (FromSerializable demoCollaborators demoSerializable
                          demoStaleSecret)) _ _ _))) 8%nat _ _) _).
  - reflexivity.
  - vm_compute. lia.
  - vm_compute. lia.
  - vm_compute. lia.
  - vm_compute. lia.
  - reflexivity.
Defined.

(** ** Resumption that does not validate (C5) *)

Lemma ValidateSigmaResumeMIC_secret (E : Collaborators) (s1 s2 : CASESession)
  (resumeMIC initiatorRandom resumptionID skInfo nonce : ByteSpan) :
  mSharedSecret s1 = mSharedSecret s2 ->
  ValidateSigmaResumeMIC E s1 resumeMIC initiatorRandom resumptionID skInfo nonce
  = ValidateSigmaResumeMIC E s2 resumeMIC initiatorRandom resumptionID skInfo nonce.
Proof.
  intros H. unfold ValidateSigmaResumeMIC, ConstructSigmaResumeKey.
  rewrite H. reflexivity.
Qed.

Lemma HandleSigma1_parsed_fallback (E : Collaborators) (p : Sigma1Params)
  (s : CASESession) :
  (resumptionRequested p = false \/
   data_equal (resumptionId p) (mResumptionId s) = false \/
   ValidateSigmaResumeMIC E s (initiatorResumeMIC p) (initiatorRandom p)
     (resumptionId p) kKDFS1RKeyInfo kResume1MIC_Nonce <> CHIP_NO_ERROR) ->
  HandleSigma1_parsed E p s
  = HandleSigma1_fullHandshake E (destinationId p) (initiatorRandom p)
      (initiatorEphPubKey p) (SetPeerSessionId (initiatorSessionId p) s).
Proof.
  intros H. unfold HandleSigma1_parsed.
  unfold mbind at 1. unfold mdo at 1.
  unfold mbind at 1. unfold mget at 1.
  unfold mbind at 1.
  assert (Hsec : mSharedSecret (SetPeerSessionId (initiatorSessionId p) s)
                 = mSharedSecret s) by reflexivity.
  rewrite (ValidateSigmaResumeMIC_secret E _ s _ _ _ _ _ Hsec).
  change (mResumptionId (SetPeerSessionId (initiatorSessionId p) s))
    with (mResumptionId s).
  destruct H as [H | [H | H]].
  - rewrite H. reflexivity.
  - rewrite H, andb_false_r. reflexivity.
  - destruct (resumptionRequested p && data_equal (resumptionId p) (mResumptionId s));
      [ | reflexivity ].
    destruct (isNoError _) eqn:Hok; [ | reflexivity ].
    apply isNoError_true in Hok. contradiction.
Qed.



(** ** The dispatch of inbound messages *)

Section Dispatch.
Variable E : Collaborators.

Lemma errOf_otry {A} (err : CHIP_ERROR) (a : A) : errOf (otry (err, a)) = err.
Proof. unfold otry. cbn [fst snd]. destruct err; reflexivity. Qed.

Lemma HandleSigma1_and_SendSigma2_eq msg s :
  HandleSigma1_and_SendSigma2 E msg s = HandleSigma1 E msg s.
Proof.
  unfold HandleSigma1_and_SendSigma2, runM, mbind, mcall, mret.
  destruct (HandleSigma1 E msg s) as [err s'].
  unfold otry. cbn [fst snd]. destruct err; reflexivity.
Qed.

Lemma ExchangeContext_eqb_refl ec : ExchangeContext_eqb (Some ec) (Some ec) = true.
Proof. cbn. apply Z.eqb_refl. Qed.

Lemma ValidateReceivedMessage_accepts ec msgType payload s :
  mExchangeCtxt s = None \/ mExchangeCtxt s = Some ec ->
  ValidateReceivedMessage (Some ec) msgType (Some payload) s
  = (CHIP_NO_ERROR, validatedSession ec s).
Proof.
  intros Hex. unfold ValidateReceivedMessage, validatedSession, runM, mbind,
    mverify, overify, mget, mcheck, mtry, mret, mdo.
  cbn [isNull negb].
  destruct Hex as [Hex | Hex]; rewrite Hex; cbn [isNull negb].
  - reflexivity.
  - rewrite ExchangeContext_eqb_refl. reflexivity.
Qed.

Lemma validatedSession_obs ec s :
  mExchangeCtxt s = None \/ mExchangeCtxt s = Some ec ->
  mExchangeCtxt (validatedSession ec s) = Some ec /\
  mState (validatedSession ec s) = mState s /\
  mCASESessionEstablished (validatedSession ec s) = mCASESessionEstablished s /\
  mCommissioningHash (validatedSession ec s) = mCommissioningHash s /\
  exists evs,
    trace (validatedSession ec s) = trace s ++ evs /\
    statusReportsOf evs = [] /\ errorsOf evs = [] /\ messagesOf evs = [].
Proof.
  intros Hex. unfold validatedSession.
  destruct Hex as [Hex | Hex]; rewrite Hex; session_simpl;
    (repeat split; try reflexivity; try assumption);
    eexists; (split; [ solve_app | repeat split; reflexivity ]).
Qed.

Lemma abortSession_obs err s :
  mState (abortSession E err s) = kInitialized /\
  mCASESessionEstablished (abortSession E err s) = false /\
  mCommissioningHash (abortSession E err s) = [] /\
  mExchangeCtxt (abortSession E err s) = None /\
  trace (abortSession E err s) = trace s ++ [EvOnSessionEstablishmentError err].
Proof.
  unfold abortSession, Clear, CloseExchange. session_simpl. repeat split; reflexivity.
Qed.

Lemma handlerOf_hasHandler state msgType :
  hasHandler state msgType = false <-> handlerOf E state msgType = None.
Proof.
  destruct state, msgType; cbn; split; intros H; try reflexivity; discriminate.
Qed.

(** [OnMessageReceived] on a message that [ValidateReceivedMessage] accepts:
    the handler of the state and the message type runs, and an error
    aborts the session. *)
Lemma OnMessageReceived_dispatch ec msgType payload s :
  mExchangeCtxt s = None \/ mExchangeCtxt s = Some ec ->
  OnMessageReceived E (Some ec) msgType (Some payload) s
  = match handlerOf E (mState s) msgType with
    | Some handler =>
        let '(err, s') := handler payload (validatedSession ec s) in
        if negb (isNoError err) then (err, abortSession E err s') else (err, s')
    | None =>
        (CHIP_ERROR_INVALID_MESSAGE_TYPE,
         abortSession E CHIP_ERROR_INVALID_MESSAGE_TYPE (validatedSession ec s))
    end.
Proof.
  intros Hex. unfold OnMessageReceived.
  rewrite (ValidateReceivedMessage_accepts ec msgType payload s Hex).
  cbn [isNoError negb payloadOf].
  destruct (validatedSession_obs ec s Hex) as (_ & Hst & _).
  rewrite Hst.
  destruct (mState s), msgType; cbn [handlerOf]; reflexivity.
Qed.

(** [OnMessageReceived] on a message that [ValidateReceivedMessage]
    refuses: no handler runs and the session is aborted. *)
Lemma OnMessageReceived_refused ec msgType msg s err s1 :
  ValidateReceivedMessage ec msgType msg s = (err, s1) ->
  err <> CHIP_NO_ERROR ->
  OnMessageReceived E ec msgType msg s = (err, abortSession E err s1).
Proof.
  intros Hv Hne. unfold OnMessageReceived. rewrite Hv.
  destruct (isNoError err) eqn:Hok.
  - apply isNoError_true in Hok. contradiction.
  - cbn [negb]. rewrite Hok. reflexivity.
Qed.

Lemma ValidateReceivedMessage_obs ec msgType msg s err s1 :
  ValidateReceivedMessage ec msgType msg s = (err, s1) ->
  mCASESessionEstablished s1 = mCASESessionEstablished s /\
  mState s1 = mState s.
Proof.
  unfold ValidateReceivedMessage. intros H.
  apply runM_inv in H. destruct H as (o & H & ->).
  run_body H; session_simpl; try destruct ec; session_simpl; split; reflexivity.
Qed.

(** ** Message types without a handler (C1) *)

Lemma ExchangeContext_eqb_eq a b : ExchangeContext_eqb a b = true <-> a = b.
Proof.
  destruct a as [x|], b as [y|]; cbn; split; intros H;
    try reflexivity; try discriminate.
  - apply Z.eqb_eq in H. congruence.
  - injection H as ->. apply Z.eqb_refl.
Qed.

(** What [ValidateReceivedMessage] accepts. *)
Lemma ValidateReceivedMessage_accepted ec msgType msg s :
  isNoError (fst (ValidateReceivedMessage ec msgType msg s)) = true <->
  exists e payload,
    ec = Some e /\ msg = Some payload /\
    (mExchangeCtxt s = None \/ mExchangeCtxt s = Some e).
Proof.
  split.
  - unfold ValidateReceivedMessage, runM, mbind, mverify, overify, mget, mcheck,
      mtry, otry, mret, mdo.
    destruct ec as [e|]; cbn [isNull negb]; [ | cbn; discriminate ].
    destruct (mExchangeCtxt s) as [e0|] eqn:Hx; cbn [isNull negb].
    + destruct (ExchangeContext_eqb (Some e0) (Some e)) eqn:Heq;
        cbn [negb fst snd isNoError]; [ | cbn; discriminate ].
      apply ExchangeContext_eqb_eq in Heq.
      destruct msg as [payload|]; cbn; [ | discriminate ].
      intros _. exists e, payload. auto.
    + destruct msg as [payload|]; cbn; [ | discriminate ].
      intros _. exists e, payload. auto.
  - intros (e & payload & -> & -> & Hex).
    rewrite (ValidateReceivedMessage_accepts e msgType payload s Hex). reflexivity.
Qed.



(** ** Faults in the Sigma handlers (C4) *)

Lemma handler_fault_aborts (ec : ExchangeContext) (payload : list byte)
  (s : CASESession) (handler : list byte -> CASESession -> CHIP_ERROR * CASESession)
  (code : CHIP_ERROR -> ProtocolCode) :
  mExchangeCtxt s = None \/ mExchangeCtxt s = Some ec ->
  (forall s1 err s2,
     handler payload s1 = (err, s2) -> err <> CHIP_NO_ERROR ->
     exists evs,
       trace s2 = trace s1 ++ evs /\ errorsOf evs = [] /\
       statusReportsOf evs = [(mExchangeCtxt s1, code err)]) ->
  let r :=
    let '(err, s') := handler payload (validatedSession ec s) in
    if negb (isNoError err) then (err, abortSession E err s') else (err, s') in
  fst r <> CHIP_NO_ERROR ->
  exists evs,
    trace (snd r) = trace s ++ evs ++ [EvOnSessionEstablishmentError (fst r)] /\
    statusReportsOf evs = [(Some ec, code (fst r))] /\
    errorsOf evs = [] /\
    mState (snd r) = kInitialized /\
    mCASESessionEstablished (snd r) = false /\
    mExchangeCtxt (snd r) = None.
Proof.
  intros Hex Heff r. subst r.
  destruct (handler payload (validatedSession ec s)) as [err s2] eqn:Hh.
  destruct (isNoError err) eqn:Hok; cbn [negb fst snd]; intros Hne.
  - apply isNoError_true in Hok. contradiction.
  - destruct (Heff _ _ _ Hh Hne) as (evs2 & Ht2 & He2 & Hs2).
    destruct (validatedSession_obs ec s Hex)
      as (Hx1 & _ & _ & _ & evs1 & Ht1 & Hs1 & He1 & _).
    destruct (abortSession_obs err s2) as (Hst & Hest & _ & Hx & Htr).
    exists (evs1 ++ evs2).
    rewrite Htr, Ht2, Ht1, statusReportsOf_app, errorsOf_app, Hs1, He1, Hs2, He2, Hx1.
    rewrite <- !app_assoc.
    repeat split; first [ reflexivity | assumption ].
Qed.

(** C4, as the code has it.  When a message that [ValidateReceivedMessage]
    accepts is handed to one of the Sigma handlers and the handler fails,
    exactly one Status Report is sent on the exchange, with protocol code
    NoSharedRoot when the handler is the Sigma1 handler and the error is
    [CHIP_ERROR_KEY_NOT_FOUND], and InvalidParam in every other case; when
    the state has no handler for the message type, no Status Report is
    sent.  In both cases the session is then cleared, its exchange handle
    is null, and the delegate is notified of the error exactly once, as the
    last call. *)
Theorem sigma_handler_fault_is_reported (ec : ExchangeContext)
  (msgType : MsgType) (payload : list byte) (s : CASESession) :
  hasSigmaHandler (mState s) msgType = true \/ hasHandler (mState s) msgType = false ->
  mExchangeCtxt s = None \/ mExchangeCtxt s = Some ec ->
  let r := OnMessageReceived E (Some ec) msgType (Some payload) s in
  fst r <> CHIP_NO_ERROR ->
  exists evs,
    trace (snd r) = trace s ++ evs ++ [EvOnSessionEstablishmentError (fst r)] /\
    statusReportsOf evs
    = (if hasSigmaHandler (mState s) msgType
       then [(Some ec, reportedCode (mState s) (fst r))]
       else []) /\
    errorsOf evs = [] /\
    mState (snd r) = kInitialized /\
    mCASESessionEstablished (snd r) = false /\
    mExchangeCtxt (snd r) = None.
Proof.
  intros Hpair Hex r. subst r.
  rewrite (OnMessageReceived_dispatch ec msgType payload s Hex).
  destruct Hpair as [Hsig | Hno].
  - rewrite Hsig.
    destruct (mState s), msgType; try discriminate Hsig;
      cbn [handlerOf reportedCode].
    + apply (handler_fault_aborts ec payload s (HandleSigma1_and_SendSigma2 E)
               (fun err => if isKeyNotFound err then kProtocolCodeNoSharedRoot
                           else kProtocolCodeInvalidParam) Hex).
      intros s1 err s2 Hh Hne. rewrite HandleSigma1_and_SendSigma2_eq in Hh.
      apply HandleSigma1_effect in Hh.
      destruct Hh as (_ & _ & added & evs & _ & Ht & He & _ & _ & Hfail).
      exists evs. auto.
    + apply (handler_fault_aborts ec payload s (HandleSigma2_and_SendSigma3 E)
               (fun _ => kProtocolCodeInvalidParam) Hex).
      intros s1 err s2 Hh Hne.
      apply HandleSigma2_and_SendSigma3_effect in Hh.
      destruct Hh as (_ & _ & added & evs & _ & Ht & He & _ & _ & Hfail).
      exists evs. auto.
    + apply (handler_fault_aborts ec payload s (HandleSigma2Resume E)
               (fun _ => kProtocolCodeInvalidParam) Hex).
      intros s1 err s2 Hh Hne.
      apply HandleSigma2Resume_effect in Hh.
      destruct Hh as (_ & evs & Ht & He & _ & _ & Hfail).
      exists evs. destruct (Hfail Hne) as (_ & _ & Hsr). auto.
    + apply (handler_fault_aborts ec payload s (HandleSigma3 E)
               (fun _ => kProtocolCodeInvalidParam) Hex).
      intros s1 err s2 Hh Hne.
      apply HandleSigma3_effect in Hh.
      destruct Hh as (added & evs & _ & Ht & He & _ & _ & _ & Hfail).
      exists evs. destruct (Hfail Hne) as (_ & _ & Hsr). auto.
  - assert (Hsig : hasSigmaHandler (mState s) msgType = false)
      by (destruct (mState s), msgType; cbn in Hno |- *; congruence).
    rewrite Hsig.
    apply handlerOf_hasHandler in Hno. rewrite Hno. cbn [fst snd]. intros _.
    destruct (abortSession_obs CHIP_ERROR_INVALID_MESSAGE_TYPE (validatedSession ec s))
      as (Hst & Hest & _ & Hx & Htr).
    destruct (validatedSession_obs ec s Hex)
      as (_ & _ & _ & _ & evs & Hv & Hsr & Her & _).
    exists evs. rewrite Htr, Hv, <- app_assoc.
    repeat split; first [ reflexivity | assumption ].
Qed.

(** ** Establishment clears the exchange (C6) *)

(** C6, as the code has it.  Each path that marks the session established
    returns with the exchange handle null: [HandleSigma3] and
    [HandleSigma2Resume] when they succeed, and [OnSuccessStatusReport];
    hence whenever [OnMessageReceived] turns the establishment flag on, the
    session it returns holds no exchange.  This is no invariant of
    established sessions.  The flag is not read when a further message
    arrives: [ValidateReceivedMessage] stores the exchange of the message
    in a session that holds none, and the handlers of Sigma1 and of Sigma2
    keep the exchange and the flag, so that an established session which
    handles such a message without error holds the new exchange.  And
    [FromSerializable] turns the flag on and keeps the exchange the session
    holds. *)
Theorem established_session_holds_no_exchange :
  (forall msg s s',
     HandleSigma3 E msg s = (CHIP_NO_ERROR, s') ->
     mCASESessionEstablished s' = true /\ mExchangeCtxt s' = None) /\
  (forall msg s s',
     HandleSigma2Resume E msg s = (CHIP_NO_ERROR, s') ->
     mCASESessionEstablished s' = true /\ mExchangeCtxt s' = None) /\
  (forall s,
     mCASESessionEstablished (OnSuccessStatusReport s) = true /\
     mExchangeCtxt (OnSuccessStatusReport s) = None) /\
  (forall ec msgType msg s err s',
     OnMessageReceived E ec msgType msg s = (err, s') ->
     mCASESessionEstablished s = false ->
     mCASESessionEstablished s' = true ->
     mExchangeCtxt s' = None) /\
  (forall e msgType payload s s',
     OnMessageReceived E (Some e) msgType (Some payload) s = (CHIP_NO_ERROR, s') ->
     mExchangeCtxt s = None ->
     (mState s = kInitialized /\ msgType = CASE_Sigma1) \/
     (mState s = kSentSigma1 /\ msgType = CASE_Sigma2) ->
     mCASESessionEstablished s' = mCASESessionEstablished s /\
     mExchangeCtxt s' = Some e) /\
  (forall serializable s s',
     FromSerializable E serializable s = (CHIP_NO_ERROR, s') ->
     mCASESessionEstablished s' = true /\ mExchangeCtxt s' = mExchangeCtxt s).
Proof.
  split; [ | split; [ | split; [ | split; [ | split ] ] ] ].
  - intros msg s s' H. apply HandleSigma3_effect in H.
    destruct H as (added & evs & _ & _ & _ & _ & _ & Hok & _).
    destruct (Hok eq_refl) as (_ & Hest & Hx & _). auto.
  - intros msg s s' H. apply HandleSigma2Resume_effect in H.
    destruct H as (_ & evs & _ & _ & _ & Hok & _).
    destruct (Hok eq_refl) as (Hest & Hx & _). auto.
  - intros s. split; reflexivity.
  - intros ec msgType msg s err s' H Hold Hnew.
    unfold OnMessageReceived in H.
    destruct (ValidateReceivedMessage ec msgType msg s) as [e1 s1] eqn:Hv.
    apply ValidateReceivedMessage_obs in Hv. destruct Hv as [Hest1 _].
    rewrite Hold in Hest1.
    assert (Hexit : forall e2 s2,
               (if negb (isNoError e2)
                then (e2, emit (EvOnSessionEstablishmentError e2)
                            (Clear E (set_mExchangeCtxt None s2)))
                else (e2, s2)) = (err, s') ->
               (e2 = CHIP_NO_ERROR ->
                mCASESessionEstablished s2 = true -> mExchangeCtxt s2 = None) ->
               (e2 <> CHIP_NO_ERROR -> True) ->
               mExchangeCtxt s' = None).
    { intros e2 s2 Hr Hgood _.
      destruct (isNoError e2) eqn:Hok; cbn [negb] in Hr; injection Hr as <- <-.
      - apply isNoError_true in Hok. auto.
      - exact (proj1 (proj2 (proj2 (proj2 (abortSession_obs e2 s2))))). }
    assert (Hsame : forall e2 s2,
               mCASESessionEstablished s2 = mCASESessionEstablished s1 ->
               e2 = CHIP_NO_ERROR ->
               mCASESessionEstablished s2 = true -> mExchangeCtxt s2 = None).
    { intros e2 s2 Heq _ Htrue. congruence. }
    destruct (isNoError e1) eqn:Hok1; cbn [negb] in H;
      [ | apply (Hexit e1 s1 H); [ apply Hsame; reflexivity | auto ] ].
    destruct (mState s1), msgType;
      repeat match type of H with
      | context [HandleSigma1_and_SendSigma2 E ?m ?x] =>
          rewrite HandleSigma1_and_SendSigma2_eq in H;
          destruct (HandleSigma1 E m x) as [e2 s2] eqn:Hh;
          apply HandleSigma1_effect in Hh; destruct Hh as (_ & Heq & _);
          apply (Hexit e2 s2 H); [ apply Hsame; exact Heq | auto ]
      | context [HandleSigma2_and_SendSigma3 E ?m ?x] =>
          destruct (HandleSigma2_and_SendSigma3 E m x) as [e2 s2] eqn:Hh;
          apply HandleSigma2_and_SendSigma3_effect in Hh;
          destruct Hh as (_ & Heq & _);
          apply (Hexit e2 s2 H); [ apply Hsame; exact Heq | auto ]
      | context [HandleSigma2Resume E ?m ?x] =>
          destruct (HandleSigma2Resume E m x) as [e2 s2] eqn:Hh;
          apply HandleSigma2Resume_effect in Hh;
          destruct Hh as (_ & evs & _ & _ & _ & Hgood & _);
          apply (Hexit e2 s2 H);
          [ intros He2 _; exact (proj1 (proj2 (Hgood He2))) | auto ]
      | context [HandleSigma3 E ?m ?x] =>
          destruct (HandleSigma3 E m x) as [e2 s2] eqn:Hh;
          apply HandleSigma3_effect in Hh;
          destruct Hh as (added & evs & _ & _ & _ & _ & _ & Hgood & _);
          apply (Hexit e2 s2 H);
          [ intros He2 _; exact (proj1 (proj2 (proj2 (Hgood He2)))) | auto ]
      | context [HandleStatusReport E ?m ?b ?x] =>
          destruct (HandleStatusReport E m b x) as [e2 s2] eqn:Hh;
          apply HandleStatusReport_effect in Hh;
          destruct Hh as (_ & evs & _ & _ & _ & _ & Hgood & _);
          apply (Hexit e2 s2 H);
          [ intros He2 _; exact (proj2 (proj2 (Hgood He2))) | auto ]
      | _ =>
          apply (Hexit CHIP_ERROR_INVALID_MESSAGE_TYPE s1 H);
          [ apply Hsame; reflexivity | auto ]
      end.
  - intros e msgType payload s s' H Hnone Hpair.
    rewrite (OnMessageReceived_dispatch e msgType payload s (or_introl Hnone)) in H.
    destruct (validatedSession_obs e s (or_introl Hnone)) as (Hx & _ & Hest & _).
    assert (Hkeep : forall handler,
               (forall s1 err s2,
                  handler payload s1 = (err, s2) ->
                  mExchangeCtxt s2 = mExchangeCtxt s1 /\
                  mCASESessionEstablished s2 = mCASESessionEstablished s1) ->
               (let '(err, s2) := handler payload (validatedSession e s) in
                if negb (isNoError err) then (err, abortSession E err s2)
                else (err, s2)) = (CHIP_NO_ERROR, s') ->
               mCASESessionEstablished s' = mCASESessionEstablished s /\
               mExchangeCtxt s' = Some e).
    { intros handler Hh Hr.
      destruct (handler payload (validatedSession e s)) as [err s2] eqn:Hrun.
      destruct (Hh _ _ _ Hrun) as [Hx2 Hest2].
      destruct (isNoError err) eqn:Hok; cbn [negb] in Hr.
      - injection Hr as _ <-. rewrite Hest2, Hx2. auto.
      - injection Hr as -> _. discriminate Hok. }
    destruct Hpair as [[Hst ->] | [Hst ->]]; rewrite Hst in H; cbn [handlerOf] in H.
    + apply (Hkeep (HandleSigma1_and_SendSigma2 E)); [ | exact H ].
      intros s1 err s2 Hh. rewrite HandleSigma1_and_SendSigma2_eq in Hh.
      apply HandleSigma1_effect in Hh. destruct Hh as (Hx2 & Hest2 & _). auto.
    + apply (Hkeep (HandleSigma2_and_SendSigma3 E)); [ | exact H ].
      intros s1 err s2 Hh.
      apply HandleSigma2_and_SendSigma3_effect in Hh.
      destruct Hh as (Hx2 & Hest2 & _). auto.
  - intros serializable s s'.
    unfold FromSerializable, runM, mbind, mverify, overify, mget, mtry, otry, mdo,
      mret, SetLength.
    destruct (ser_mVersion serializable =? kCASESessionVersion);
      cbn [fst snd errOf]; [ | discriminate ].
    destruct (Nat.leb (Z.to_nat (ser_mSharedSecretLen serializable))
                (Capacity (mSharedSecret s)));
      cbn [fst snd isNoError errOf]; [ | discriminate ].
    destruct (Nat.leb (Z.to_nat (ser_mMessageDigestLen serializable))
                kSHA256_Hash_Length);
      cbn [fst snd errOf]; [ | discriminate ].
    destruct (Nat.eqb (List.length (GetIPKList E)) kIPKSize);
      cbn [fst snd errOf]; [ | discriminate ].
    intros H. injection H as <-. session_simpl. split; reflexivity.
Qed.

(** ** The transcript hash (C2) *)


End Dispatch.

(** ** The theorems on the concrete handshake *)



(** The theorem of C4 at the listening responder: for a Sigma1 that does
    not decode the report carries InvalidParam, and for a Sigma1 whose
    destination id no fabric matches it carries NoSharedRoot. *)
Lemma sigma_handler_fault_is_reported_witness :
  (exists evs,
     trace (snd (OnMessageReceived demoCollaborators (Some 1) CASE_Sigma1
                   (Some [x00]) demoResponder))
     = trace demoResponder ++ evs
       ++ [EvOnSessionEstablishmentError CHIP_END_OF_TLV]
     /\ statusReportsOf evs = [(Some 1, kProtocolCodeInvalidParam)])
  /\
  (exists evs,
     trace (snd (OnMessageReceived demoStrangers (Some 1) CASE_Sigma1
                   (Some [x01]) demoResponder))
     = trace demoResponder ++ evs
       ++ [EvOnSessionEstablishmentError CHIP_ERROR_KEY_NOT_FOUND]
     /\ statusReportsOf evs = [(Some 1, kProtocolCodeNoSharedRoot)]).
Proof.
  split.
  - destruct (sigma_handler_fault_is_reported demoCollaborators 1 CASE_Sigma1 [x00]
                demoResponder)
      as (evs & Ht & Hs & _).
    + left. vm_compute. reflexivity.
    + left. vm_compute. reflexivity.
    + vm_compute. discriminate.
    + exists evs. split; [ exact Ht | exact Hs ].
  - destruct (sigma_handler_fault_is_reported demoStrangers 1 CASE_Sigma1 [x01]
                demoResponder)
      as (evs & Ht & Hs & _).
    + left. vm_compute. reflexivity.
    + left. vm_compute. reflexivity.
    + vm_compute. discriminate.
    + exists evs. split; [ exact Ht | exact Hs ].
Defined.

(** C4, as the claim states it, fails: the initiator that has sent Sigma3
    receives a Sigma1 on its exchange; [OnMessageReceived] finds the fault,
    clears the session and notifies the delegate, and no Status Report is
    sent. *)
Lemma fault_without_status_report :
  fst (OnMessageReceived demoCollaborators (Some 1) CASE_Sigma1 (Some [x01])
         demoInitiatorSentSigma3)
  = CHIP_ERROR_INVALID_MESSAGE_TYPE
  /\ statusReportsOf
       (trace (snd (OnMessageReceived demoCollaborators (Some 1) CASE_Sigma1
                      (Some [x01]) demoInitiatorSentSigma3)))
     = []
  /\ errorsOf
       (trace (snd (OnMessageReceived demoCollaborators (Some 1) CASE_Sigma1
                      (Some [x01]) demoInitiatorSentSigma3)))
     = [CHIP_ERROR_INVALID_MESSAGE_TYPE]
  /\ mState (snd (OnMessageReceived demoCollaborators (Some 1) CASE_Sigma1
                    (Some [x01]) demoInitiatorSentSigma3))
     = kInitialized.
Proof.
  vm_compute. repeat split; reflexivity.
Qed.

(** The theorem of C6 at the responder that has sent Sigma2 and receives
    Sigma3, and at the resumed initiator that receives a Sigma2 on
    exchange 4. *)
Lemma established_session_holds_no_exchange_witness :
  (mCASESessionEstablished
     (snd (HandleSigma3 demoCollaborators [x03] demoResponderSentSigma2)) = true
   /\ mExchangeCtxt
        (snd (HandleSigma3 demoCollaborators [x03] demoResponderSentSigma2)) = None)
  /\
  (mCASESessionEstablished
     (snd (OnMessageReceived demoCollaborators (Some 4) CASE_Sigma2 (Some [x02])
             demoInitiatorResumed))
   = mCASESessionEstablished demoInitiatorResumed
   /\ mExchangeCtxt
        (snd (OnMessageReceived demoCollaborators (Some 4) CASE_Sigma2 (Some [x02])
                demoInitiatorResumed))
      = Some 4).
Proof.
  split.
  - apply (proj1 (established_session_holds_no_exchange demoCollaborators) [x03]
             demoResponderSentSigma2).
    vm_compute. reflexivity.
  - apply (proj1 (proj2 (proj2 (proj2 (proj2
             (established_session_holds_no_exchange demoCollaborators)))))
             4 CASE_Sigma2 [x02] demoInitiatorResumed).
    + vm_compute. reflexivity.
    + vm_compute. reflexivity.
    + right. split; [ vm_compute; reflexivity | reflexivity ].
Defined.

(** C6, as the claim states it, fails: an established session can hold an
    exchange.  The initiator whose session was resumed is established,
    holds no exchange and is still in state [kSentSigma1]; it handles a
    Sigma2 that arrives on exchange 4 without error and is then
    established and holds exchange 4.  And the initiator that holds
    exchange 1 and reads a serialized session is established and holds
    exchange 1. *)
Lemma established_session_with_exchange :
  (mCASESessionEstablished demoInitiatorResumed = true
   /\ mExchangeCtxt demoInitiatorResumed = None
   /\ mState demoInitiatorResumed = kSentSigma1
   /\ fst (OnMessageReceived demoCollaborators (Some 4) CASE_Sigma2 (Some [x02])
             demoInitiatorResumed)
      = CHIP_NO_ERROR
   /\ mCASESessionEstablished
        (snd (OnMessageReceived demoCollaborators (Some 4) CASE_Sigma2 (Some [x02])
                demoInitiatorResumed))
      = true
   /\ mExchangeCtxt
        (snd (OnMessageReceived demoCollaborators (Some 4) CASE_Sigma2 (Some [x02])
                demoInitiatorResumed))
      = Some 4)
  /\
  (mExchangeCtxt demoInitiator = Some 1
   /\ fst (FromSerializable demoCollaborators demoSerializable demoInitiator)
      = CHIP_NO_ERROR
   /\ mCASESessionEstablished
        (snd (FromSerializable demoCollaborators demoSerializable demoInitiator))
      = true
   /\ mExchangeCtxt
        (snd (FromSerializable demoCollaborators demoSerializable demoInitiator))
      = Some 1).
Proof.
  vm_compute. repeat split; reflexivity.
Qed.


(** The transcripts of the concrete handshake: on each side the three
    Sigma messages in the order sent and received, and nothing else. *)
Example demo_responder_transcript :
  exists sigma2,
    mCommissioningHash demoResponderEstablished = [[x01]; sigma2; [x03]]
    /\ messagesOf (trace demoResponderEstablished) = [(CASE_Sigma2, sigma2)].
Proof. eexists. vm_compute. split; reflexivity. Qed.

Example demo_initiator_transcript :
  exists sigma1 sigma3,
    mCommissioningHash demoInitiatorSentSigma3 = [sigma1; [x02]; sigma3]
    /\ messagesOf (trace demoInitiatorSentSigma3)
       = [(CASE_Sigma1, sigma1); (CASE_Sigma3, sigma3)].
Proof. eexists. eexists. vm_compute. split; reflexivity. Qed.

(** * Further properties of the session code *)

(** ** Decoding of Sigma1 *)

Lemma uint16_in_range sessionId :
  0 <= sessionId <= 65535 -> (0 <=? sessionId) && (sessionId <=? 65535) = true.
Proof. intros H. apply andb_true_intro. split; apply Z.leb_le; lia. Qed.

(** [ParseSigma1] run on the members of a Sigma1 whose sizes and tags are
    known. *)
Ltac sigma1_run :=
  unfold ParseSigma1, Sigma1Message, resumptionMembers, parsedSigma1;
  unfold kSigmaParamRandomNumberSize, kSHA256_Hash_Length, kP256_PublicKey_Length,
    kCASEResumptionIDSize, kTAGSize in *;
  repeat (progress (cbn -[Nat.eqb Z.leb Tag_eqb]; sigma1_sizes;
                    repeat match goal with
                    | H : _ = true |- _ => rewrite H
                    | H : _ = false |- _ => rewrite H
                    | H : elemTag _ = _ |- _ => rewrite H
                    end;
                    rewrite ?Nat.eqb_refl;
                    cbn -[Nat.eqb Z.leb]));
  try reflexivity.

(** X1. [ParseSigma1] accepts a Sigma1 laid out as [SendSigma1] writes it:
    the four mandatory members with their sizes, an optional MRP member,
    and the resumption id with its MIC or neither.  It hands back the
    members as they are, with the resumption request set exactly when the
    pair is there.  Members after the pair are ignored, and so, in a
    message without the pair, are the members after a first one that is
    none of the optional ones. *)
Theorem ParseSigma1_accepts_wellformed
  (random destination pubKey : list byte) (sessionId : Z)
  (resume : option (list byte * list byte)) (mrp later : list TLVElement) :
  List.length random = kSigmaParamRandomNumberSize ->
  0 <= sessionId <= 65535 ->
  List.length destination = kSHA256_Hash_Length ->
  List.length pubKey = kP256_PublicKey_Length ->
  resumptionSizes resume ->
  (mrp = [] \/ exists e, mrp = [e] /\ elemTag e = ContextTag kInitiatorMRPParamsTag) ->
  match resume, later with
  | None, e :: _ => isOptionalTag (elemTag e) = false
  | _, _ => True
  end ->
  ParseSigma1
    (TLVReader_Init
       (Sigma1Message random sessionId destination pubKey
          (mrp ++ resumptionMembers resume ++ later)))
  = Done (parsedSigma1 random sessionId destination pubKey resume).
Proof.
  intros Hr Hs Hd Hp Hres Hmrp Hlater.
  apply uint16_in_range in Hs.
  destruct resume as [[rid mic]|]; [ destruct Hres as [Hrid Hmic] | ];
    destruct Hmrp as [-> | (e & -> & He)]; destruct later as [|e' later];
    try (unfold isOptionalTag in Hlater;
         apply orb_false_elim in Hlater; destruct Hlater as [Hlater H7];
         apply orb_false_elim in Hlater; destruct Hlater as [H5 H6]);
    sigma1_run.
Qed.

(** X2. A Sigma1 whose members are in place but one of whose fixed-size
    members has another size is refused with
    [CHIP_ERROR_INVALID_CASE_PARAMETER]: the initiator random, the
    destination id, the ephemeral public key, and, when the resumption
    pair is there, the resumption id and its MIC. *)
Theorem ParseSigma1_wrong_member_size
  (random destination pubKey resumptionID resumeMIC : list byte) (sessionId : Z)
  (mrp rest : list TLVElement) :
  0 <= sessionId <= 65535 ->
  (mrp = [] \/ exists e, mrp = [e] /\ elemTag e = ContextTag kInitiatorMRPParamsTag) ->
  (List.length random <> kSigmaParamRandomNumberSize \/
   List.length destination <> kSHA256_Hash_Length \/
   List.length pubKey <> kP256_PublicKey_Length ->
   ParseSigma1
     (TLVReader_Init (Sigma1Message random sessionId destination pubKey rest))
   = Exit CHIP_ERROR_INVALID_CASE_PARAMETER)
  /\
  (List.length random = kSigmaParamRandomNumberSize ->
   List.length destination = kSHA256_Hash_Length ->
   List.length pubKey = kP256_PublicKey_Length ->
   List.length resumptionID <> kCASEResumptionIDSize \/
   List.length resumeMIC <> kTAGSize ->
   ParseSigma1
     (TLVReader_Init
        (Sigma1Message random sessionId destination pubKey
           (mrp ++ resumptionMembers (Some (resumptionID, resumeMIC)) ++ rest)))
   = Exit CHIP_ERROR_INVALID_CASE_PARAMETER).
Proof.
  intros Hs Hmrp. apply uint16_in_range in Hs.
  split.
  - intros Hbad.
    unfold ParseSigma1, Sigma1Message, kSigmaParamRandomNumberSize,
      kSHA256_Hash_Length, kP256_PublicKey_Length in *.
    destruct (Nat.eqb (List.length random) 32) eqn:Hr;
      [ | cbn -[Nat.eqb Z.leb]; rewrite Hr; reflexivity ].
    destruct (Nat.eqb (List.length destination) 32) eqn:Hd;
      [ | cbn -[Nat.eqb Z.leb]; rewrite Hr; cbn -[Nat.eqb Z.leb]; rewrite Hs;
          cbn -[Nat.eqb Z.leb]; rewrite Hd; reflexivity ].
    destruct (Nat.eqb (List.length pubKey) 65) eqn:Hp;
      [ | cbn -[Nat.eqb Z.leb]; rewrite Hr; cbn -[Nat.eqb Z.leb]; rewrite Hs;
          cbn -[Nat.eqb Z.leb]; rewrite Hd; cbn -[Nat.eqb Z.leb]; rewrite Hp;
          reflexivity ].
    apply Nat.eqb_eq in Hr, Hd, Hp. exfalso. tauto.
  - intros Hr Hd Hp Hbad.
    unfold kCASEResumptionIDSize, kTAGSize in Hbad.
    destruct (Nat.eqb (List.length resumptionID) 16) eqn:Hi.
    + destruct (Nat.eqb (List.length resumeMIC) 16) eqn:Hm.
      * apply Nat.eqb_eq in Hi, Hm. exfalso. tauto.
      * apply Nat.eqb_eq in Hi.
        destruct Hmrp as [-> | (e & -> & He)]; sigma1_run.
    + destruct Hmrp as [-> | (e & -> & He)]; sigma1_run.
Qed.

(** ** Salts, resumption keys and signed data *)

(** A [Put] of a whole span that still fits appends the span. *)
Lemma BufferWriter_Put_fits bbuf buf :
  (bwNeeded bbuf + List.length buf <= bwSize bbuf)%nat ->
  BufferWriter_Put bbuf buf (List.length buf)
  = mkBufferWriter (bwSize bbuf) (bwNeeded bbuf + List.length buf) (bwData bbuf ++ buf).
Proof.
  intros H. unfold BufferWriter_Put.
  rewrite Nat.min_r by lia. rewrite firstn_all. reflexivity.
Qed.

Lemma BufferWriter_Put_size bbuf buf len :
  bwSize (BufferWriter_Put bbuf buf len) = bwSize bbuf.
Proof. reflexivity. Qed.

Lemma BufferWriter_Put_needed bbuf buf len :
  bwNeeded (BufferWriter_Put bbuf buf len) = (bwNeeded bbuf + len)%nat.
Proof. reflexivity. Qed.

(** The [Put]s of a salt that fits, and the count of one that does not. *)
Ltac puts_fit :=
  rewrite !BufferWriter_Put_fits
    by (rewrite ?BufferWriter_Put_needed, ?BufferWriter_Put_size;
        cbn [BufferWriter_Init bwNeeded bwSize]; lia);
  cbn [BufferWriter_Init bwNeeded bwSize bwData].

Ltac puts_counted :=
  unfold overify, BufferWriter_Fit;
  rewrite ?BufferWriter_Put_needed, ?BufferWriter_Put_size;
  cbn [BufferWriter_Init bwNeeded bwSize bwData].

Lemma otry_Done_eq {A} (r : CHIP_ERROR * A) a :
  otry r = Done a -> r = (CHIP_NO_ERROR, a).
Proof.
  intros H. apply otry_Done in H. destruct r as [e x]. cbn [fst snd] in H.
  destruct H as [-> ->]. reflexivity.
Qed.

Lemma orun_Done {A} (initial : A) (o : Outcome A) a :
  orun initial o = (CHIP_NO_ERROR, a) ->
  (forall e, o = Exit e -> e <> CHIP_NO_ERROR) ->
  o = Done a.
Proof.
  destruct o as [x|e]; cbn; intros H Hne.
  - injection H as <-. reflexivity.
  - injection H as -> _. exfalso. apply (Hne CHIP_NO_ERROR); reflexivity.
Qed.

(** A chain of [otry] and [overify] never leaves with [CHIP_NO_ERROR]. *)
Ltac exit_is_error H :=
  lazymatch type of H with
  | obind ?o ?k = Exit ?e =>
      let Ho := fresh "Ho" in
      destruct o as [? | ?] eqn:Ho; cbn [obind] in H;
      [ clear Ho; exit_is_error H | injection H as ->; exit_is_error Ho ]
  | otry ?r = Exit ?e => apply otry_Exit in H; destruct H as [_ H]; exact H
  | overify ?c ?e' = Exit ?e =>
      unfold overify in H; destruct c;
      [ discriminate H | injection H as <-; discriminate ]
  | Done _ = Exit _ => discriminate H
  | Exit _ = Exit _ => injection H as <-; discriminate
  | (let '(_, _) := ?x in _) = Exit _ => destruct x; exit_is_error H
  | (if ?c then _ else _) = Exit _ => destruct c; exit_is_error H
  end.

Section Derivations.
Variable E : Collaborators.

(** X3. The salt of the Sigma2 key is the IPK, the 32-byte random value,
    the public key and the digest of the transcript so far, in this order;
    the salt of the Sigma3 key is the IPK and the digest.  A span too
    small for them makes either function fail with
    [CHIP_ERROR_BUFFER_TOO_SMALL]. *)
Theorem ConstructSalt_layout (s : CASESession)
  (rand pubkey ipk digest : ByteSpan) (saltSize : nat) :
  Hash_GetDigest E (mCommissioningHash s) = (CHIP_NO_ERROR, digest) ->
  List.length rand = kSigmaParamRandomNumberSize ->
  let sigma2 := (List.length ipk + kSigmaParamRandomNumberSize + List.length pubkey
                 + List.length digest)%nat in
  let sigma3 := (List.length ipk + List.length digest)%nat in
  ((sigma2 <= saltSize)%nat ->
   ConstructSaltSigma2 E s rand pubkey ipk saltSize
   = (CHIP_NO_ERROR, ipk ++ rand ++ pubkey ++ digest)) /\
  ((saltSize < sigma2)%nat ->
   fst (ConstructSaltSigma2 E s rand pubkey ipk saltSize)
   = CHIP_ERROR_BUFFER_TOO_SMALL) /\
  ((sigma3 <= saltSize)%nat ->
   ConstructSaltSigma3 E s ipk saltSize = (CHIP_NO_ERROR, ipk ++ digest)) /\
  ((saltSize < sigma3)%nat ->
   fst (ConstructSaltSigma3 E s ipk saltSize) = CHIP_ERROR_BUFFER_TOO_SMALL).
Proof.
  intros Hd Hrand sigma2 sigma3. subst sigma2 sigma3.
  unfold ConstructSaltSigma2, ConstructSaltSigma3.
  rewrite Hd. unfold otry; cbn [fst snd isNoError obind].
  rewrite <- Hrand.
  split; [ | split; [ | split ] ].
  - intros Hle. puts_fit.
    unfold overify, BufferWriter_Fit. cbn [bwNeeded bwSize bwData].
    destruct (Nat.leb_spec (0 + List.length ipk + List.length rand
                            + List.length pubkey + List.length digest) saltSize);
      [ | lia ].
    cbn [obind orun app]. rewrite <- !app_assoc. reflexivity.
  - intros Hlt. puts_counted.
    destruct (Nat.leb_spec (0 + List.length ipk + List.length rand
                            + List.length pubkey + List.length digest) saltSize);
      [ lia | reflexivity ].
  - intros Hle. puts_fit.
    unfold overify, BufferWriter_Fit. cbn [bwNeeded bwSize bwData].
    destruct (Nat.leb_spec (0 + List.length ipk + List.length digest) saltSize);
      [ | lia ].
    reflexivity.
  - intros Hlt. puts_counted.
    destruct (Nat.leb_spec (0 + List.length ipk + List.length digest) saltSize);
      [ lia | reflexivity ].
Qed.

(** X4. The resumption key is the HKDF output of 16 bytes for the shared
    secret, with the initiator random followed by the resumption id as
    salt and the given info; the nonce has no part in it.  The function
    fails with [CHIP_ERROR_BUFFER_TOO_SMALL] when the key span is shorter
    than 16 bytes or the salt is longer than 48. *)
Theorem ConstructSigmaResumeKey_derivation (s : CASESession)
  (initiatorRandom resumptionID skInfo nonce : ByteSpan) (resumeKeySize : nat) :
  ((resumeKeySize < kAEADKeySize)%nat ->
   fst (ConstructSigmaResumeKey E s initiatorRandom resumptionID skInfo nonce
          resumeKeySize) = CHIP_ERROR_BUFFER_TOO_SMALL) /\
  ((kSigmaParamRandomNumberSize + kCASEResumptionIDSize
    < List.length initiatorRandom + List.length resumptionID)%nat ->
   fst (ConstructSigmaResumeKey E s initiatorRandom resumptionID skInfo nonce
          resumeKeySize) = CHIP_ERROR_BUFFER_TOO_SMALL) /\
  ((kAEADKeySize <= resumeKeySize)%nat ->
   (List.length initiatorRandom + List.length resumptionID
    <= kSigmaParamRandomNumberSize + kCASEResumptionIDSize)%nat ->
   forall key,
     HKDF_SHA256 E (secretSpan (mSharedSecret s)) (initiatorRandom ++ resumptionID)
       skInfo kAEADKeySize = (CHIP_NO_ERROR, key) ->
     ConstructSigmaResumeKey E s initiatorRandom resumptionID skInfo nonce
       resumeKeySize = (CHIP_NO_ERROR, key)).
Proof.
  unfold ConstructSigmaResumeKey. split; [ | split ].
  - intros Hlt. unfold overify at 1.
    destruct (Nat.leb_spec kAEADKeySize resumeKeySize); [ lia | reflexivity ].
  - intros Hlt. unfold overify at 1.
    destruct (Nat.leb_spec kAEADKeySize resumeKeySize); [ | reflexivity ].
    cbn [obind]. puts_counted.
    destruct (Nat.leb_spec (0 + List.length initiatorRandom + List.length resumptionID)
                (kSigmaParamRandomNumberSize + kCASEResumptionIDSize));
      [ lia | reflexivity ].
  - intros Hk Hle key Hkdf. unfold overify at 1.
    destruct (Nat.leb_spec kAEADKeySize resumeKeySize); [ | lia ].
    cbn [obind]. puts_fit.
    unfold overify, BufferWriter_Fit. cbn [bwNeeded bwSize bwData].
    destruct (Nat.leb_spec (0 + List.length initiatorRandom + List.length resumptionID)
                (kSigmaParamRandomNumberSize + kCASEResumptionIDSize));
      [ | lia ].
    cbn [obind app]. rewrite Hkdf. reflexivity.
Qed.

Lemma GenerateSigmaResumeMIC_inv s initiatorRandom resumptionID skInfo nonce
  resumeMICSize resumeMIC :
  GenerateSigmaResumeMIC E s initiatorRandom resumptionID skInfo nonce resumeMICSize
  = (CHIP_NO_ERROR, resumeMIC) ->
  exists key ciphertext,
    ConstructSigmaResumeKey E s initiatorRandom resumptionID skInfo nonce kAEADKeySize
    = (CHIP_NO_ERROR, key) /\
    AES_CCM_encrypt E [] [] key nonce kTAGSize = (CHIP_NO_ERROR, (ciphertext, resumeMIC)).
Proof.
  unfold GenerateSigmaResumeMIC.
  unfold overify at 1. destruct (Nat.leb kTAGSize resumeMICSize); [ | discriminate ].
  cbn [obind].
  destruct (ConstructSigmaResumeKey E s initiatorRandom resumptionID skInfo nonce
              kAEADKeySize) as [ek key] eqn:Hkey.
  unfold otry at 1. cbn [fst snd].
  destruct (isNoError ek) eqn:Hek;
    [ | cbn [obind orun]; intros H; inversion H; subst ek; discriminate Hek ].
  apply isNoError_true in Hek. subst ek. cbn [obind].
  destruct (AES_CCM_encrypt E [] [] key nonce kTAGSize) as [ee [c tag]] eqn:Henc.
  unfold otry at 1. cbn [fst snd].
  destruct (isNoError ee) eqn:Hee;
    [ | cbn [obind orun]; intros H; inversion H; subst ee; discriminate Hee ].
  apply isNoError_true in Hee. subst ee.
  cbn [obind orun]. intros H. injection H as <-.
  exists key, c. split; [ reflexivity | exact Henc ].
Qed.

Lemma ValidateSigmaResumeMIC_of_key s initiatorRandom resumptionID skInfo nonce
  key resumeMIC :
  ConstructSigmaResumeKey E s initiatorRandom resumptionID skInfo nonce kAEADKeySize
  = (CHIP_NO_ERROR, key) ->
  List.length resumeMIC = kTAGSize ->
  fst (AES_CCM_decrypt E [] [] resumeMIC key nonce) = CHIP_NO_ERROR ->
  ValidateSigmaResumeMIC E s resumeMIC initiatorRandom resumptionID skInfo nonce
  = CHIP_NO_ERROR.
Proof.
  intros Hkey Hlen Hdec. unfold ValidateSigmaResumeMIC.
  rewrite Hlen. unfold overify. rewrite Nat.eqb_refl. cbn [obind].
  rewrite Hkey. unfold otry. cbn [fst snd isNoError obind].
  rewrite Hdec. reflexivity.
Qed.

(** X5. With an AEAD whose decryption accepts, under a key and a nonce,
    the 16-byte tag its encryption made under them, a MIC that
    [GenerateSigmaResumeMIC] made passes [ValidateSigmaResumeMIC] for the
    same random value, resumption id, info and nonce at every session that
    holds the same shared secret. *)
Theorem resume_MIC_generated_is_valid (s1 s2 : CASESession)
  (initiatorRandom resumptionID skInfo nonce resumeMIC : ByteSpan)
  (resumeMICSize : nat) :
  (forall key ciphertext tag,
     AES_CCM_encrypt E [] [] key nonce kTAGSize = (CHIP_NO_ERROR, (ciphertext, tag)) ->
     List.length tag = kTAGSize /\
     fst (AES_CCM_decrypt E [] [] tag key nonce) = CHIP_NO_ERROR) ->
  mSharedSecret s2 = mSharedSecret s1 ->
  GenerateSigmaResumeMIC E s1 initiatorRandom resumptionID skInfo nonce resumeMICSize
  = (CHIP_NO_ERROR, resumeMIC) ->
  ValidateSigmaResumeMIC E s2 resumeMIC initiatorRandom resumptionID skInfo nonce
  = CHIP_NO_ERROR.
Proof.
  intros Haead Hsecret Hgen.
  rewrite (ValidateSigmaResumeMIC_secret E s2 s1 _ _ _ _ _ Hsecret).
  apply GenerateSigmaResumeMIC_inv in Hgen.
  destruct Hgen as (key & c & Hkey & Henc).
  destruct (Haead _ _ _ Henc) as [Hlen Hdec].
  apply (ValidateSigmaResumeMIC_of_key s1 _ _ _ _ key); assumption.
Qed.

Lemma TLVWriter_StartContainer_ok w w' :
  TLVWriter_StartContainer E w = (CHIP_NO_ERROR, w') -> w' = mkWriter (wrMaxLen w) [].
Proof. unfold TLVWriter_StartContainer. intros H. injection H as _ <-. reflexivity. Qed.

Lemma TLVWriter_Put_ok w e w' :
  TLVWriter_Put E w e = (CHIP_NO_ERROR, w') ->
  w' = mkWriter (wrMaxLen w) (wrMembers w ++ [e]).
Proof.
  unfold TLVWriter_Put. destruct (isNoError _) eqn:Hok; intros H.
  - injection H as <-. reflexivity.
  - injection H as H _. rewrite H in Hok. discriminate.
Qed.

Lemma TLVWriter_EndContainer_ok w w' :
  TLVWriter_EndContainer E w = (CHIP_NO_ERROR, w') -> w' = w.
Proof. unfold TLVWriter_EndContainer. intros H. injection H as _ <-. reflexivity. Qed.

Lemma TLVWriter_Finalize_ok w bytes :
  TLVWriter_Finalize E w = (CHIP_NO_ERROR, bytes) ->
  bytes = TLV_encode E (TLVWriter_written w).
Proof. unfold TLVWriter_Finalize. intros H. injection H as _ <-. reflexivity. Qed.

(** X6. The data [ConstructTBSData] hands back is the encoding of one
    structure: the sender's NOC, its ICAC when it is not empty, the
    sender's public key and the receiver's, under tags 1 to 4.  The size
    of the buffer handed in has no part in it. *)
Theorem ConstructTBSData_layout
  (senderNOC senderICAC senderPubKey receiverPubKey tbsData : ByteSpan)
  (tbsDataLen : nat) :
  ConstructTBSData E senderNOC senderICAC senderPubKey receiverPubKey tbsDataLen
  = (CHIP_NO_ERROR, tbsData) ->
  tbsData = TLV_encode E (TBSData senderNOC senderICAC senderPubKey receiverPubKey).
Proof.
  unfold ConstructTBSData. intros H.
  apply orun_Done in H; [ | intros e He; exit_is_error He ].
  repeat match type of H with
  | obind ?o ?k = Done _ =>
      let Ho := fresh "Ho" in
      destruct o as [? | ?] eqn:Ho; cbn [obind] in H; [ | discriminate H ]
  end.
  destruct senderICAC as [|b icac]; cbn [List.length Nat.eqb negb] in *;
    repeat match goal with
    | H : otry _ = Done _ |- _ => apply otry_Done_eq in H
    | H : Done _ = Done _ |- _ => injection H as H; subst
    | H : TLVWriter_StartContainer _ _ = _ |- _ =>
        apply TLVWriter_StartContainer_ok in H; subst
    | H : TLVWriter_Put _ _ _ = _ |- _ => apply TLVWriter_Put_ok in H; subst
    | H : TLVWriter_EndContainer _ _ = _ |- _ =>
        apply TLVWriter_EndContainer_ok in H; subst
    | H : TLVWriter_Finalize _ _ = _ |- _ => apply TLVWriter_Finalize_ok in H; subst
    end;
    reflexivity.
Qed.

End Derivations.

(** ** Serialization *)

Lemma firstn_memcpy dst src n :
  (n <= List.length src)%nat -> firstn n (memcpy dst src n) = firstn n src.
Proof.
  intros H. unfold memcpy. rewrite firstn_app.
  rewrite length_firstn, Nat.min_l by lia. rewrite Nat.sub_diag. cbn [firstn].
  rewrite app_nil_r. rewrite firstn_firstn, Nat.min_id. reflexivity.
Qed.

Lemma memcpy_whole dst src n :
  List.length src = n -> (List.length dst <= n)%nat -> memcpy dst src n = src.
Proof.
  intros Hs Hd. unfold memcpy. rewrite <- Hs at 1. rewrite firstn_all.
  rewrite skipn_all2 by lia. apply app_nil_r.
Qed.

Lemma memcpy_twice dst mid src n :
  (n <= List.length src)%nat ->
  memcpy dst (memcpy mid src n) n = memcpy dst src n.
Proof.
  intros H. unfold memcpy at 1 3. rewrite firstn_memcpy by exact H. reflexivity.
Qed.

(** The cases of a function that checks its input member by member. *)
Ltac checked_cases :=
  repeat split; intros;
  repeat match goal with H : _ /\ _ |- _ => destruct H end;
  try reflexivity; try discriminate; try lia; try congruence; try tauto.

Section Serialization.
Variable E : Collaborators.

(** X7. What [ToSerializable] writes, [FromSerializable] reads back: at a
    session whose secret buffer is large enough, and with a 16-byte IPK
    list, it succeeds and the session then holds the bytes in use of the
    shared secret, the message digest, the resumption id, the peer node id
    and both session ids of the serialized session.  The IPK is the one of
    the IPK list, not one of the serialized session, and the session is
    marked established whether or not the serialized one was. *)
Theorem serializable_round_trip (s t : CASESession)
  (blank serializable : CASESessionSerializable) :
  ToSerializable s blank = (CHIP_NO_ERROR, serializable) ->
  membersSized s -> membersSized t ->
  (secretLength (mSharedSecret s) <= Capacity (mSharedSecret t))%nat ->
  List.length (GetIPKList E) = kIPKSize ->
  exists t',
    FromSerializable E serializable t = (CHIP_NO_ERROR, t') /\
    secretSpan (mSharedSecret t') = secretSpan (mSharedSecret s) /\
    mMessageDigest t' = mMessageDigest s /\
    mResumptionId t' = mResumptionId s /\
    GetPeerNodeId t' = GetPeerNodeId s /\
    GetLocalSessionId t' = GetLocalSessionId s /\
    GetPeerSessionId t' = GetPeerSessionId s /\
    mIPK t' = GetIPKList E /\
    mCASESessionEstablished t' = true.
Proof.
  intros Hto (Hsl & Hsd & Hsr & Hsi) (Htl & Htd & Htr & Hti) Hcap Hipk.
  unfold ToSerializable in Hto.
  unfold overify in Hto.
  destruct (CanCastTo_uint16 (secretLength (mSharedSecret s))); [ | discriminate Hto ].
  cbn [obind] in Hto. change (CanCastTo_uint16 kSHA256_Hash_Length) with true in Hto.
  cbn [obind] in Hto.
  destruct (CanCastTo_uint64 (GetPeerNodeId s)); [ | discriminate Hto ].
  cbn [obind orun] in Hto. injection Hto as <-.
  unfold FromSerializable, runM, mbind, mverify, overify, mget, mtry, otry, mdo,
    mret, SetLength.
  cbn [ser_mVersion ser_mSharedSecretLen ser_mSharedSecret ser_mMessageDigestLen
       ser_mMessageDigest ser_mPeerNodeId ser_mLocalSessionId ser_mPeerSessionId
       ser_mResumptionId kCASESessionVersion Z.eqb Pos.eqb].
  rewrite !Nat2Z.id.
  destruct (Nat.leb_spec (secretLength (mSharedSecret s)) (Capacity (mSharedSecret t)));
    [ | lia ].
  cbn [fst snd isNoError].
  cbn [Nat.leb kSHA256_Hash_Length].
  rewrite Hipk, Nat.eqb_refl.
  eexists. split; [ reflexivity | ].
  unfold GetPeerNodeId, GetLocalSessionId, GetPeerSessionId, secretSpan, Capacity in *.
  session_simpl. cbn [secretBytes secretLength].
  unfold kSHA256_Hash_Length, kCASEResumptionIDSize, kIPKSize in *.
  repeat split.
  - rewrite memcpy_twice by lia. apply firstn_memcpy. lia.
  - rewrite memcpy_twice by lia. apply memcpy_whole; lia.
  - rewrite memcpy_twice by lia. apply memcpy_whole; lia.
  - apply memcpy_whole; lia.
Qed.

(** X8. [FromSerializable] succeeds exactly when the version is the
    session version, the length of the secret is within the capacity of
    the secret buffer, the length of the digest is at most 32 and the IPK
    list has 16 bytes.  When it fails the session is not marked
    established.  Another version is refused with
    [CHIP_ERROR_VERSION_MISMATCH] before anything is written; a digest
    length above 32 is refused with [CHIP_ERROR_INVALID_ARGUMENT] after the
    shared secret has been replaced. *)
Theorem FromSerializable_failures (serializable : CASESessionSerializable)
  (s : CASESession) :
  let r := FromSerializable E serializable s in
  let secretLen := Z.to_nat (ser_mSharedSecretLen serializable) in
  let digestLen := Z.to_nat (ser_mMessageDigestLen serializable) in
  (fst r = CHIP_NO_ERROR <->
   ser_mVersion serializable = kCASESessionVersion /\
   (secretLen <= Capacity (mSharedSecret s))%nat /\
   (digestLen <= kSHA256_Hash_Length)%nat /\
   List.length (GetIPKList E) = kIPKSize) /\
  (fst r <> CHIP_NO_ERROR ->
   mCASESessionEstablished (snd r) = mCASESessionEstablished s) /\
  (ser_mVersion serializable <> kCASESessionVersion ->
   r = (CHIP_ERROR_VERSION_MISMATCH, s)) /\
  (ser_mVersion serializable = kCASESessionVersion ->
   (secretLen <= Capacity (mSharedSecret s))%nat ->
   (kSHA256_Hash_Length < digestLen)%nat ->
   fst r = CHIP_ERROR_INVALID_ARGUMENT /\
   secretLength (mSharedSecret (snd r)) = secretLen /\
   secretBytes (mSharedSecret (snd r))
   = memcpy (memset (secretBytes (mSharedSecret s)) 0 (sizeof_size_t E))
       (ser_mSharedSecret serializable) secretLen).
Proof.
  intros r secretLen digestLen. subst r secretLen digestLen.
  unfold FromSerializable, runM, mbind, mverify, overify, mget, mtry, otry, mdo,
    mret, SetLength.
  destruct (Z.eqb_spec (ser_mVersion serializable) kCASESessionVersion) as [Hv|Hv];
    cbn [fst snd errOf]; [ | checked_cases ].
  destruct (Nat.leb_spec (Z.to_nat (ser_mSharedSecretLen serializable))
              (Capacity (mSharedSecret s))) as [Hc|Hc];
    cbn [fst snd isNoError errOf]; [ | checked_cases ].
  destruct (Nat.leb_spec (Z.to_nat (ser_mMessageDigestLen serializable))
              kSHA256_Hash_Length) as [Hd|Hd];
    cbn [fst snd errOf];
    [ | session_simpl; cbn [secretLength secretBytes]; checked_cases ].
  destruct (Nat.eqb_spec (List.length (GetIPKList E)) kIPKSize) as [Hi|Hi];
    cbn [fst snd errOf]; session_simpl; checked_cases.
Qed.

End Serialization.

(** ** The life of a session and its handlers *)

(** Symbolic execution that keeps what each successful call handed back. *)
Ltac keep_cases H :=
  match type of H with
  | otry ?r = Done ?a => apply otry_Done_eq in H
  | otry ?r = Exit ?e =>
      apply otry_Exit in H; cbn [fst snd] in H;
      let Hne := fresh "Hne" in destruct H as [_ Hne]
  | otry ?r = ?o =>
      destruct o as [? | ?];
      [ apply otry_Done_eq in H
      | apply otry_Exit in H; cbn [fst snd] in H;
        let Hne := fresh "Hne" in destruct H as [_ Hne] ]
  end.

Ltac run_keep H :=
  lazymatch type of H with
  | mbind ?m ?k ?s = (?o, ?s') =>
      let a := fresh "a" in
      let s1 := fresh "s" in
      let e := fresh "e" in
      let H1 := fresh "H" in
      let H2 := fresh "H" in
      destruct (mbind_inv _ _ _ _ _ H) as [(a & s1 & H1 & H2) | (e & H1 & H2)];
      clear H;
      [ run_keep H1; run_keep H2
      | first [ discriminate H2 | subst o; run_keep H1 | injection H2 as H2; subst; run_keep H1 ] ]
  | mtry ?r ?s = (?o, ?s') =>
      apply mtry_inv in H; destruct H as [? H]; subst s'; keep_cases H
  | mcheck ?r ?s = _ => unfold mcheck in H; run_keep H
  | mverify ?c ?e ?s = (?o, ?s') =>
      apply mverify_inv in H; destruct H as [? H]; subst s';
      unfold overify in H; destruct c eqn:?;
      (discriminate H || (injection H as H; try subst))
  | mdo ?f ?s = _ => unfold mdo in H; injection H as ? ?; subst
  | mget ?s = _ => unfold mget in H; injection H as ? ?; subst
  | mret ?a ?s = _ => unfold mret in H; injection H as ? ?; subst
  | mexit ?e ?s = _ => unfold mexit in H; (discriminate H || (injection H as ? ?; subst))
  | mlift ?x ?s = _ => unfold mlift in H; injection H as ? ?; subst
  | mcall ?f ?s = (?o, ?s') =>
      let err := fresh "err" in
      let H1 := fresh "Hcall" in
      apply mcall_inv in H; destruct H as (err & H1 & H);
      match type of H with
      | otry _ = Done _ =>
          apply otry_Done in H; cbn [fst snd] in H; destruct H as [H _]; subst err
      | otry _ = Exit _ =>
          apply otry_Exit in H; cbn [fst snd] in H;
          let Hne := fresh "Hne" in destruct H as [H Hne]; subst err
      | otry _ = ?o' =>
          destruct o' as [? | ?];
          [ apply otry_Done in H; cbn [fst snd] in H; destruct H as [H _]; subst err
          | apply otry_Exit in H; cbn [fst snd] in H;
            let Hne := fresh "Hne" in destruct H as [H Hne]; subst err ]
      end
  | DRBG _ _ _ = _ => unfold DRBG in H; run_keep H
  | verifyTagNum _ _ _ = _ => unfold verifyTagNum in H; run_keep H
  | Validate_and_RetrieveResponderID _ _ _ _ = _ =>
      unfold Validate_and_RetrieveResponderID in H; run_keep H
  | readTBECertificates _ _ = _ => unfold readTBECertificates in H; run_keep H
  | readTBESignature _ _ _ = _ => unfold readTBESignature in H; run_keep H
  | HandleSigma1_parsed _ _ _ = _ => unfold HandleSigma1_parsed in H; run_keep H
  | HandleSigma1_fullHandshake _ _ _ _ _ = _ =>
      unfold HandleSigma1_fullHandshake in H; run_keep H
  | (match ?x with _ => _ end) ?s = _ => destruct x eqn:?; run_keep H
  | _ => idtac
  end.

Section Lifecycle.
Variable E : Collaborators.

(** The reader calls of a handler on a decoded message. *)
Ltac reader_steps :=
  cbn [TLVReader_Init TLVReader_NextTypeTag TLVReader_NextTag TLVReader_Next
       TLVReader_EnterContainer TLVReader_GetTag TLVReader_GetType
       TLVReader_GetLength TLVReader_GetBytes TLVReader_GetByteView
       TLVReader_Get_uint16 rdElem rdAhead rdOuter elemTag elemType
       Tag_eqb TLVType_eqb isNoError negb fst snd otry overify errOf].

Ltac body_steps :=
  unfold verifyTagNum, mcheck;
  unfold runM, mbind, mtry, mverify, mdo, mget, mret, otry, overify;
  reader_steps.

Ltac writer_steps :=
  repeat match goal with
  | H : TLVWriter_StartContainer _ _ = (CHIP_NO_ERROR, _) |- _ =>
      apply TLVWriter_StartContainer_ok in H; subst
  | H : TLVWriter_Put _ _ _ = (CHIP_NO_ERROR, _) |- _ =>
      apply TLVWriter_Put_ok in H; subst
  | H : TLVWriter_EndContainer _ _ = (CHIP_NO_ERROR, _) |- _ =>
      apply TLVWriter_EndContainer_ok in H; subst
  | H : TLVWriter_Finalize _ _ = (CHIP_NO_ERROR, _) |- _ =>
      apply TLVWriter_Finalize_ok in H; subst
  end.

Ltac leaf_calls :=
  repeat match goal with
  | H : AddData _ _ _ = (CHIP_NO_ERROR, _) |- _ => apply AddData_ok in H; subst
  | H : AddData _ _ _ = (?e, _), Hne : ?e <> CHIP_NO_ERROR |- _ =>
      apply AddData_fail in H; [ subst | assumption ]
  | H : SendMessage _ _ _ _ _ = (_, _) |- _ => apply SendMessage_inv in H; subst
  end.

(** The branches of an execution that leave with an error, in a run known
    to have returned [CHIP_NO_ERROR]. *)
Ltac not_left Ho :=
  try (cbn [errOf] in Ho; congruence).

Lemma Clear_obs s :
  mState (Clear E s) = kInitialized /\
  mCASESessionEstablished (Clear E s) = false /\
  mCommissioningHash (Clear E s) = [] /\
  mExchangeCtxt (Clear E s) = None /\
  trace (Clear E s) = trace s ++ closing s.
Proof.
  unfold Clear, CloseExchange, closing. session_simpl.
  destruct (mExchangeCtxt s) eqn:Hx; session_simpl;
    (split; [ | split; [ | split; [ | split ] ] ]);
    first [ reflexivity | assumption | symmetry; apply app_nil_r ].
Qed.

Lemma Init_eq localSessionId delegate s :
  Init E localSessionId delegate s
  = match delegate with
    | None => (CHIP_ERROR_INVALID_ARGUMENT, s)
    | Some _ =>
        if isNoError (Hash_Begin E)
        then (CHIP_NO_ERROR, initialSession E localSessionId delegate s)
        else (Hash_Begin E, Clear E s)
    end.
Proof.
  unfold Init, runM, mbind, mverify, overify, mdo, mcheck, mtry, otry, mret.
  destruct delegate; cbn [fst snd]; [ | reflexivity ].
  destruct (isNoError (Hash_Begin E)); reflexivity.
Qed.

Lemma EstablishSession_eq peerAddress fabric peerNodeId localSessionId ec delegate s :
  fabric <> None ->
  EstablishSession E peerAddress fabric peerNodeId localSessionId (Some ec) delegate s
  = let '(err, s1) := Init E localSessionId delegate s in
    let s1 := set_mExchangeCtxt (Some ec) s1 in
    if negb (isNoError err) then (err, Clear E s1)
    else
      let s2 := SetPeerNodeId peerNodeId
                  (SetPeerAddress peerAddress
                     (emit (EvSetResponseTimeout ec kSigma_Response_Timeout)
                        (set_mFabricInfo fabric s1))) in
      let '(err, s3) := SendSigma1 E s2 in
      if negb (isNoError err) then (err, Clear E s3) else (err, s3).
Proof.
  intros Hf. unfold EstablishSession. cbn [isNull].
  destruct fabric as [f|]; [ | contradiction ]. cbn [isNull].
  unfold runM, mbind, mdo, mcheck, mtry, mcall, mret.
  destruct (Init E localSessionId delegate s) as [err s1].
  unfold otry. cbn [fst snd].
  destruct (isNoError err) eqn:Hok; cbn [negb errOf].
  - session_simpl.
    destruct (SendSigma1 E _) as [err2 s3]. cbn [fst snd].
    destruct (isNoError err2) eqn:Hok2; cbn [negb errOf].
    + apply isNoError_true in Hok2. subst err2. reflexivity.
    + rewrite Hok2. reflexivity.
  - rewrite Hok. reflexivity.
Qed.

Lemma EstablishSession_ok peerAddress fabric peerNodeId localSessionId exchangeCtxt
  delegate s s' :
  EstablishSession E peerAddress fabric peerNodeId localSessionId exchangeCtxt
    delegate s = (CHIP_NO_ERROR, s') ->
  exists ec,
    exchangeCtxt = Some ec /\ fabric <> None /\ delegate <> None /\
    SendSigma1 E (initiatorStart E peerAddress fabric peerNodeId localSessionId ec
                    delegate s)
    = (CHIP_NO_ERROR, s').
Proof.
  intros H.
  destruct exchangeCtxt as [ec|];
    [ | unfold EstablishSession in H; cbn [isNull] in H; discriminate H ].
  destruct fabric as [f|];
    [ | unfold EstablishSession in H; cbn [isNull] in H; discriminate H ].
  rewrite EstablishSession_eq in H by discriminate.
  rewrite Init_eq in H.
  destruct delegate as [d|]; [ | cbn in H; discriminate H ].
  destruct (isNoError (Hash_Begin E)) eqn:Hb; cbn [negb isNoError] in H;
    [ | rewrite Hb in H; cbn [negb] in H; injection H as H _;
        rewrite H in Hb; discriminate Hb ].
  fold (initiatorStart E peerAddress (Some f) peerNodeId localSessionId ec (Some d) s)
    in H.
  destruct (SendSigma1 E _) as [err s3] eqn:Hs.
  destruct (isNoError err) eqn:Hok; cbn [negb] in H;
    [ | injection H as H _; rewrite H in Hok; discriminate Hok ].
  injection H as -> ->.
  exists ec. repeat split; first [ discriminate | reflexivity | exact Hs ].
Qed.

Lemma SendSigma1_ok s s' :
  SendSigma1 E s = (CHIP_NO_ERROR, s') ->
  exists ephemeralKey random fabricInfo destinationIdentifier optional,
    P256Keypair_Initialize E (mEphemeralKey s) = (CHIP_NO_ERROR, ephemeralKey) /\
    DRBG_get_bytes E (drbgCalls s) kSigmaParamRandomNumberSize
    = (CHIP_NO_ERROR, random) /\
    mFabricInfo s = Some fabricInfo /\
    GenerateDestinationID E fabricInfo (memcpy (mIPK s) (GetIPKList E) kIPKSize)
      random (GetPeerNodeId s) = (CHIP_NO_ERROR, destinationIdentifier) /\
    (if mCASESessionEstablished s
     then exists resumeMIC,
         optional = [TLVByteString (ContextTag 6)
                       (firstn kCASEResumptionIDSize (mResumptionId s));
                     TLVByteString (ContextTag 7) resumeMIC]
     else optional = []) /\
    let msg_R1 :=
      TLV_encode E
        (Sigma1Message random (GetLocalSessionId s) destinationIdentifier
           (keypairPubkey ephemeralKey) optional) in
    s' = emit EvOnSessionEstablishmentStarted
           (emit (EvSendMessage (mExchangeCtxt s) CASE_Sigma1 msg_R1 true)
              (set_mState kSentSigma1
                 (set_mCommissioningHash (mCommissioningHash s ++ [msg_R1])
                    (set_mIPK (memcpy (mIPK s) (GetIPKList E) kIPKSize)
                       (set_mInitiatorRandom random
                          (set_drbgCalls (S (drbgCalls s))
                             (set_mEphemeralKey ephemeralKey s))))))).
Proof.
  unfold SendSigma1. intros H. apply runM_inv in H. destruct H as (o & H & Ho).
  run_keep H; not_left Ho; writer_steps; leaf_calls.
  all: match goal with
       | Hf : mFabricInfo _ = Some ?f, He : mCASESessionEstablished _ = _ |- _ =>
           session_simpl_in Hf; session_simpl_in He
       end.
  all: do 5 eexists.
  all: repeat (split; [ eassumption | ]).
  all: match goal with
       | He : mCASESessionEstablished _ = _ |- _ => rewrite He
       end.
  all: (split; [ try (eexists; reflexivity); reflexivity | ]).
  all: reflexivity.
Qed.

Lemma ListenForSessionEstablishment_ok localSessionId fabrics delegate s s' :
  ListenForSessionEstablishment E localSessionId fabrics delegate s
  = (CHIP_NO_ERROR, s') ->
  fabrics <> None /\ delegate <> None /\
  s' = set_mCASESessionEstablished false
         (set_mFabricsTable fabrics (initialSession E localSessionId delegate s)).
Proof.
  unfold ListenForSessionEstablishment, runM, mbind, mverify, overify, mcall, mdo, mret.
  rewrite Init_eq.
  destruct fabrics; [ | cbn; discriminate ].
  destruct delegate; [ | cbn; discriminate ].
  destruct (isNoError (Hash_Begin E)) eqn:Hb; unfold otry; cbn [fst snd isNoError errOf].
  - intros H. injection H as <-. repeat split; discriminate.
  - rewrite Hb. cbn [errOf]. intros H. injection H as H _. rewrite H in Hb. discriminate.
Qed.

Lemma closedOf_app a b : closedOf (a ++ b) = closedOf a ++ closedOf b.
Proof.
  induction a as [|ev a IH]; cbn; [reflexivity|].
  destruct ev; cbn; rewrite IH; reflexivity.
Qed.

Lemma SendSigma1_trace s err s' :
  SendSigma1 E s = (err, s') ->
  mExchangeCtxt s' = mExchangeCtxt s /\
  exists evs,
    trace s' = trace s ++ evs /\
    closedOf evs = [] /\ errorsOf evs = [] /\ statusReportsOf evs = [].
Proof.
  unfold SendSigma1. intros H. apply runM_inv in H. destruct H as (o & H & ->).
  run_body H; leaf_calls; session_simpl;
    (split; [ reflexivity | ]); eexists;
    (split; [ solve_app | repeat split; reflexivity ]).
Qed.

(** X9. [ListenForSessionEstablishment] refuses a null fabric table or a
    null delegate with [CHIP_ERROR_INVALID_ARGUMENT] and leaves the session
    as it was.  When the hash cannot be begun it hands back that error on
    a cleared session.  Otherwise it succeeds and leaves a session in
    state [kInitialized] that is not established, holds no exchange, has
    an empty transcript and holds the given table, delegate and local
    session id; the exchange the session held before has been closed. *)
Theorem ListenForSessionEstablishment_ready (localSessionId : Z)
  (fabrics : option FabricTable) (delegate : option SessionEstablishmentDelegate)
  (s : CASESession) :
  let r := ListenForSessionEstablishment E localSessionId fabrics delegate s in
  (fabrics = None \/ delegate = None -> r = (CHIP_ERROR_INVALID_ARGUMENT, s)) /\
  (fabrics <> None -> delegate <> None -> Hash_Begin E <> CHIP_NO_ERROR ->
   r = (Hash_Begin E, Clear E s)) /\
  (fabrics <> None -> delegate <> None -> Hash_Begin E = CHIP_NO_ERROR ->
   fst r = CHIP_NO_ERROR /\
   mState (snd r) = kInitialized /\
   mCASESessionEstablished (snd r) = false /\
   mExchangeCtxt (snd r) = None /\
   mCommissioningHash (snd r) = [] /\
   mFabricsTable (snd r) = fabrics /\
   mDelegate (snd r) = delegate /\
   GetLocalSessionId (snd r) = localSessionId /\
   trace (snd r) = trace s ++ closing s).
Proof.
  intros r. subst r.
  unfold ListenForSessionEstablishment, runM, mbind, mverify, overify, mcall, mdo, mret.
  rewrite Init_eq.
  split; [ | split ].
  - intros [-> | ->]; [ reflexivity | ].
    destruct fabrics; reflexivity.
  - intros Hf Hd Hb.
    destruct fabrics; [ | contradiction ]. destruct delegate; [ | contradiction ].
    destruct (isNoError (Hash_Begin E)) eqn:Hok.
    + apply isNoError_true in Hok. contradiction.
    + unfold otry. cbn [fst snd]. rewrite Hok. reflexivity.
  - intros Hf Hd Hb.
    destruct fabrics; [ | contradiction ]. destruct delegate; [ | contradiction ].
    rewrite Hb. cbn [isNoError otry fst snd errOf].
    destruct (Clear_obs s) as (Hst & Hest & Hh & Hx & Ht).
    unfold initialSession, GetLocalSessionId. session_simpl.
    repeat split; try reflexivity; assumption.
Qed.

(** X10. When [EstablishSession], called with a fabric and an exchange,
    fails, the session is back in state [kInitialized], not established,
    with an empty transcript and no exchange, and the last thing it did
    was to close the exchange it was given.  It reported nothing to the
    delegate and sent no status report.  The exchange the session held
    before the call was closed first, except when the delegate is null:
    then it is overwritten without being closed. *)
Theorem EstablishSession_failure_closes_exchange
  (peerAddress : PeerAddress) (fabric : FabricInfo) (peerNodeId : NodeId)
  (localSessionId : Z) (ec : ExchangeContext)
  (delegate : option SessionEstablishmentDelegate) (s : CASESession) :
  let r := EstablishSession E peerAddress (Some fabric) peerNodeId localSessionId
             (Some ec) delegate s in
  fst r <> CHIP_NO_ERROR ->
  mState (snd r) = kInitialized /\
  mCASESessionEstablished (snd r) = false /\
  mCommissioningHash (snd r) = [] /\
  mExchangeCtxt (snd r) = None /\
  exists evs,
    trace (snd r)
    = trace s ++ (match delegate with Some _ => closing s | None => [] end)
      ++ evs ++ [EvExchangeClose ec] /\
    closedOf evs = [] /\ errorsOf evs = [] /\ statusReportsOf evs = [].
Proof.
  intros r. subst r. rewrite EstablishSession_eq by discriminate.
  rewrite Init_eq.
  destruct delegate as [d|].
  - destruct (isNoError (Hash_Begin E)) eqn:Hb; cbn [negb isNoError].
    + destruct (SendSigma1 E _) as [err s3] eqn:Hs.
      destruct (isNoError err) eqn:Hok; cbn [negb fst snd].
      * apply isNoError_true in Hok. contradiction.
      * intros _.
        destruct (Clear_obs s3) as (Hst & Hest & Hh & Hx & Ht).
        rewrite Hst, Hest, Hh, Hx, Ht.
        repeat (split; [ reflexivity | ]).
        apply SendSigma1_trace in Hs.
        destruct Hs as (Hx3 & evs & Ht3 & Hc & He & Hr).
        unfold closing at 1. rewrite Hx3, Ht3. unfold initialSession.
        session_simpl.
        destruct (Clear_obs s) as (_ & _ & _ & _ & Ht0). rewrite Ht0.
        exists (EvSetResponseTimeout ec kSigma_Response_Timeout :: evs).
        cbn [closedOf errorsOf statusReportsOf].
        repeat rewrite <- app_assoc. cbn [app].
        repeat split; first [ reflexivity | assumption ].
    + rewrite Hb. cbn [negb fst snd]. intros _.
      destruct (Clear_obs (set_mExchangeCtxt (Some ec) (Clear E s)))
        as (Hst & Hest & Hh & Hx & Ht).
      rewrite Hst, Hest, Hh, Hx, Ht.
      repeat (split; [ reflexivity | ]).
      destruct (Clear_obs s) as (_ & _ & _ & _ & Ht0).
      exists []. session_simpl. rewrite Ht0. unfold closing at 2. session_simpl.
      rewrite <- app_assoc. repeat split; reflexivity.
  - cbn [negb isNoError fst snd]. intros _.
    destruct (Clear_obs (set_mExchangeCtxt (Some ec) s))
      as (Hst & Hest & Hh & Hx & Ht).
    rewrite Hst, Hest, Hh, Hx, Ht.
    repeat (split; [ reflexivity | ]).
    exists []. session_simpl. unfold closing. session_simpl.
    repeat split; reflexivity.
Qed.

(** X11. When [EstablishSession] succeeds, all three pointers were given,
    the session is in state [kSentSigma1], holds the given exchange,
    fabric, delegate and ids, and its transcript is the one Sigma1 it
    sent.  That Sigma1 never carries a resumption id or a MIC, whether or
    not the session was established before the call: [Init] clears the
    flag before [SendSigma1] reads it.  The session set the response
    timeout, sent Sigma1 expecting a response, and told the delegate that
    the establishment started, in this order. *)
Theorem EstablishSession_sends_Sigma1_without_resumption
  (peerAddress : PeerAddress) (fabric : option FabricInfo) (peerNodeId : NodeId)
  (localSessionId : Z) (exchangeCtxt : option ExchangeContext)
  (delegate : option SessionEstablishmentDelegate) (s s' : CASESession) :
  EstablishSession E peerAddress fabric peerNodeId localSessionId exchangeCtxt
    delegate s = (CHIP_NO_ERROR, s') ->
  exists ec fabricInfo destinationIdentifier,
    exchangeCtxt = Some ec /\ fabric = Some fabricInfo /\ delegate <> None /\
    mState s' = kSentSigma1 /\
    mCASESessionEstablished s' = false /\
    mExchangeCtxt s' = Some ec /\
    mFabricInfo s' = Some fabricInfo /\
    mDelegate s' = delegate /\
    GetLocalSessionId s' = localSessionId /\
    GetPeerNodeId s' = peerNodeId /\
    GenerateDestinationID E fabricInfo (mIPK s') (mInitiatorRandom s') peerNodeId
    = (CHIP_NO_ERROR, destinationIdentifier) /\
    let msg_R1 :=
      TLV_encode E
        (Sigma1Message (mInitiatorRandom s') localSessionId destinationIdentifier
           (keypairPubkey (mEphemeralKey s')) []) in
    mCommissioningHash s' = [msg_R1] /\
    trace s'
    = trace s ++ closing s
      ++ [EvSetResponseTimeout ec kSigma_Response_Timeout;
          EvSendMessage (Some ec) CASE_Sigma1 msg_R1 true;
          EvOnSessionEstablishmentStarted].
Proof.
  intros H.
  destruct exchangeCtxt as [ec|];
    [ | unfold EstablishSession in H; cbn [isNull] in H; discriminate H ].
  destruct fabric as [f|];
    [ | unfold EstablishSession in H; cbn [isNull] in H; discriminate H ].
  rewrite EstablishSession_eq in H by discriminate.
  rewrite Init_eq in H.
  destruct delegate as [d|]; [ | cbn in H; discriminate H ].
  destruct (isNoError (Hash_Begin E)) eqn:Hb; cbn [negb isNoError] in H;
    [ | rewrite Hb in H; cbn [negb] in H; injection H as H _;
        rewrite H in Hb; discriminate Hb ].
  destruct (SendSigma1 E _) as [err s3] eqn:Hs.
  destruct (isNoError err) eqn:Hok; cbn [negb] in H;
    [ | injection H as H _; rewrite H in Hok; discriminate Hok ].
  injection H as -> ->.
  apply SendSigma1_ok in Hs.
  destruct Hs as (key & random & f' & dest & optional & Hkey & Hrand & Hf & Hdest
                  & Hopt & Hs).
  destruct (Clear_obs s) as (Hst & Hest & Hh & Hx & Ht).
  unfold initialSession in *. session_simpl_in Hf. injection Hf as <-.
  session_simpl_in Hopt. rewrite Hest in Hopt. subst optional.
  unfold GetLocalSessionId, GetPeerNodeId in *. session_simpl_in Hs.
  session_simpl_in Hdest.
  exists ec, f, dest. subst s'. session_simpl.
  rewrite ?Hh, ?Ht.
  repeat (split; [ first [ reflexivity | discriminate | assumption ] | ]).
  cbn [app]. repeat rewrite <- app_assoc. reflexivity.
Qed.

(** X12. [OnResponseTimeout] does nothing for a null exchange or for an
    exchange other than the one the session holds.  For the exchange the
    session holds it reports [CHIP_ERROR_TIMEOUT] to the delegate and
    clears the session; this is all it does: the exchange is dropped
    without [Close()] being called on it. *)
Theorem OnResponseTimeout_notifies_and_clears (ec : option ExchangeContext)
  (s : CASESession) :
  (ec = None \/ mExchangeCtxt s <> ec -> OnResponseTimeout E ec s = s) /\
  (ec <> None -> mExchangeCtxt s = ec ->
   trace (OnResponseTimeout E ec s)
   = trace s ++ [EvOnSessionEstablishmentError CHIP_ERROR_TIMEOUT] /\
   mState (OnResponseTimeout E ec s) = kInitialized /\
   mCASESessionEstablished (OnResponseTimeout E ec s) = false /\
   mCommissioningHash (OnResponseTimeout E ec s) = [] /\
   mExchangeCtxt (OnResponseTimeout E ec s) = None).
Proof.
  unfold OnResponseTimeout. split.
  - intros [-> | Hne]; [ reflexivity | ].
    destruct ec as [e|]; [ | reflexivity ].
    destruct (ExchangeContext_eqb (mExchangeCtxt s) (Some e)) eqn:Heq;
      [ | reflexivity ].
    apply ExchangeContext_eqb_eq in Heq. contradiction.
  - intros Hec Hx. destruct ec as [e|]; [ | contradiction ].
    rewrite Hx, ExchangeContext_eqb_refl. cbn [negb].
    destruct (Clear_obs (set_mExchangeCtxt None
                           (emit (EvOnSessionEstablishmentError CHIP_ERROR_TIMEOUT) s)))
      as (Hst & Hest & Hh & Hxc & Ht).
    rewrite Hst, Hest, Hh, Hxc, Ht. unfold closing. session_simpl.
    rewrite app_nil_r. repeat split; reflexivity.
Qed.

Lemma Clear_keyMaterial s : keyMaterial (Clear E s) = keyMaterial s.
Proof.
  unfold keyMaterial, Clear, CloseExchange. session_simpl.
  destruct (mExchangeCtxt s); reflexivity.
Qed.

Lemma ValidateReceivedMessage_keyMaterial ec msgType msg s :
  keyMaterial (snd (ValidateReceivedMessage ec msgType msg s)) = keyMaterial s.
Proof.
  destruct (ValidateReceivedMessage ec msgType msg s) as [err s1] eqn:H.
  unfold ValidateReceivedMessage in H.
  apply runM_inv in H. destruct H as (o & H & ->).
  cbn [snd]. run_body H; try destruct ec; reflexivity.
Qed.

(** X13. [Clear] leaves the shared secret, the ephemeral key pair, the
    IPK, the resumption id and the message digest of the session as they
    are.  So do [OnResponseTimeout], and [OnMessageReceived] for a message
    that has no handler in the state of the session. *)
Theorem Clear_keeps_key_material (s : CASESession) :
  keyMaterial (Clear E s) = keyMaterial s /\
  (forall ec, keyMaterial (OnResponseTimeout E ec s) = keyMaterial s) /\
  (forall ec msgType msg,
     hasHandler (mState s) msgType = false ->
     keyMaterial (snd (OnMessageReceived E ec msgType msg s)) = keyMaterial s).
Proof.
  split; [ apply Clear_keyMaterial | split ].
  - intros ec. unfold OnResponseTimeout.
    destruct ec; [ | reflexivity ].
    destruct (negb _); [ reflexivity | ].
    rewrite Clear_keyMaterial. reflexivity.
  - intros ec msgType msg Hno.
    pose proof (ValidateReceivedMessage_keyMaterial ec msgType msg s) as Hv.
    destruct (ValidateReceivedMessage ec msgType msg s) as [err s1] eqn:Hval.
    pose proof (ValidateReceivedMessage_obs ec msgType msg s err s1 Hval) as [_ Hst].
    cbn [snd] in Hv.
    destruct (isNoError err) eqn:Hok.
    + unfold OnMessageReceived. rewrite Hval, Hok. cbn [negb]. rewrite Hst.
      destruct (mState s), msgType; try discriminate Hno;
        cbn [negb isNoError snd]; unfold keyMaterial; session_simpl;
        fold (keyMaterial (Clear E (set_mExchangeCtxt None s1)));
        rewrite Clear_keyMaterial; exact Hv.
    + apply isNoError_false in Hok.
      rewrite (OnMessageReceived_refused E ec msgType msg s err s1 Hval Hok).
      cbn [snd]. unfold abortSession, keyMaterial. session_simpl.
      fold (keyMaterial (Clear E (set_mExchangeCtxt None s1))).
      rewrite Clear_keyMaterial. exact Hv.
Qed.

(** X14. A Sigma1 that parses and is not answered by a resumption, at a
    session whose fabric table has no candidate for the destination id, is
    refused with [CHIP_ERROR_KEY_NOT_FOUND]: the session sends a status
    report with [kProtocolCodeNoSharedRoot] and its state is set to
    [kInitialized].  The message has been added to the transcript, and the
    peer session id and the IPK have been taken over. *)
Theorem HandleSigma1_unknown_destination (msg : list byte) (p : Sigma1Params)
  (fabricsTable : FabricTable) (s : CASESession) :
  Hash_AddData E (mCommissioningHash s) msg = CHIP_NO_ERROR ->
  ParseSigma1 (TLVReader_Init (TLV_decode E msg)) = Done p ->
  (resumptionRequested p = false \/
   data_equal (resumptionId p) (mResumptionId s) = false \/
   ValidateSigmaResumeMIC E s (initiatorResumeMIC p) (initiatorRandom p)
     (resumptionId p) kKDFS1RKeyInfo kResume1MIC_Nonce <> CHIP_NO_ERROR) ->
  mFabricsTable s = Some fabricsTable ->
  FindDestinationIDCandidate E fabricsTable (destinationId p) (initiatorRandom p)
    (GetIPKList E) (GetIPKListEntries E) = kUndefinedFabricIndex E ->
  HandleSigma1 E msg s
  = (CHIP_ERROR_KEY_NOT_FOUND,
     set_mState kInitialized
       (SendStatusReport (mExchangeCtxt s) kProtocolCodeNoSharedRoot
          (set_mIPK (memcpy (mIPK s) (GetIPKList E) kIPKSize)
             (SetPeerSessionId (initiatorSessionId p)
                (set_mCommissioningHash (mCommissioningHash s ++ [msg]) s))))).
Proof.
  intros Hadd Hparse Hres Hft Hfind.
  unfold HandleSigma1, runM.
  unfold mbind at 1. unfold mcall, AddData. rewrite Hadd.
  cbn [isNoError otry fst snd].
  unfold mbind at 1. unfold mlift. rewrite Hparse.
  rewrite HandleSigma1_parsed_fallback.
  - unfold HandleSigma1_fullHandshake.
    unfold mbind at 1. unfold mdo at 1.
    unfold mbind at 1. unfold mget at 1.
    session_simpl. rewrite Hft.
    unfold mbind at 1. unfold mverify, overify. rewrite Hfind, Z.eqb_refl.
    cbn [negb errOf]. unfold HandleSigma1_exit. cbn [isKeyNotFound].
    session_simpl. reflexivity.
  - session_simpl.
    destruct Hres as [Hres | [Hres | Hres]]; [ auto | auto | ].
    right. right.
    rewrite (ValidateSigmaResumeMIC_secret E _ s); [ exact Hres | reflexivity ].
Qed.

(** After a symbolic execution of a body whose function returned
    [CHIP_NO_ERROR] through its exit block [H]: the runs that left with an
    error are closed, the other ones have their final state named. *)
Ltac exit_ok H :=
  cbn [errOf isNoError negb] in H;
  try discriminate H;
  try (destruct (isNoError _) eqn:Hn in H; cbn [negb] in H;
       [ apply isNoError_true in Hn; congruence
       | injection H as H _; congruence ]);
  injection H as <-.

Ltac effective_time :=
  repeat match goal with
  | Hs : SetEffectiveTime _ _ = _ |- _ =>
      apply SetEffectiveTime_inv in Hs; destruct Hs as [Hs | [? Hs]]; subst
  end.

Ltac digest_hyp :=
  repeat match goal with
  | Hf : Hash_Finish _ _ = _ |- _ => progress session_simpl_in Hf
  end.

Lemma HandleSigma3_ok msg s s' :
  HandleSigma3 E msg s = (CHIP_NO_ERROR, s') ->
  mState s' = mState s /\
  mCommissioningHash s' = mCommissioningHash s ++ [msg] /\
  Hash_Finish E (mCommissioningHash s ++ [msg]) = (CHIP_NO_ERROR, mMessageDigest s').
Proof.
  unfold HandleSigma3. destruct (runM _ s) as [err1 s1] eqn:Hb. intros H.
  apply runM_inv in Hb. destruct Hb as (o & Hb & ->).
  run_keep Hb; leaf_calls; exit_ok H; effective_time; session_simpl; digest_hyp;
    repeat split; try reflexivity; assumption.
Qed.

Lemma HandleSigma2_ok msg s s' :
  HandleSigma2 E msg s = (CHIP_NO_ERROR, s') ->
  mState s' = mState s /\
  mCommissioningHash s' = mCommissioningHash s ++ [msg] /\
  trace s' = trace s.
Proof.
  unfold HandleSigma2. destruct (runM _ s) as [err1 s1] eqn:Hb. intros H.
  apply runM_inv in Hb. destruct Hb as (o & Hb & ->).
  run_body Hb; leaf_calls; exit_ok H; effective_time; session_simpl;
    repeat split; reflexivity.
Qed.

Lemma SendSigma3_ok s s' :
  SendSigma3 E s = (CHIP_NO_ERROR, s') ->
  mState s' = kSentSigma3 /\
  exists msg_R3,
    mCommissioningHash s' = mCommissioningHash s ++ [msg_R3] /\
    trace s' = trace s ++ [EvSendMessage (mExchangeCtxt s) CASE_Sigma3 msg_R3 true] /\
    Hash_Finish E (mCommissioningHash s ++ [msg_R3])
    = (CHIP_NO_ERROR, mMessageDigest s').
Proof.
  unfold SendSigma3. destruct (runM _ s) as [err1 s1] eqn:Hb. intros H.
  apply runM_inv in Hb. destruct Hb as (o & Hb & ->).
  run_keep Hb; leaf_calls; exit_ok H; session_simpl; digest_hyp;
    (split; [ reflexivity | ]); eexists;
    (split; [ reflexivity | split; [ reflexivity | eassumption ] ]).
Qed.

Lemma SendSigma2_ok s s' :
  SendSigma2 E s = (CHIP_NO_ERROR, s') ->
  mState s' = kSentSigma2 /\
  exists msg_R2,
    mCommissioningHash s' = mCommissioningHash s ++ [msg_R2] /\
    trace s' = trace s ++ [EvSendMessage (mExchangeCtxt s) CASE_Sigma2 msg_R2 true].
Proof.
  unfold SendSigma2. intros H. apply runM_inv in H. destruct H as (o & H & Ho).
  run_body H; not_left Ho; leaf_calls; session_simpl;
    (split; [ reflexivity | ]); eexists; split; reflexivity.
Qed.

Lemma SendSigma2Resume_ok initiatorRandom s s' :
  SendSigma2Resume E initiatorRandom s = (CHIP_NO_ERROR, s') ->
  mState s' = kSentSigma2Resume /\
  mCommissioningHash s' = mCommissioningHash s /\
  exists msg_R2_resume,
    trace s'
    = trace s ++ [EvSendMessage (mExchangeCtxt s) CASE_Sigma2Resume msg_R2_resume true].
Proof.
  unfold SendSigma2Resume. intros H. apply runM_inv in H. destruct H as (o & H & Ho).
  run_body H; not_left Ho; leaf_calls; session_simpl;
    (split; [ reflexivity | split; [ reflexivity | ] ]); eexists; reflexivity.
Qed.

Lemma HandleSigma2Resume_ok msg s s' :
  HandleSigma2Resume E msg s = (CHIP_NO_ERROR, s') ->
  mState s' = mState s /\ mCommissioningHash s' = mCommissioningHash s.
Proof.
  unfold HandleSigma2Resume. destruct (runM _ s) as [err1 s1] eqn:Hb. intros H.
  apply runM_inv in Hb. destruct Hb as (o & Hb & ->).
  run_body Hb; leaf_calls; exit_ok H; session_simpl; split; reflexivity.
Qed.

Lemma HandleSigma1_ok msg s s' :
  HandleSigma1 E msg s = (CHIP_NO_ERROR, s') ->
  (mState s' = kSentSigma2 /\
   exists msg_R2,
     mCommissioningHash s' = mCommissioningHash s ++ [msg; msg_R2] /\
     trace s'
     = trace s ++ [EvSendMessage (mExchangeCtxt s) CASE_Sigma2 msg_R2 true;
                   EvOnSessionEstablishmentStarted]) \/
  (mState s' = kSentSigma2Resume /\
   mCommissioningHash s' = mCommissioningHash s ++ [msg] /\
   exists msg_R2_resume,
     trace s'
     = trace s ++ [EvSendMessage (mExchangeCtxt s) CASE_Sigma2Resume msg_R2_resume true;
                   EvOnSessionEstablishmentStarted]).
Proof.
  unfold HandleSigma1, HandleSigma1_exit.
  destruct (runM _ s) as [err1 s1] eqn:Hb. intros H.
  apply runM_inv in Hb. destruct Hb as (o & Hb & ->).
  run_body Hb; leaf_calls;
    try match goal with
        | Hp : ParseSigma1 _ = Exit _ |- _ => apply ParseSigma1_Exit in Hp
        end;
    repeat match goal with
    | Hs : SendSigma2 _ _ = (CHIP_NO_ERROR, _) |- _ =>
        apply SendSigma2_ok in Hs; destruct Hs as (? & ? & ? & ?)
    | Hs : SendSigma2Resume _ _ _ = (CHIP_NO_ERROR, _) |- _ =>
        apply SendSigma2Resume_ok in Hs; destruct Hs as (? & ? & ? & ?)
    end.
  all: cbn [errOf isNoError isKeyNotFound negb] in H.
  all: try discriminate H.
  all: try (destruct (isKeyNotFound _) eqn:Hk in H;
            [ injection H as H _; subst; discriminate
            | destruct (isNoError _) eqn:Hn in H; cbn [negb] in H;
              [ apply isNoError_true in Hn; congruence
              | injection H as H _; congruence ] ]).
  all: injection H as <-.
  all: session_simpl.
  all: repeat match goal with
       | Hx : mState ?x = _ |- context [mState ?x] => rewrite Hx
       | Hx : mCommissioningHash ?x = _ |- context [mCommissioningHash ?x] => rewrite Hx
       | Hx : trace ?x = _ |- context [trace ?x] => rewrite Hx
       end.
  all: session_simpl.
  all: first [ left; split; [ reflexivity | ]; eexists; split;
               [ rewrite <- app_assoc; reflexivity | rewrite <- app_assoc; reflexivity ]
             | right; split; [ reflexivity | ]; split; [ reflexivity | ];
               eexists; rewrite <- app_assoc; reflexivity ].
Qed.

(** A call of [OnMessageReceived] that returns [CHIP_NO_ERROR] ran the
    handler of the state and the message type on the validated session. *)
Lemma OnMessageReceived_ok ec msgType msg s s' :
  OnMessageReceived E ec msgType msg s = (CHIP_NO_ERROR, s') ->
  exists e payload handler,
    ec = Some e /\ msg = Some payload /\
    (mExchangeCtxt s = None \/ mExchangeCtxt s = Some e) /\
    handlerOf E (mState s) msgType = Some handler /\
    handler payload (validatedSession e s) = (CHIP_NO_ERROR, s').
Proof.
  intros H.
  destruct (isNoError (fst (ValidateReceivedMessage ec msgType msg s))) eqn:Hacc.
  - apply ValidateReceivedMessage_accepted in Hacc.
    destruct Hacc as (e & payload & -> & -> & Hex).
    rewrite (OnMessageReceived_dispatch E e msgType payload s Hex) in H.
    destruct (handlerOf E (mState s) msgType) as [handler|]; [ | discriminate H ].
    exists e, payload, handler.
    destruct (handler payload (validatedSession e s)) as [err s1].
    destruct (isNoError err) eqn:Hok; cbn [negb] in H.
    + injection H as -> ->. auto.
    + injection H as -> _. discriminate Hok.
  - destruct (ValidateReceivedMessage ec msgType msg s) as [err s1] eqn:Hv.
    cbn [fst] in Hacc. apply isNoError_false in Hacc.
    rewrite (OnMessageReceived_refused E ec msgType msg s err s1 Hv Hacc) in H.
    injection H as -> _. contradiction.
Qed.

Lemma validatedSession_trace ec s :
  trace (validatedSession ec s)
  = trace s ++ match mExchangeCtxt s with
               | None => [EvSetResponseTimeout ec kSigma_Response_Timeout]
               | Some _ => []
               end.
Proof.
  unfold validatedSession. destruct (mExchangeCtxt s); session_simpl.
  - symmetry. apply app_nil_r.
  - reflexivity.
Qed.

Lemma SendSigma2Resume_sent initiatorRandom s s' :
  SendSigma2Resume E initiatorRandom s = (CHIP_NO_ERROR, s') ->
  exists resumptionID resumeMIC,
    DRBG_get_bytes E (drbgCalls s) kCASEResumptionIDSize
    = (CHIP_NO_ERROR, resumptionID) /\
    GenerateSigmaResumeMIC E s initiatorRandom resumptionID kKDFS2RKeyInfo
      kResume2MIC_Nonce kTAGSize = (CHIP_NO_ERROR, resumeMIC) /\
    s' = emit (EvSendMessage (mExchangeCtxt s) CASE_Sigma2Resume
                 (TLV_encode E
                    (Sigma2ResumeMessage resumptionID resumeMIC (GetLocalSessionId s)))
                 true)
           (set_mState kSentSigma2Resume
              (set_mResumptionId resumptionID
                 (set_drbgCalls (S (drbgCalls s)) s))).
Proof.
  unfold SendSigma2Resume. intros H. apply runM_inv in H. destruct H as (o & H & Ho).
  run_keep H; not_left Ho; writer_steps; leaf_calls.
  match goal with
  | Hd : DRBG_get_bytes _ _ _ = _, Hg : GenerateSigmaResumeMIC _ _ _ _ _ _ _ = _ |- _ =>
      session_simpl_in Hg; eexists; eexists;
      split; [ exact Hd | split; [ | reflexivity ] ]
  end.
  match goal with
  | Hg : GenerateSigmaResumeMIC _ _ _ _ _ _ _ = _ |- _ => rewrite <- Hg
  end.
  reflexivity.
Qed.

(** X15. A Sigma1 that asks for resumption with the resumption id the
    session holds and a valid MIC, and that [HandleSigma1] handles with
    success, is answered by a Sigma2Resume and nothing else: the session
    takes the peer session id, draws a new resumption id, sends it with
    a MIC made for the initiator random and the new id, and goes to
    [kSentSigma2Resume].  Nothing else of the session changes: no fabric
    is looked up, and the IPK, the remote public key, the ephemeral key
    and the shared secret stay as they are. *)
Theorem HandleSigma1_resumes_without_fabric_lookup (msg : list byte)
  (p : Sigma1Params) (s s' : CASESession) :
  ParseSigma1 (TLVReader_Init (TLV_decode E msg)) = Done p ->
  resumptionRequested p = true ->
  data_equal (resumptionId p) (mResumptionId s) = true ->
  ValidateSigmaResumeMIC E s (initiatorResumeMIC p) (initiatorRandom p)
    (resumptionId p) kKDFS1RKeyInfo kResume1MIC_Nonce = CHIP_NO_ERROR ->
  HandleSigma1 E msg s = (CHIP_NO_ERROR, s') ->
  exists resumptionID resumeMIC,
    DRBG_get_bytes E (drbgCalls s) kCASEResumptionIDSize
    = (CHIP_NO_ERROR, resumptionID) /\
    GenerateSigmaResumeMIC E s (initiatorRandom p) resumptionID kKDFS2RKeyInfo
      kResume2MIC_Nonce kTAGSize = (CHIP_NO_ERROR, resumeMIC) /\
    s' = emit EvOnSessionEstablishmentStarted
           (emit (EvSendMessage (mExchangeCtxt s) CASE_Sigma2Resume
                    (TLV_encode E
                       (Sigma2ResumeMessage resumptionID resumeMIC
                          (GetLocalSessionId s)))
                    true)
              (set_mState kSentSigma2Resume
                 (set_mResumptionId resumptionID
                    (set_drbgCalls (S (drbgCalls s))
                       (SetPeerSessionId (initiatorSessionId p)
                          (set_mCommissioningHash (mCommissioningHash s ++ [msg])
                             s)))))).
Proof.
  intros Hparse Hreq Hid Hmic H.
  unfold HandleSigma1, HandleSigma1_exit in H.
  destruct (runM _ s) as [err1 s1] eqn:Hb.
  apply runM_inv in Hb. destruct Hb as (o & Hb & ->).
  unfold mbind at 1 in Hb.
  destruct (mcall (AddData E msg) s) as [[[]|e0] s0] eqn:Hadd.
  - apply mcall_inv in Hadd. destruct Hadd as (err & Hadd & Herr).
    apply otry_Done in Herr. cbn [fst] in Herr. destruct Herr as [-> _].
    apply AddData_ok in Hadd. subst s0.
    unfold mbind at 1 in Hb. unfold mlift in Hb. rewrite Hparse in Hb.
    unfold HandleSigma1_parsed in Hb.
    unfold mbind at 1 in Hb. unfold mdo at 1 in Hb.
    unfold mbind at 1 in Hb. unfold mget at 1 in Hb.
    rewrite Hreq in Hb. session_simpl_in Hb. rewrite Hid in Hb. cbn [andb] in Hb.
    rewrite (ValidateSigmaResumeMIC_secret E _ s) in Hb by reflexivity.
    rewrite Hmic in Hb. cbn [isNoError] in Hb.
    unfold mbind at 1 in Hb. unfold mbind at 1 in Hb.
    destruct (mcall (SendSigma2Resume E (initiatorRandom p)) _) as [[[]|e2] s2] eqn:Hsend.
    + apply mcall_inv in Hsend. destruct Hsend as (err & Hsend & Herr).
      apply otry_Done in Herr. cbn [fst] in Herr. destruct Herr as [-> _].
      apply SendSigma2Resume_sent in Hsend.
      destruct Hsend as (rid & mic & Hd & Hg & ->).
      unfold mbind, mdo, mexit in Hb. injection Hb as <- <-.
      cbn [errOf isKeyNotFound isNoError negb] in H. injection H as <-.
      exists rid, mic. session_simpl_in Hd.
      unfold GetLocalSessionId. session_simpl.
      split; [ exact Hd | split; [ | reflexivity ] ].
      rewrite <- Hg. reflexivity.
    + apply mcall_inv in Hsend. destruct Hsend as (err & Hsend & Herr).
      apply otry_Exit in Herr. cbn [fst] in Herr. destruct Herr as [<- Hne].
      injection Hb as <- <-. cbn [errOf] in H.
      destruct (isKeyNotFound e2);
        [ injection H as -> _; contradiction | ].
      destruct (isNoError e2) eqn:Hok; cbn [negb] in H.
      * apply isNoError_true in Hok. contradiction.
      * injection H as -> _. contradiction.
  - apply mcall_inv in Hadd. destruct Hadd as (err & Hadd & Herr).
    apply otry_Exit in Herr. cbn [fst] in Herr. destruct Herr as [<- Hne].
    injection Hb as <- <-. cbn [errOf] in H.
    destruct (isKeyNotFound e0);
      [ injection H as -> _; contradiction | ].
    destruct (isNoError e0) eqn:Hok; cbn [negb] in H.
    * apply isNoError_true in Hok. contradiction.
    * injection H as -> _. contradiction.
Qed.

(** X16. The Sigma2Resume message that [SendSigma2Resume] sends is
    accepted by [HandleSigma2Resume] at an initiator that holds the same
    shared secret and the initiator random, given an AEAD whose decryption
    accepts the tags its encryption makes: the initiator takes over the new
    resumption id and the responder's session id as peer session id, sends
    a status report of success, drops its exchange, marks the session
    established and tells the delegate. *)
Theorem Sigma2Resume_completes_resumption
  (initiatorRandom msg resumeMIC : list byte)
  (responder responder' initiator : CASESession) :
  (forall key ciphertext tag,
     AES_CCM_encrypt E [] [] key kResume2MIC_Nonce kTAGSize
     = (CHIP_NO_ERROR, (ciphertext, tag)) ->
     List.length tag = kTAGSize /\
     fst (AES_CCM_decrypt E [] [] tag key kResume2MIC_Nonce) = CHIP_NO_ERROR) ->
  SendSigma2Resume E initiatorRandom responder = (CHIP_NO_ERROR, responder') ->
  List.length (mResumptionId responder') = kCASEResumptionIDSize ->
  GenerateSigmaResumeMIC E responder initiatorRandom (mResumptionId responder')
    kKDFS2RKeyInfo kResume2MIC_Nonce kTAGSize = (CHIP_NO_ERROR, resumeMIC) ->
  trace responder'
  = trace responder
    ++ [EvSendMessage (mExchangeCtxt responder) CASE_Sigma2Resume msg true] ->
  TLV_decode E msg
  = Sigma2ResumeMessage (mResumptionId responder') resumeMIC
      (GetLocalSessionId responder) ->
  0 <= GetLocalSessionId responder <= 65535 ->
  mSharedSecret initiator = mSharedSecret responder ->
  mInitiatorRandom initiator = initiatorRandom ->
  (List.length (mResumptionId initiator) <= kCASEResumptionIDSize)%nat ->
  exists initiator',
    HandleSigma2Resume E msg initiator = (CHIP_NO_ERROR, initiator') /\
    msg = TLV_encode E (Sigma2ResumeMessage (mResumptionId responder') resumeMIC
                          (GetLocalSessionId responder)) /\
    mResumptionId initiator' = mResumptionId responder' /\
    GetPeerSessionId initiator' = GetLocalSessionId responder /\
    mCASESessionEstablished initiator' = true /\
    mExchangeCtxt initiator' = None /\
    trace initiator'
    = trace initiator
      ++ [EvSendStatusReport (mExchangeCtxt initiator) kProtocolCodeSuccess;
          EvOnSessionEstablished].
Proof.
  intros Haead Hsend Hridlen Hgen Htrace Hdec Hsid Hsecret Hrand Hbuf.
  apply SendSigma2Resume_sent in Hsend.
  destruct Hsend as (rid & mic & Hd & Hg & Hr').
  assert (Hrid : mResumptionId responder' = rid) by (subst responder'; reflexivity).
  rewrite Hrid in *. rewrite Hg in Hgen. injection Hgen as <-.
  assert (Hmsg : msg = TLV_encode E (Sigma2ResumeMessage rid mic
                                       (GetLocalSessionId responder))).
  { subst responder'. session_simpl_in Htrace.
    apply app_inv_head in Htrace. injection Htrace as <-. reflexivity. }
  apply GenerateSigmaResumeMIC_inv in Hg. destruct Hg as (key & c & Hkey & Henc).
  destruct (Haead _ _ _ Henc) as [Hmiclen Hdecrypt].
  assert (Hvalid : ValidateSigmaResumeMIC E initiator mic initiatorRandom rid
                     kKDFS2RKeyInfo kResume2MIC_Nonce = CHIP_NO_ERROR).
  { rewrite (ValidateSigmaResumeMIC_secret E initiator responder _ _ _ _ _ Hsecret).
    apply (ValidateSigmaResumeMIC_of_key E responder _ _ _ _ key); assumption. }
  apply uint16_in_range in Hsid.
  unfold HandleSigma2Resume, Sigma2ResumeMessage in *. rewrite Hdec. body_steps.
  cbn [Z.add TagNumFromTag]. rewrite Hridlen. cbn [Z.eqb Pos.eqb].
  rewrite Nat.eqb_refl. unfold Nat.ltb. cbn [Nat.leb kCASEResumptionIDSize]. reader_steps.
  cbn [Pos.add Pos.succ TagNumFromTag]. rewrite Hmiclen. cbn [Z.eqb Pos.eqb].
  rewrite Nat.eqb_refl. cbn [Nat.leb kTAGSize]. reader_steps.
  rewrite !memcpy_whole by (rewrite ?repeat_length; assumption || reflexivity).
  session_simpl.
  rewrite (ValidateSigmaResumeMIC_secret E _ initiator) by reflexivity.
  rewrite Hrand, Hvalid. reader_steps. cbn [TagNumFromTag Z.eqb Pos.eqb].
  rewrite Hsid. reader_steps.
  eexists. split; [ reflexivity | ].
  unfold GetPeerSessionId. session_simpl.
  repeat split; try reflexivity; try assumption.
  rewrite <- app_assoc. reflexivity.
Qed.

(** X17. [HandleSigma2Resume] writes the resumption id of the message into
    the session before it validates the MIC: a Sigma2Resume with members of
    the right sizes and a MIC that does not validate is refused with the
    error of the validation and a status report of
    [kProtocolCodeInvalidParam], and the session then holds the resumption
    id of the refused message.  It still holds it after [OnMessageReceived]
    has aborted the session. *)
Theorem Sigma2Resume_with_bad_MIC_replaces_resumption_id
  (ec : ExchangeContext) (msg resumptionID resumeMIC : list byte)
  (tag1 tag2 : Tag) (rest : list TLVElement) (s : CASESession) :
  TLV_decode E msg
  = [TLVStructure AnonymousTag
       (TLVByteString tag1 resumptionID :: TLVByteString tag2 resumeMIC :: rest)] ->
  TagNumFromTag tag1 = 1 -> TagNumFromTag tag2 = 2 ->
  List.length resumptionID = kCASEResumptionIDSize ->
  List.length resumeMIC = kTAGSize ->
  (List.length (mResumptionId s) <= kCASEResumptionIDSize)%nat ->
  ValidateSigmaResumeMIC E s resumeMIC (mInitiatorRandom s) resumptionID
    kKDFS2RKeyInfo kResume2MIC_Nonce <> CHIP_NO_ERROR ->
  HandleSigma2Resume E msg s
  = (ValidateSigmaResumeMIC E s resumeMIC (mInitiatorRandom s) resumptionID
       kKDFS2RKeyInfo kResume2MIC_Nonce,
     SendStatusReport (mExchangeCtxt s) kProtocolCodeInvalidParam
       (set_mResumptionId resumptionID s))
  /\
  (mState s = kSentSigma1 -> mExchangeCtxt s = Some ec ->
   fst (OnMessageReceived E (Some ec) CASE_Sigma2Resume (Some msg) s)
   <> CHIP_NO_ERROR /\
   mResumptionId (snd (OnMessageReceived E (Some ec) CASE_Sigma2Resume (Some msg) s))
   = resumptionID).
Proof.
  intros Hdec Ht1 Ht2 Hrid Hmic Hbuf Hbad.
  assert (Hh : HandleSigma2Resume E msg s
               = (ValidateSigmaResumeMIC E s resumeMIC (mInitiatorRandom s)
                    resumptionID kKDFS2RKeyInfo kResume2MIC_Nonce,
                  SendStatusReport (mExchangeCtxt s) kProtocolCodeInvalidParam
                    (set_mResumptionId resumptionID s))).
  { unfold HandleSigma2Resume. rewrite Hdec. body_steps.
    cbn [Z.add]. rewrite Ht1, Hrid. cbn [Z.eqb Pos.eqb]. rewrite Nat.eqb_refl.
    unfold Nat.ltb. cbn [Nat.leb kCASEResumptionIDSize]. reader_steps.
    cbn [Pos.add Pos.succ]. rewrite Ht2, Hmic. cbn [Z.eqb Pos.eqb].
    rewrite Nat.eqb_refl. cbn [Nat.leb kTAGSize]. reader_steps.
    rewrite !memcpy_whole by (rewrite ?repeat_length; assumption || reflexivity).
    session_simpl.
    rewrite (ValidateSigmaResumeMIC_secret E _ s) by reflexivity.
    destruct (isNoError (ValidateSigmaResumeMIC E s resumeMIC (mInitiatorRandom s)
                           resumptionID kKDFS2RKeyInfo kResume2MIC_Nonce)) eqn:Hok.
    - apply isNoError_true in Hok. contradiction.
    - cbn [errOf negb]. rewrite Hok. reflexivity. }
  split; [ exact Hh | ].
  intros Hst Hx.
  rewrite (OnMessageReceived_dispatch E ec CASE_Sigma2Resume msg s (or_intror Hx)).
  rewrite Hst. cbn [handlerOf].
  unfold validatedSession. rewrite Hx. rewrite Hh.
  destruct (isNoError (ValidateSigmaResumeMIC E s resumeMIC (mInitiatorRandom s)
                         resumptionID kKDFS2RKeyInfo kResume2MIC_Nonce)) eqn:Hok.
  - apply isNoError_true in Hok. contradiction.
  - cbn [negb fst snd]. split; [ exact Hbad | ].
    unfold abortSession, Clear, CloseExchange. session_simpl. reflexivity.
Qed.

(** X18. [HandleSigma3] refuses, with a status report of
    [kProtocolCodeInvalidParam] and no other change of the session, a
    message that decodes to nothing ([CHIP_END_OF_TLV]), one whose first
    member has another tag than 1 ([CHIP_ERROR_INVALID_TLV_TAG]) and one
    whose encrypted member has at most the 16 bytes of a tag
    ([CHIP_ERROR_INVALID_TLV_ELEMENT]).  None of them is added to the
    transcript. *)
Theorem HandleSigma3_malformed (msg : list byte) (s : CASESession) :
  (TLV_decode E msg = [] ->
   HandleSigma3 E msg s
   = (CHIP_END_OF_TLV,
      SendStatusReport (mExchangeCtxt s) kProtocolCodeInvalidParam s)) /\
  (forall tag encrypted rest,
     TLV_decode E msg
     = [TLVStructure AnonymousTag (TLVByteString tag encrypted :: rest)] ->
     TagNumFromTag tag <> 1 ->
     HandleSigma3 E msg s
     = (CHIP_ERROR_INVALID_TLV_TAG,
        SendStatusReport (mExchangeCtxt s) kProtocolCodeInvalidParam s)) /\
  (forall tag encrypted rest,
     TLV_decode E msg
     = [TLVStructure AnonymousTag (TLVByteString tag encrypted :: rest)] ->
     TagNumFromTag tag = 1 ->
     ScopedMemoryBuffer_Alloc E (List.length encrypted) = true ->
     (List.length encrypted <= kTAGSize)%nat ->
     HandleSigma3 E msg s
     = (CHIP_ERROR_INVALID_TLV_ELEMENT,
        SendStatusReport (mExchangeCtxt s) kProtocolCodeInvalidParam s)).
Proof.
  split; [ | split ].
  - intros Hdec. unfold HandleSigma3. rewrite Hdec. body_steps. reflexivity.
  - intros tag encrypted rest Hdec Htag. unfold HandleSigma3. rewrite Hdec.
    body_steps. apply Z.eqb_neq in Htag. cbn [Z.add]. rewrite Htag.
    reflexivity.
  - intros tag encrypted rest Hdec Htag Halloc Hlen. unfold HandleSigma3.
    rewrite Hdec. body_steps. cbn [Z.add]. rewrite Htag, Halloc. cbn [Z.eqb Pos.eqb].
    destruct (Nat.ltb_spec kTAGSize (List.length encrypted)); [ lia | ].
    reflexivity.
Qed.


(** *** What a successful Sigma2 or Sigma3 handler has checked *)













(** X20. After [OnMessageReceived] has handled a Sigma message with
    success, the state of the session is [kSentSigma2] or
    [kSentSigma2Resume] after Sigma1, [kSentSigma3] after Sigma2, and
    unchanged after Sigma2Resume and Sigma3, which leave the state at
    [kSentSigma1] and [kSentSigma2] while they mark the session
    established; Sigma1 and Sigma2 leave the established flag as it was. *)
Theorem OnMessageReceived_state_after_success (ec : option ExchangeContext)
  (msgType : MsgType) (msg : PacketBufferHandle) (s s' : CASESession) :
  OnMessageReceived E ec msgType msg s = (CHIP_NO_ERROR, s') ->
  hasSigmaHandler (mState s) msgType = true ->
  In (mState s') (statesAfter (mState s) msgType) /\
  mCASESessionEstablished s'
  = (if establishes (mState s) msgType then true else mCASESessionEstablished s).
Proof.
  intros H Hsig. apply OnMessageReceived_ok in H.
  destruct H as (e & payload & handler & -> & -> & Hex & Hh & Hrun).
  destruct (validatedSession_obs e s Hex) as (_ & Hst & Hest & _).
  destruct (mState s) eqn:Hs, msgType; try discriminate Hsig;
    cbn [handlerOf] in Hh; injection Hh as <-;
    cbn [statesAfter establishes In].
  - rewrite HandleSigma1_and_SendSigma2_eq in Hrun.
    pose proof (HandleSigma1_effect E _ _ _ _ Hrun) as (_ & He & _).
    apply HandleSigma1_ok in Hrun.
    rewrite He, Hest. split; [ | reflexivity ].
    destruct Hrun as [(-> & _) | (-> & _)]; auto.
  - pose proof (HandleSigma2_and_SendSigma3_effect E _ _ _ _ Hrun) as (_ & He & _).
    rewrite He, Hest. split; [ | reflexivity ].
    unfold HandleSigma2_and_SendSigma3 in Hrun.
    apply runM_inv in Hrun. destruct Hrun as (o & Hrun & Ho).
    run_body Hrun; not_left Ho.
    match goal with
    | Hs3 : SendSigma3 _ _ = _ |- _ => apply SendSigma3_ok in Hs3; destruct Hs3 as [-> _]
    end.
    auto.
  - pose proof (HandleSigma2Resume_effect E _ _ _ _ Hrun) as (_ & evs & _ & _ & _ & Hok & _).
    destruct (Hok eq_refl) as (-> & _).
    apply HandleSigma2Resume_ok in Hrun. destruct Hrun as [-> _].
    rewrite Hst. auto.
  - pose proof (HandleSigma3_effect E _ _ _ _ Hrun) as (added & evs & _ & _ & _ & _ & _ & Hok & _).
    destruct (Hok eq_refl) as (_ & -> & _).
    apply HandleSigma3_ok in Hrun. destruct Hrun as [-> _].
    rewrite Hst. auto.
Qed.

(** X21. At a responder that listens, answers a Sigma1 with a Sigma2 and
    then accepts a Sigma3, both messages came with a payload on the same
    exchange, the transcript is the received Sigma1, the sent Sigma2 and
    the received Sigma3, in this order, and the message digest of the
    session is the hash of these three.  The session is then established. *)
Theorem responder_digest_covers_the_three_messages
  (localSessionId : Z) (fabrics : option FabricTable)
  (delegate : option SessionEstablishmentDelegate)
  (ec ec' : option ExchangeContext) (msg1 msg3 : PacketBufferHandle)
  (s0 s1 s2 s3 : CASESession) :
  ListenForSessionEstablishment E localSessionId fabrics delegate s0
  = (CHIP_NO_ERROR, s1) ->
  OnMessageReceived E ec CASE_Sigma1 msg1 s1 = (CHIP_NO_ERROR, s2) ->
  mState s2 = kSentSigma2 ->
  OnMessageReceived E ec' CASE_Sigma3 msg3 s2 = (CHIP_NO_ERROR, s3) ->
  exists e Sigma1 Sigma2 Sigma3,
    ec = Some e /\ ec' = Some e /\ msg1 = Some Sigma1 /\ msg3 = Some Sigma3 /\
    trace s2
    = trace s1 ++ [EvSetResponseTimeout e kSigma_Response_Timeout;
                   EvSendMessage (Some e) CASE_Sigma2 Sigma2 true;
                   EvOnSessionEstablishmentStarted] /\
    mCommissioningHash s3 = [Sigma1; Sigma2; Sigma3] /\
    Hash_Finish E [Sigma1; Sigma2; Sigma3] = (CHIP_NO_ERROR, mMessageDigest s3) /\
    mCASESessionEstablished s3 = true.
Proof.
  intros Hl H1 Hst2 H3.
  apply ListenForSessionEstablishment_ok in Hl. destruct Hl as (_ & _ & Hs1).
  destruct (Clear_obs s0) as (Hcst & _ & _ & Hcx & _).
  assert (Hx1 : mExchangeCtxt s1 = None)
    by (subst s1; unfold initialSession; session_simpl; exact Hcx).
  assert (Hh1 : mCommissioningHash s1 = [])
    by (subst s1; unfold initialSession; session_simpl; reflexivity).
  assert (Hst1 : mState s1 = kInitialized)
    by (subst s1; unfold initialSession; session_simpl; exact Hcst).
  clear Hs1.
  apply OnMessageReceived_ok in H1.
  destruct H1 as (e & Sigma1 & handler & -> & -> & _ & Hh & Hrun).
  rewrite Hst1 in Hh. cbn [handlerOf] in Hh. injection Hh as <-.
  rewrite HandleSigma1_and_SendSigma2_eq in Hrun.
  pose proof (HandleSigma1_effect E _ _ _ _ Hrun) as (Hx2 & _).
  apply HandleSigma1_ok in Hrun.
  destruct Hrun as [(_ & Sigma2 & Hh2 & Ht2) | (Hbad & _)];
    [ | rewrite Hbad in Hst2; discriminate Hst2 ].
  rewrite validatedSession_trace in Ht2.
  unfold validatedSession in Hx2, Hh2, Ht2. rewrite Hx1 in Hx2, Hh2, Ht2.
  session_simpl_in Hx2. session_simpl_in Hh2. session_simpl_in Ht2.
  rewrite Hh1 in Hh2. cbn [app] in Hh2.
  apply OnMessageReceived_ok in H3.
  destruct H3 as (e' & Sigma3 & handler & -> & -> & Hex & Hh & Hrun).
  rewrite Hst2 in Hh. cbn [handlerOf] in Hh. injection Hh as <-.
  rewrite Hx2 in Hex. destruct Hex as [Hex | Hex]; [ discriminate Hex | ].
  injection Hex as <-.
  unfold validatedSession in Hrun. rewrite Hx2 in Hrun.
  pose proof (HandleSigma3_effect E _ _ _ _ Hrun)
    as (added & evs & _ & _ & _ & _ & _ & Hok & _).
  destruct (Hok eq_refl) as (_ & Hest & _).
  apply HandleSigma3_ok in Hrun. destruct Hrun as (_ & Hh3 & Hd3).
  rewrite Hh2 in Hh3, Hd3. cbn [app] in Hh3, Hd3.
  exists e, Sigma1, Sigma2, Sigma3.
  repeat split; try reflexivity; try assumption.
  rewrite Ht2, <- app_assoc. reflexivity.
Qed.

(** X22. At an initiator that establishes a session and then accepts a
    Sigma2, the Sigma2 came with a payload on the exchange given to
    [EstablishSession], the session answered it with a Sigma3 and is in
    state [kSentSigma3], its transcript is the sent Sigma1, the received
    Sigma2 and the sent Sigma3, in this order, and its message digest is
    the hash of these three. *)
Theorem initiator_digest_covers_the_three_messages
  (peerAddress : PeerAddress) (fabric : option FabricInfo) (peerNodeId : NodeId)
  (localSessionId : Z) (exchangeCtxt ec' : option ExchangeContext)
  (delegate : option SessionEstablishmentDelegate)
  (msg2 : PacketBufferHandle) (s0 s1 s2 : CASESession) :
  EstablishSession E peerAddress fabric peerNodeId localSessionId exchangeCtxt
    delegate s0 = (CHIP_NO_ERROR, s1) ->
  OnMessageReceived E ec' CASE_Sigma2 msg2 s1 = (CHIP_NO_ERROR, s2) ->
  exists e Sigma1 Sigma2 Sigma3,
    exchangeCtxt = Some e /\ ec' = Some e /\ msg2 = Some Sigma2 /\
    trace s1
    = trace s0 ++ closing s0
      ++ [EvSetResponseTimeout e kSigma_Response_Timeout;
          EvSendMessage (Some e) CASE_Sigma1 Sigma1 true;
          EvOnSessionEstablishmentStarted] /\
    trace s2 = trace s1 ++ [EvSendMessage (Some e) CASE_Sigma3 Sigma3 true] /\
    mState s2 = kSentSigma3 /\
    mCommissioningHash s2 = [Sigma1; Sigma2; Sigma3] /\
    Hash_Finish E [Sigma1; Sigma2; Sigma3] = (CHIP_NO_ERROR, mMessageDigest s2).
Proof.
  intros He H2.
  apply EstablishSession_ok in He. destruct He as (e & -> & _ & _ & Hs).
  apply SendSigma1_ok in Hs.
  destruct Hs as (key & random & f' & dest & optional & _ & _ & _ & _ & _ & Hs1).
  cbv zeta in Hs1.
  set (Sigma1 := TLV_encode E _) in Hs1.
  destruct (Clear_obs s0) as (_ & _ & _ & _ & Htc).
  assert (Hx1 : mExchangeCtxt s1 = Some e)
    by (subst s1; unfold initiatorStart, initialSession; session_simpl; reflexivity).
  assert (Hh1 : mCommissioningHash s1 = [Sigma1])
    by (subst s1; unfold initiatorStart, initialSession; session_simpl; reflexivity).
  assert (Hst1 : mState s1 = kSentSigma1)
    by (subst s1; unfold initiatorStart, initialSession; session_simpl; reflexivity).
  assert (Ht1 : trace s1
                = trace s0 ++ closing s0
                  ++ [EvSetResponseTimeout e kSigma_Response_Timeout;
                      EvSendMessage (Some e) CASE_Sigma1 Sigma1 true;
                      EvOnSessionEstablishmentStarted]).
  { subst s1. unfold initiatorStart, initialSession. session_simpl.
    rewrite Htc. repeat rewrite <- app_assoc. reflexivity. }
  clear Hs1.
  apply OnMessageReceived_ok in H2.
  destruct H2 as (e' & Sigma2 & handler & -> & -> & Hex & Hh & Hrun).
  rewrite Hst1 in Hh. cbn [handlerOf] in Hh. injection Hh as <-.
  rewrite Hx1 in Hex. destruct Hex as [Hex | Hex]; [ discriminate Hex | ].
  injection Hex as <-.
  unfold validatedSession in Hrun. rewrite Hx1 in Hrun.
  unfold HandleSigma2_and_SendSigma3 in Hrun.
  apply runM_inv in Hrun. destruct Hrun as (o & Hrun & Ho).
  run_body Hrun; not_left Ho.
  match goal with
  | Hc : HandleSigma2 _ _ _ = _ |- _ =>
      pose proof (HandleSigma2_effect E _ _ _ _ Hc) as (Hx2 & _);
      apply HandleSigma2_ok in Hc; destruct Hc as (_ & Hh2 & Ht2)
  end.
  match goal with
  | Hc : SendSigma3 _ _ = _ |- _ =>
      apply SendSigma3_ok in Hc; destruct Hc as (Hst3 & Sigma3 & Hh3 & Ht3 & Hd3)
  end.
  rewrite Hh2, Hh1 in Hh3, Hd3. cbn [app] in Hh3, Hd3.
  rewrite Hx2, Hx1, Ht2 in Ht3.
  exists e, Sigma1, Sigma2, Sigma3.
  repeat split; try reflexivity; assumption.
Qed.

End Lifecycle.

(** ** The further properties on concrete sessions *)

(** The concrete AEAD accepts the tags it makes, under every nonce. *)
Lemma demo_AEAD_accepts_own_tags (decode : list byte -> list TLVElement)
  (nonce key ciphertext tag : list byte) :
  AES_CCM_encrypt (with_TLV_decode decode demoCollaborators) [] [] key nonce kTAGSize
  = (CHIP_NO_ERROR, (ciphertext, tag)) ->
  List.length tag = kTAGSize /\
  fst (AES_CCM_decrypt (with_TLV_decode decode demoCollaborators) [] [] tag key nonce)
  = CHIP_NO_ERROR.
Proof.
  unfold with_TLV_decode, demoCollaborators, demoEnvironment.
  cbn [AES_CCM_encrypt AES_CCM_decrypt fst].
  intros H. apply (f_equal (fun r => snd (snd r))) in H. cbn [snd] in H. subst tag.
  split; [ | reflexivity ].
  rewrite length_firstn, length_app, repeat_length. unfold kTAGSize. lia.
Qed.

(** The Sigma1 the concrete initiator would send to resume. *)
Lemma ParseSigma1_accepts_wellformed_witness :
  ParseSigma1
    (TLVReader_Init
       (Sigma1Message (repeat x11 32) 7 (repeat x22 32) (repeat x33 65)
          ([] ++ resumptionMembers (Some (repeat x77 16, repeat x88 16)) ++ [])))
  = Done (parsedSigma1 (repeat x11 32) 7 (repeat x22 32) (repeat x33 65)
            (Some (repeat x77 16, repeat x88 16))).
Proof.
  apply ParseSigma1_accepts_wellformed.
  - reflexivity.
  - lia.
  - reflexivity.
  - reflexivity.
  - split; reflexivity.
  - left. reflexivity.
  - exact I.
Defined.

(** A Sigma1 whose random value has 31 bytes. *)
Lemma ParseSigma1_wrong_member_size_witness :
  ParseSigma1
    (TLVReader_Init (Sigma1Message (repeat x11 31) 7 (repeat x22 32) (repeat x33 65) []))
  = Exit CHIP_ERROR_INVALID_CASE_PARAMETER.
Proof.
  refine (proj1 (ParseSigma1_wrong_member_size (repeat x11 31) (repeat x22 32)
                   (repeat x33 65) [] [] 7 [] [] _ _) _).
  - lia.
  - left. reflexivity.
  - left. vm_compute. discriminate.
Defined.

(** The salt of the Sigma2 key at the responder that has sent Sigma2. *)
Lemma ConstructSalt_layout_witness :
  ConstructSaltSigma2 demoCollaborators demoResponderSentSigma2 (repeat x44 32)
    (repeat x55 65) (repeat x00 16) 145
  = (CHIP_NO_ERROR,
     repeat x00 16 ++ repeat x44 32 ++ repeat x55 65
     ++ snd (Hash_GetDigest demoCollaborators
               (mCommissioningHash demoResponderSentSigma2))).
Proof.
  refine (proj1 (ConstructSalt_layout demoCollaborators demoResponderSentSigma2
                   (repeat x44 32) (repeat x55 65) (repeat x00 16)
                   (snd (Hash_GetDigest demoCollaborators
                           (mCommissioningHash demoResponderSentSigma2)))
                   145 _ _) _).
  - vm_compute. reflexivity.
  - reflexivity.
  - vm_compute. lia.
Defined.

(** The resumption key of the established responder. *)
Lemma ConstructSigmaResumeKey_derivation_witness :
  ConstructSigmaResumeKey demoCollaborators demoResponderEstablished (repeat x11 32)
    (repeat x77 16) kKDFS1RKeyInfo kResume1MIC_Nonce 16
  = (CHIP_NO_ERROR,
     snd (HKDF_SHA256 demoCollaborators
            (secretSpan (mSharedSecret demoResponderEstablished))
            (repeat x11 32 ++ repeat x77 16) kKDFS1RKeyInfo kAEADKeySize)).
Proof.
  refine (proj2 (proj2 (ConstructSigmaResumeKey_derivation demoCollaborators
                          demoResponderEstablished (repeat x11 32) (repeat x77 16)
                          kKDFS1RKeyInfo kResume1MIC_Nonce 16))
            _ _ _ _).
  - vm_compute. lia.
  - vm_compute. lia.
  - reflexivity.
Defined.

(** The MIC the resuming responder makes, checked by the initiator that
    holds its shared secret. *)
Lemma resume_MIC_generated_is_valid_witness :
  ValidateSigmaResumeMIC demoCollaborators demoResumingInitiator
    (snd (GenerateSigmaResumeMIC demoCollaborators demoResumable (repeat x11 32)
            (repeat x99 16) kKDFS2RKeyInfo kResume2MIC_Nonce kTAGSize))
    (repeat x11 32) (repeat x99 16) kKDFS2RKeyInfo kResume2MIC_Nonce
  = CHIP_NO_ERROR.
Proof.
  apply (resume_MIC_generated_is_valid demoCollaborators demoResumable
           demoResumingInitiator (repeat x11 32) (repeat x99 16) kKDFS2RKeyInfo
           kResume2MIC_Nonce _ kTAGSize).
  - intros key ciphertext tag.
    apply (demo_AEAD_accepts_own_tags (TLV_decode demoCollaborators)).
  - reflexivity.
  - vm_compute. reflexivity.
Defined.

(** The signed data of a sender without an ICAC. *)
Lemma ConstructTBSData_layout_witness :
  snd (ConstructTBSData demoCollaborators [xaa; xab] [] (repeat x33 65)
         (repeat x02 65) 200)
  = TLV_encode demoCollaborators
      (TBSData [xaa; xab] [] (repeat x33 65) (repeat x02 65)).
Proof.
  apply (ConstructTBSData_layout demoCollaborators [xaa; xab] [] (repeat x33 65)
           (repeat x02 65) _ 200).
  vm_compute. reflexivity.
Defined.

(** The established responder, serialized and read back into a session
    before [Init]. *)
Lemma serializable_round_trip_witness :
  exists t',
    FromSerializable demoCollaborators
      (snd (ToSerializable demoResponderEstablished demoSerializable)) demoSession
    = (CHIP_NO_ERROR, t') /\
    secretSpan (mSharedSecret t') = secretSpan (mSharedSecret demoResponderEstablished) /\
    mMessageDigest t' = mMessageDigest demoResponderEstablished /\
    mResumptionId t' = mResumptionId demoResponderEstablished /\
    GetPeerNodeId t' = GetPeerNodeId demoResponderEstablished /\
    GetLocalSessionId t' = GetLocalSessionId demoResponderEstablished /\
    GetPeerSessionId t' = GetPeerSessionId demoResponderEstablished /\
    mIPK t' = GetIPKList demoCollaborators /\
    mCASESessionEstablished t' = true.
Proof.
  apply (serializable_round_trip demoCollaborators demoResponderEstablished demoSession
           demoSerializable).
  - vm_compute. reflexivity.
  - vm_compute. repeat split; lia.
  - vm_compute. repeat split; lia.
  - vm_compute. lia.
  - reflexivity.
Defined.

(** A serialized session of version 2. *)
Lemma FromSerializable_failures_witness :
  FromSerializable demoCollaborators demoOtherVersion demoStaleSecret
  = (CHIP_ERROR_VERSION_MISMATCH, demoStaleSecret).
Proof.
  pose proof (FromSerializable_failures demoCollaborators demoOtherVersion
                demoStaleSecret) as H.
  cbv zeta in H. destruct H as (_ & _ & H & _).
  apply H. vm_compute. discriminate.
Defined.

(** The initiator that has sent Sigma1 starts to listen: the exchange it
    held is closed. *)
Lemma ListenForSessionEstablishment_ready_witness :
  let r := ListenForSessionEstablishment demoCollaborators 5 (Some 1) (Some 1)
             demoInitiator in
  fst r = CHIP_NO_ERROR /\
  mState (snd r) = kInitialized /\
  mCASESessionEstablished (snd r) = false /\
  mExchangeCtxt (snd r) = None /\
  mCommissioningHash (snd r) = [] /\
  mFabricsTable (snd r) = Some 1 /\
  mDelegate (snd r) = Some 1 /\
  GetLocalSessionId (snd r) = 5 /\
  trace (snd r) = trace demoInitiator ++ closing demoInitiator.
Proof.
  pose proof (ListenForSessionEstablishment_ready demoCollaborators 5 (Some 1) (Some 1)
                demoInitiator) as H.
  cbv zeta in H. destruct H as (_ & _ & H).
  apply H.
  - discriminate.
  - discriminate.
  - reflexivity.
Defined.

(** The initiator that holds exchange 1 is told to establish a session on
    exchange 2 without a delegate: exchange 2 is closed, exchange 1 is
    not. *)
Lemma EstablishSession_failure_closes_exchange_witness :
  let r := EstablishSession demoCollaborators 0 (Some 1) 42 6 (Some 2) None
             demoInitiator in
  mState (snd r) = kInitialized /\
  mCASESessionEstablished (snd r) = false /\
  mCommissioningHash (snd r) = [] /\
  mExchangeCtxt (snd r) = None /\
  exists evs,
    trace (snd r)
    = trace demoInitiator
      ++ (match @None SessionEstablishmentDelegate with
          | Some _ => closing demoInitiator
          | None => []
          end)
      ++ evs ++ [EvExchangeClose 2] /\
    closedOf evs = [] /\ errorsOf evs = [] /\ statusReportsOf evs = [].
Proof.
  apply (EstablishSession_failure_closes_exchange demoCollaborators 0 1 42 6 2 None
           demoInitiator).
  vm_compute. discriminate.
Defined.

(** The established responder establishes a new session as an initiator:
    its Sigma1 has no resumption members. *)
Lemma EstablishSession_sends_Sigma1_without_resumption_witness :
  mCASESessionEstablished demoResponderEstablished = true /\
  exists ec fabricInfo destinationIdentifier,
    let s' := snd (EstablishSession demoCollaborators 0 (Some 1) 42 6 (Some 1) (Some 1)
                     demoResponderEstablished) in
    Some 1 = Some ec /\ Some 1 = Some fabricInfo /\
    Some 1 <> @None SessionEstablishmentDelegate /\
    mState s' = kSentSigma1 /\
    mCASESessionEstablished s' = false /\
    mExchangeCtxt s' = Some ec /\
    mFabricInfo s' = Some fabricInfo /\
    mDelegate s' = Some 1 /\
    GetLocalSessionId s' = 6 /\
    GetPeerNodeId s' = 42 /\
    GenerateDestinationID demoCollaborators fabricInfo (mIPK s') (mInitiatorRandom s') 42
    = (CHIP_NO_ERROR, destinationIdentifier) /\
    let msg_R1 :=
      TLV_encode demoCollaborators
        (Sigma1Message (mInitiatorRandom s') 6 destinationIdentifier
           (keypairPubkey (mEphemeralKey s')) []) in
    mCommissioningHash s' = [msg_R1] /\
    trace s'
    = trace demoResponderEstablished ++ closing demoResponderEstablished
      ++ [EvSetResponseTimeout ec kSigma_Response_Timeout;
          EvSendMessage (Some ec) CASE_Sigma1 msg_R1 true;
          EvOnSessionEstablishmentStarted].
Proof.
  split; [ vm_compute; reflexivity | ].
  apply (EstablishSession_sends_Sigma1_without_resumption demoCollaborators 0 (Some 1)
           42 6 (Some 1) (Some 1) demoResponderEstablished).
  vm_compute. reflexivity.
Defined.

(** The response to the initiator's Sigma1 times out. *)
Lemma OnResponseTimeout_notifies_and_clears_witness :
  trace (OnResponseTimeout demoCollaborators (Some 1) demoInitiator)
  = trace demoInitiator ++ [EvOnSessionEstablishmentError CHIP_ERROR_TIMEOUT] /\
  mState (OnResponseTimeout demoCollaborators (Some 1) demoInitiator) = kInitialized /\
  mCASESessionEstablished (OnResponseTimeout demoCollaborators (Some 1) demoInitiator)
  = false /\
  mCommissioningHash (OnResponseTimeout demoCollaborators (Some 1) demoInitiator) = [] /\
  mExchangeCtxt (OnResponseTimeout demoCollaborators (Some 1) demoInitiator) = None.
Proof.
  refine (proj2 (OnResponseTimeout_notifies_and_clears demoCollaborators (Some 1)
                   demoInitiator) _ _).
  - discriminate.
  - reflexivity.
Defined.

(** The initiator that has sent Sigma3 receives a Sigma1: the session is
    aborted and keeps its secrets. *)
Lemma Clear_keeps_key_material_witness :
  keyMaterial (snd (OnMessageReceived demoCollaborators (Some 1) CASE_Sigma1
                      (Some [x01]) demoInitiatorSentSigma3))
  = keyMaterial demoInitiatorSentSigma3.
Proof.
  refine (proj2 (proj2 (Clear_keeps_key_material demoCollaborators
                          demoInitiatorSentSigma3))
            (Some 1) CASE_Sigma1 (Some [x01]) _).
  vm_compute. reflexivity.
Defined.

(** The listening responder receives a Sigma1 for a destination its fabric
    table does not know. *)
Lemma HandleSigma1_unknown_destination_witness :
  HandleSigma1 demoStrangers [x01] demoResponder
  = (CHIP_ERROR_KEY_NOT_FOUND,
     set_mState kInitialized
       (SendStatusReport (mExchangeCtxt demoResponder) kProtocolCodeNoSharedRoot
          (set_mIPK (memcpy (mIPK demoResponder) (GetIPKList demoStrangers) kIPKSize)
             (SetPeerSessionId
                (initiatorSessionId
                   (parsedSigma1 (repeat x11 32) 7 (repeat x22 32) (repeat x33 65) None))
                (set_mCommissioningHash (mCommissioningHash demoResponder ++ [[x01]])
                   demoResponder))))).
Proof.
  apply (HandleSigma1_unknown_destination demoStrangers [x01]
           (parsedSigma1 (repeat x11 32) 7 (repeat x22 32) (repeat x33 65) None)
           1 demoResponder).
  - reflexivity.
  - vm_compute. reflexivity.
  - left. reflexivity.
  - reflexivity.
  - reflexivity.
Defined.

(** The responder that holds a resumption id receives the Sigma1 that asks
    to resume with it. *)
Lemma HandleSigma1_resumes_without_fabric_lookup_witness :
  let p := parsedSigma1 (repeat x11 32) 7 (repeat x22 32) (repeat x33 65)
             (Some (repeat x77 16, repeat x88 16)) in
  exists resumptionID resumeMIC,
    DRBG_get_bytes demoCollaborators (drbgCalls demoResumable) kCASEResumptionIDSize
    = (CHIP_NO_ERROR, resumptionID) /\
    GenerateSigmaResumeMIC demoCollaborators demoResumable (initiatorRandom p)
      resumptionID kKDFS2RKeyInfo kResume2MIC_Nonce kTAGSize
    = (CHIP_NO_ERROR, resumeMIC) /\
    demoResumed
    = emit EvOnSessionEstablishmentStarted
        (emit (EvSendMessage (mExchangeCtxt demoResumable) CASE_Sigma2Resume
                 (TLV_encode demoCollaborators
                    (Sigma2ResumeMessage resumptionID resumeMIC
                       (GetLocalSessionId demoResumable)))
                 true)
           (set_mState kSentSigma2Resume
              (set_mResumptionId resumptionID
                 (set_drbgCalls (S (drbgCalls demoResumable))
                    (SetPeerSessionId (initiatorSessionId p)
                       (set_mCommissioningHash
                          (mCommissioningHash demoResumable ++ [[x06]])
                          demoResumable)))))).
Proof.
  intros p.
  apply (HandleSigma1_resumes_without_fabric_lookup demoCollaborators [x06] p
           demoResumable demoResumed).
  - vm_compute. reflexivity.
  - reflexivity.
  - vm_compute. reflexivity.
  - vm_compute. reflexivity.
  - vm_compute. reflexivity.
Defined.

(** The Sigma2Resume of the resuming responder, handled by the initiator
    that holds its shared secret. *)
Lemma Sigma2Resume_completes_resumption_witness :
  let responder' := snd (SendSigma2Resume demoResumers (repeat x11 32) demoResumable) in
  let resumeMIC :=
    snd (GenerateSigmaResumeMIC demoResumers demoResumable (repeat x11 32)
           (mResumptionId responder') kKDFS2RKeyInfo kResume2MIC_Nonce kTAGSize) in
  let msg :=
    TLV_encode demoResumers
      (Sigma2ResumeMessage (mResumptionId responder') resumeMIC
         (GetLocalSessionId demoResumable)) in
  exists initiator',
    HandleSigma2Resume demoResumers msg demoResumingInitiator
    = (CHIP_NO_ERROR, initiator') /\
    msg = TLV_encode demoResumers
            (Sigma2ResumeMessage (mResumptionId responder') resumeMIC
               (GetLocalSessionId demoResumable)) /\
    mResumptionId initiator' = mResumptionId responder' /\
    GetPeerSessionId initiator' = GetLocalSessionId demoResumable /\
    mCASESessionEstablished initiator' = true /\
    mExchangeCtxt initiator' = None /\
    trace initiator'
    = trace demoResumingInitiator
      ++ [EvSendStatusReport (mExchangeCtxt demoResumingInitiator) kProtocolCodeSuccess;
          EvOnSessionEstablished].
Proof.
  intros responder' resumeMIC msg.
  apply (Sigma2Resume_completes_resumption demoResumers (repeat x11 32) msg resumeMIC
           demoResumable responder' demoResumingInitiator).
  - intros key ciphertext tag. apply demo_AEAD_accepts_own_tags.
  - vm_compute. reflexivity.
  - vm_compute. reflexivity.
  - vm_compute. reflexivity.
  - vm_compute. reflexivity.
  - vm_compute. reflexivity.
  - split; vm_compute; discriminate.
  - reflexivity.
  - reflexivity.
  - vm_compute. lia.
Defined.

(** The initiator receives a Sigma2Resume whose MIC the decryption
    refuses. *)
Lemma Sigma2Resume_with_bad_MIC_replaces_resumption_id_witness :
  mResumptionId demoInitiator <> repeat x77 16 /\
  fst (OnMessageReceived demoForgers (Some 1) CASE_Sigma2Resume (Some [x04])
         demoInitiator)
  <> CHIP_NO_ERROR /\
  mResumptionId (snd (OnMessageReceived demoForgers (Some 1) CASE_Sigma2Resume
                        (Some [x04]) demoInitiator))
  = repeat x77 16.
Proof.
  split; [ vm_compute; discriminate | ].
  refine (proj2 (Sigma2Resume_with_bad_MIC_replaces_resumption_id demoForgers 1 [x04]
                   (repeat x77 16) (repeat x88 16) (ContextTag 1) (ContextTag 2)
                   [TLVUnsigned (ContextTag 3) 9] demoInitiator _ _ _ _ _ _ _) _ _).
  - reflexivity.
  - reflexivity.
  - reflexivity.
  - reflexivity.
  - reflexivity.
  - vm_compute. lia.
  - vm_compute. discriminate.
  - reflexivity.
  - reflexivity.
Defined.

(** A Sigma3 that does not decode, and one whose encrypted member has 16
    bytes. *)
Lemma HandleSigma3_malformed_witness :
  HandleSigma3 demoCollaborators [x00] demoResponderSentSigma2
  = (CHIP_END_OF_TLV,
     SendStatusReport (mExchangeCtxt demoResponderSentSigma2) kProtocolCodeInvalidParam
       demoResponderSentSigma2)
  /\
  HandleSigma3 demoTruncators [x03] demoResponderSentSigma2
  = (CHIP_ERROR_INVALID_TLV_ELEMENT,
     SendStatusReport (mExchangeCtxt demoResponderSentSigma2) kProtocolCodeInvalidParam
       demoResponderSentSigma2).
Proof.
  split.
  - refine (proj1 (HandleSigma3_malformed demoCollaborators [x00]
                     demoResponderSentSigma2) _).
    reflexivity.
  - refine (proj2 (proj2 (HandleSigma3_malformed demoTruncators [x03]
                            demoResponderSentSigma2))
              (ContextTag 1) (repeat x66 16) [] _ _ _ _).
    + reflexivity.
    + reflexivity.
    + reflexivity.
    + vm_compute. lia.
Defined.


(** The responder that has sent Sigma2 accepts Sigma3: it is established
    and still in state [kSentSigma2]. *)
Lemma OnMessageReceived_state_after_success_witness :
  In (mState demoResponderEstablished)
    (statesAfter (mState demoResponderSentSigma2) CASE_Sigma3) /\
  mCASESessionEstablished demoResponderEstablished
  = (if establishes (mState demoResponderSentSigma2) CASE_Sigma3
     then true
     else mCASESessionEstablished demoResponderSentSigma2).
Proof.
  apply (OnMessageReceived_state_after_success demoCollaborators (Some 1) CASE_Sigma3
           (Some [x03]) demoResponderSentSigma2 demoResponderEstablished).
  - vm_compute. reflexivity.
  - vm_compute. reflexivity.
Defined.

(** The responder's side of the concrete handshake. *)
Lemma responder_digest_covers_the_three_messages_witness :
  exists e Sigma1 Sigma2 Sigma3,
    Some 1 = Some e /\ Some 1 = Some e /\
    Some [x01] = Some Sigma1 /\ Some [x03] = Some Sigma3 /\
    trace demoResponderSentSigma2
    = trace demoResponder ++ [EvSetResponseTimeout e kSigma_Response_Timeout;
                              EvSendMessage (Some e) CASE_Sigma2 Sigma2 true;
                              EvOnSessionEstablishmentStarted] /\
    mCommissioningHash demoResponderEstablished = [Sigma1; Sigma2; Sigma3] /\
    Hash_Finish demoCollaborators [Sigma1; Sigma2; Sigma3]
    = (CHIP_NO_ERROR, mMessageDigest demoResponderEstablished) /\
    mCASESessionEstablished demoResponderEstablished = true.
Proof.
  apply (responder_digest_covers_the_three_messages demoCollaborators 5 (Some 1)
           (Some 1) (Some 1) (Some 1) (Some [x01]) (Some [x03]) demoSession
           demoResponder demoResponderSentSigma2 demoResponderEstablished).
  - vm_compute. reflexivity.
  - vm_compute. reflexivity.
  - vm_compute. reflexivity.
  - vm_compute. reflexivity.
Defined.

(** The initiator's side of the concrete handshake. *)
Lemma initiator_digest_covers_the_three_messages_witness :
  exists e Sigma1 Sigma2 Sigma3,
    Some 1 = Some e /\ Some 1 = Some e /\ Some [x02] = Some Sigma2 /\
    trace demoInitiator
    = trace demoSession ++ closing demoSession
      ++ [EvSetResponseTimeout e kSigma_Response_Timeout;
          EvSendMessage (Some e) CASE_Sigma1 Sigma1 true;
          EvOnSessionEstablishmentStarted] /\
    trace demoInitiatorSentSigma3
    = trace demoInitiator ++ [EvSendMessage (Some e) CASE_Sigma3 Sigma3 true] /\
    mState demoInitiatorSentSigma3 = kSentSigma3 /\
    mCommissioningHash demoInitiatorSentSigma3 = [Sigma1; Sigma2; Sigma3] /\
    Hash_Finish demoCollaborators [Sigma1; Sigma2; Sigma3]
    = (CHIP_NO_ERROR, mMessageDigest demoInitiatorSentSigma3).
Proof.
  apply (initiator_digest_covers_the_three_messages demoCollaborators 0 (Some 1) 42 6
           (Some 1) (Some 1) (Some 1) (Some [x02]) demoSession demoInitiator
           demoInitiatorSentSigma3).
  - vm_compute. reflexivity.
  - vm_compute. reflexivity.
Defined.
